(** * timeit_compare: a model of the measurement-and-reporting engine

    Shallow embedding of [timeit_compare/__init__.py] (and, in [Module Legacy],
    of the parts of the older single-file module [timeit_compare.py] that the
    properties below talk about).

    Conventions of the embedding.
    - A Python [float] is a rational ([Q]); binary rounding is not modelled.
      Concrete examples use dyadic rationals, on which the float operations
      involved are exact.
    - A dynamically typed argument is a [pyval].
    - A Python [dict] (insertion ordered) is an association list.
    - A raised exception is the [Raise] outcome of a computation; the state is
      threaded through raises, as Python keeps every mutation made before the
      raise.
    - A timer object is referred to by its id, which is its key in
      [Compare._timer]. *)

From Stdlib Require Import ZArith QArith Qround List String Ascii Bool Lia.
From Stdlib Require Import Permutation Sorted.
Import ListNotations.

Local Open Scope Z_scope.
Local Open Scope string_scope.
Local Open Scope list_scope.

(** ** Python values, exceptions, outcomes *)

(** The dynamically typed values that reach the code below. *)
Inductive pyval : Type :=
| VNone
| VBool (b : bool)
| VInt (z : Z)
| VFloat (q : Q)
| VStr (s : string)
| VOther (type_name : string).

(** The exception classes that occur. [StmtError] is any [Exception] raised by
    a timed statement or its setup; [KeyboardInterrupt] is not an
    [Exception]. *)
Inductive exn : Type :=
| KeyboardInterrupt
| TypeError
| ValueError
| KeyError
| StmtError (what : string).

Inductive outcome (A : Type) : Type :=
| Ok (a : A)
| Raise (e : exn)
| Timeout.

Arguments Ok {A} a.
Arguments Raise {A} e.
Arguments Timeout {A}.

(** State and exception monad: the state survives a raise. [Timeout] is the
    model running out of fuel in a [while True] loop. *)
Definition M (S A : Type) : Type := S -> S * outcome A.

Definition ret {S A} (a : A) : M S A := fun s => (s, Ok a).

Definition bind {S A B} (c : M S A) (k : A -> M S B) : M S B :=
  fun s =>
    match c s with
    | (s', Ok a) => k a s'
    | (s', Raise e) => (s', Raise e)
    | (s', Timeout) => (s', Timeout)
    end.

Definition raise {S A} (e : exn) : M S A := fun s => (s, Raise e).
Definition modify {S} (f : S -> S) : M S unit := fun s => (f s, Ok tt).
Definition gets {S A} (f : S -> A) : M S A := fun s => (s, Ok (f s)).
Definition lift {S A} (o : outcome A) : M S A := fun s => (s, o).

Declare Scope monad_scope.
Delimit Scope monad_scope with monad.
Notation "x <- c1 ;; c2" := (bind c1 (fun x => c2))
  (at level 61, c1 at next level, right associativity) : monad_scope.
Notation "c1 ;; c2" := (bind c1 (fun _ => c2))
  (at level 61, right associativity) : monad_scope.
Local Open Scope monad_scope.

(** [for x in l: body(x)] *)
Fixpoint for_each {S A} (l : list A) (body : A -> M S unit) : M S unit :=
  match l with
  | [] => ret tt
  | x :: l' => body x ;; for_each l' body
  end.

(** [for _ in range(k): body] *)
Fixpoint for_range {S} (k : nat) (body : M S unit) : M S unit :=
  match k with
  | O => ret tt
  | S k' => body ;; for_range k' body
  end.

(** ** Numbers *)

(** A value for which [isinstance(value, (float, int))] holds; [bool] is a
    subclass of [int]. *)
Inductive num : Type :=
| NInt (z : Z)
| NFloat (q : Q)
| NBool (b : bool).

Definition num_val (x : num) : Q :=
  match x with
  | NInt z => inject_Z z
  | NFloat q => q
  | NBool b => if b then 1%Q else 0%Q
  end.

Definition pyval_of_num (x : num) : pyval :=
  match x with
  | NInt z => VInt z
  | NFloat q => VFloat q
  | NBool b => VBool b
  end.

(** [isinstance(v, (float, int))], returning the number when it holds. *)
Definition as_float_or_int (v : pyval) : option num :=
  match v with
  | VInt z => Some (NInt z)
  | VFloat q => Some (NFloat q)
  | VBool b => Some (NBool b)
  | _ => None
  end.

(** [isinstance(v, int)] *)
Definition as_int (v : pyval) : option Z :=
  match v with
  | VInt z => Some z
  | VBool b => Some (if b then 1 else 0)
  | _ => None
  end.

(** [int(q)]: truncation toward zero. *)
Definition py_int (q : Q) : Z := Z.quot (Qnum q) (Zpos (Qden q)).

(** [round(q)]: to the nearest integer, ties to the even one. *)
Definition py_round (q : Q) : Z :=
  let f := Qfloor q in
  let r := (q - inject_Z f)%Q in
  match (r ?= 1 # 2)%Q with
  | Lt => f
  | Gt => f + 1
  | Eq => if Z.even f then f else f + 1
  end.

(** ** Calls into the host

    What a call of a function that is not part of this program does: return a
    value or raise. *)
Inductive called (A : Type) : Type :=
| Returns (a : A)
| Throws (e : exn).

Arguments Returns {A} a.
Arguments Throws {A} e.

(** An aggregation function: called on the tuple of durations, it returns any
    value or raises anything. *)
Definition StatFunc : Type := list Q -> called pyval.

(** The host environment: the timing primitive and the library functions the
    program calls. *)
Class Host : Type := {
  (** [Timer.timeit(number)] of the standard library: the [i]-th call made,
      on the timer with this id, with this iteration count, returns the
      elapsed seconds or raises (an error of the statement, or a
      [KeyboardInterrupt] delivered while it runs). *)
  timeit_prim : nat -> Z -> Z -> called Q;
  (** [str.isidentifier], [keyword.iskeyword], [str.lower] *)
  str_isidentifier : string -> bool;
  iskeyword : string -> bool;
  str_lower : string -> string;
  (** [s.replace(',', ' ').split()] *)
  split_names : string -> list string;
  (** iteration order of [set(l)] *)
  set_iter : list Z -> list Z;
  (** the functions of [_DEFAULT_STATS] *)
  stat_mean : StatFunc;
  stat_median : StatFunc;
  stat_min : StatFunc;
  stat_max : StatFunc;
  stat_std : StatFunc
}.

(** ** Statistics *)

(** [_stat_call(func, time)]. The value [None] of the source is [None] here:
    the statistic is unavailable. The bare [except:] catches every exception;
    falling off the end of the [try] returns [None]. *)
Definition _stat_call (func : StatFunc) (time : list Q) : outcome (option num) :=
  match func time with
  | Returns value =>
      match as_float_or_int value with
      | Some x => Ok (Some x)
      | None => Ok None
      end
  | Throws _ => Ok None
  end.

(** The value [_stat_call] returns. *)
Definition stat_value (func : StatFunc) (time : list Q) : option num :=
  match func time with
  | Returns value => as_float_or_int value
  | Throws _ => None
  end.

(** ** Dictionaries

    Insertion-ordered, as Python's: assigning to an existing key keeps the
    key's position, assigning to a new key appends. *)
Section Dict.
Context {K V : Type} (eqb : K -> K -> bool).

Fixpoint dict_get (k : K) (d : list (K * V)) : option V :=
  match d with
  | [] => None
  | (k', v) :: d' => if eqb k k' then Some v else dict_get k d'
  end.

Fixpoint dict_set (k : K) (v : V) (d : list (K * V)) : list (K * V) :=
  match d with
  | [] => [(k, v)]
  | (k', v') :: d' =>
      if eqb k k' then (k', v) :: d' else (k', v') :: dict_set k v d'
  end.

Definition dict_mem (k : K) (d : list (K * V)) : bool :=
  match dict_get k d with Some _ => true | None => false end.

Definition dict_keys (d : list (K * V)) : list K := map fst d.
End Dict.

Definition sget {V} := @dict_get string V String.eqb.
Definition sset {V} := @dict_set string V String.eqb.
Definition smem {V} := @dict_mem string V String.eqb.
Definition zget {V} := @dict_get Z V Z.eqb.
Definition zset {V} := @dict_set Z V Z.eqb.

(** ** Timers *)

(** The statement of a timer, as far as [get_line] distinguishes it. *)
Inductive Stmt : Type :=
| Source (code : string)
| Invocable (name : option string)
| OtherStmt.

(** [TimerResult] *)
Record TimerResult : Type := mkTimerResult {
  res_id : Z;
  res_repeat : nat;
  res_stats : list (string * option num);
  res_time : list Q;
  res_number : Z
}.

(** The attributes of a [_Timer]. [timer_results] is the attribute [_results]
    that [Compare.run] creates ([None] until then); [timer_result] is the
    cache [_result]. *)
Record Timer : Type := mkTimer {
  timer_id : Z;
  timer_stmt : Stmt;
  timer_time : list Q;
  timer_total_time : Q;
  timer_stats : list (string * option num);
  timer_result : option TimerResult;
  timer_results : option (option unit)
}.

(** [_Timer.__init__] *)
Definition new_timer (stmt : Stmt) : Timer :=
  {| timer_id := -1; timer_stmt := stmt; timer_time := [];
     timer_total_time := 0; timer_stats := []; timer_result := None;
     timer_results := None |}.

(** [_Timer.repeat] *)
Definition timer_repeat (t : Timer) : nat := List.length (timer_time t).

(** [_Timer.add_stat] *)
Definition timer_add_stat (stat : string) (func : StatFunc) (t : Timer)
  : outcome Timer :=
  match _stat_call func (timer_time t) with
  | Ok v =>
      Ok {| timer_id := timer_id t; timer_stmt := timer_stmt t;
            timer_time := timer_time t;
            timer_total_time := timer_total_time t;
            timer_stats := sset stat v (timer_stats t);
            timer_result := None;
            timer_results := timer_results t |}
  | Raise e => Raise e
  | Timeout => Timeout
  end.

(** ** Output

    Formatting a float into text is done by the host; a formatted cell records
    the format call and its arguments. *)
Inductive cell : Type :=
| CStr (s : string)
| CId (id : Z)                          (* f'{self.id}' *)
| CStmt (stmt : Stmt)                   (* the statement's label *)
| CRepeat (n : nat)                     (* f'{self.repeat}' *)
| CTime (second : num) (p : Z)          (* format_time(second, p) *)
| CPercentage (percent : Q) (p : Z)     (* format_percentage(percent, p) *)
| CProgress (percent : Q) (p : Z).      (* format_progress(percent, p) *)

(** [_Timer._null] *)
Definition _null : cell := CStr "-".

(** A header cell: a fixed text, or [stat.title()] with the sort arrow
    ([Some false] is the down arrow, [Some true] the up arrow). *)
Inductive hcell : Type :=
| HStr (s : string)
| HStat (stat : string) (arrow : option bool).

(** The arguments of one call of [_table]; the two notes are determined by
    [_number] and the total time. *)
Record Table : Type := mkTable {
  tbl_title : string;
  tbl_header : list hcell;
  tbl_header_cols : list Z;
  tbl_body : list (list cell);
  tbl_number : Z;
  tbl_total_time : Q
}.

Inductive out_event : Type :=
| OutLine (s : string)                  (* print(s) *)
| OutProgress (i task_num : nat)        (* one line of _run_progress *)
| OutTable (t : Table).                 (* print(_table(...)) *)

(** The world outside the program: the [timeit] calls made so far (timer id
    and iteration count) and what was printed. *)
Record World : Type := mkWorld {
  calls : list (Z * Z);
  stdout : list out_event
}.

(** ** The Compare object *)

(** [_catch_interrupt] is an attribute that exists only once [compare] has
    created it: [None] is the absent attribute, [Some None] the attribute set
    to [None]. *)
Record Compare : Type := mkCompare {
  _timer_id : Z;
  _timer : list (Z * Timer);
  _stats : list (string * StatFunc);
  _number : Z;
  _stats_namedtuple : option (list string);
  _catch_interrupt : option (option exn)
}.

Record St : Type := mkSt {
  self : Compare;
  world : World
}.

Definition set_self (f : Compare -> Compare) (st : St) : St :=
  {| self := f (self st); world := world st |}.

Definition print (e : out_event) : M St unit :=
  modify (fun st =>
    {| self := self st;
       world := {| calls := calls (world st);
                   stdout := stdout (world st) ++ [e] |} |}).

(** [s.startswith('_')] *)
Definition startswith_underscore (s : string) : bool :=
  match s with
  | String c _ => Ascii.eqb c "_"%char
  | EmptyString => false
  end.

(** [timer.add_stat(stat, func)], which cannot fail. *)
Definition timer_with_stat (stat : string) (func : StatFunc) (t : Timer) : Timer :=
  {| timer_id := timer_id t; timer_stmt := timer_stmt t;
     timer_time := timer_time t; timer_total_time := timer_total_time t;
     timer_stats := sset stat (stat_value func (timer_time t)) (timer_stats t);
     timer_result := None; timer_results := timer_results t |}.

Section Program.
Context {host : Host}.

(** [_DEFAULT_STATS] *)
Definition _DEFAULT_STATS : list (string * StatFunc) :=
  [("mean", stat_mean); ("median", stat_median); ("min", stat_min);
   ("max", stat_max); ("std", stat_std)].

(** [Compare.__init__] *)
Definition Compare_init : Compare :=
  {| _timer_id := 0; _timer := []; _stats := _DEFAULT_STATS; _number := 0;
     _stats_namedtuple := None; _catch_interrupt := None |}.

(** [Compare.add_timer]: the new timer computes every registered statistic
    on its empty tuple of durations, then receives the next id. *)
Definition add_timer (stmt : Stmt) : M St Z :=
  fun st =>
    let c := self st in
    let add acc sf :=
      match acc with
      | Ok timer => timer_add_stat (fst sf) (snd sf) timer
      | other => other
      end in
    match fold_left add (_stats c) (Ok (new_timer stmt)) with
    | Ok timer =>
        let id := _timer_id c in
        let timer' :=
          {| timer_id := id; timer_stmt := timer_stmt timer;
             timer_time := timer_time timer;
             timer_total_time := timer_total_time timer;
             timer_stats := timer_stats timer;
             timer_result := timer_result timer;
             timer_results := timer_results timer |} in
        (set_self (fun c =>
           {| _timer_id := id + 1; _timer := zset id timer' (_timer c);
              _stats := _stats c; _number := _number c;
              _stats_namedtuple := _stats_namedtuple c;
              _catch_interrupt := _catch_interrupt c |}) st, Ok id)
    | Raise e => (st, Raise e)
    | Timeout => (st, Timeout)
    end.

(** [Compare._check_stat]; the [message] argument only changes the text of
    the error. *)
Definition _check_stat (stat : pyval) : outcome string :=
  match stat with
  | VStr s =>
      if negb (str_isidentifier s) then Raise ValueError
      else if iskeyword s then Raise ValueError
      else if startswith_underscore s then Raise ValueError
      else Ok (str_lower s)
  | _ => Raise TypeError
  end.

(** [Compare._check_stat_select] *)
Definition _check_stat_select (c : Compare) (stat : pyval) : outcome string :=
  match _check_stat stat with
  | Ok s => if smem s (_stats c) then Ok s else Raise ValueError
  | other => other
  end.

(** The second argument of [add_stat]: a callable or anything else. *)
Inductive func_arg : Type :=
| Callable (f : StatFunc)
| NotCallable (v : pyval).

(** [for value in d.values(): value = f(value)], in the order of [d]. *)
Fixpoint each_value {A B : Type} (f : A -> outcome B) (d : list (Z * A))
  : outcome (list (Z * B)) :=
  match d with
  | [] => Ok []
  | (id, a) :: d' =>
      match f a with
      | Ok b =>
          match each_value f d' with
          | Ok d'' => Ok ((id, b) :: d'')
          | other => other
          end
      | Raise e => Raise e
      | Timeout => Timeout
      end
  end.

(** [Compare.add_stat] *)
Definition add_stat (stat : pyval) (func : func_arg) : M St unit :=
  stat <- lift (_check_stat stat) ;;
  match func with
  | NotCallable _ => raise TypeError
  | Callable f =>
      modify (set_self (fun c =>
        {| _timer_id := _timer_id c; _timer := _timer c;
           _stats := sset stat f (_stats c); _number := _number c;
           _stats_namedtuple := None;
           _catch_interrupt := _catch_interrupt c |})) ;;
      timers <- gets (fun st => _timer (self st)) ;;
      timers' <- lift (each_value (timer_add_stat stat f) timers) ;;
      modify (set_self (fun c =>
        {| _timer_id := _timer_id c; _timer := timers';
           _stats := _stats c; _number := _number c;
           _stats_namedtuple := _stats_namedtuple c;
           _catch_interrupt := _catch_interrupt c |}))
  end.

(** ** Compare.run *)

(** One value of the dictionary [new]: the keys ['time'], ['total_time'],
    ['stats'] and ['_results']. *)
Record Result : Type := mkResult {
  r_time : list Q;
  r_total_time : Q;
  r_stats : list (string * option num);
  r_results : option unit
}.

(** The state while [run] executes: the object and the world, and the local
    variables that outlive the [try] block. [progress_i] is the position of
    the progress generator. *)
Record RunSt : Type := mkRunSt {
  rs_st : St;
  rs_number : Z;
  rs_new : list (Z * Result);
  rs_progress_i : nat
}.

(** [timer.timeit(n)]: logs the call and asks the host. From Python 3.11 on
    the override adds a note to an [Exception] and raises it again. *)
Definition timeit (id n : Z) : M RunSt Q :=
  fun rs =>
    let w := world (rs_st rs) in
    let rs' :=
      {| rs_st := {| self := self (rs_st rs);
                     world := {| calls := calls w ++ [(id, n)];
                                 stdout := stdout w |} |};
         rs_number := rs_number rs; rs_new := rs_new rs;
         rs_progress_i := rs_progress_i rs |} in
    match timeit_prim (List.length (calls w)) id n with
    | Returns t => (rs', Ok t)
    | Throws e => (rs', Raise e)
    end.

(** [for timer in new: t += timer.timeit(n)], from [t]. *)
Fixpoint pass (ids : list Z) (n : Z) (t : Q) : M RunSt Q :=
  match ids with
  | [] => ret t
  | id :: ids' => dt <- timeit id n ;; pass ids' n (t + dt)%Q
  end.

(** [int(n * 0.25 / t) + 1 if t else n * 2] *)
Definition next_n (n : Z) (t : Q) : Z :=
  if negb (Qeq_bool t 0)
  then py_int (inject_Z n * (25 # 100) / t) + 1
  else n * 2.

(** [max(round(n * time / t / repeat), 1)] *)
Definition estimated_number (n : Z) (time t : Q) (repeat : Z) : Z :=
  Z.max (py_round (inject_Z n * time / t / inject_Z repeat)) 1.

Definition set_number (x : Z) : M RunSt unit :=
  modify (fun rs =>
    {| rs_st := rs_st rs; rs_number := x; rs_new := rs_new rs;
       rs_progress_i := rs_progress_i rs |}).

(** The [while True] loop of the estimation, entered with [n]. *)
Fixpoint estimate (fuel : nat) (repeat : Z) (time : Q) (n : Z)
  : M RunSt unit :=
  match fuel with
  | O => lift Timeout
  | S fuel' =>
      ids <- gets (fun rs => dict_keys (rs_new rs)) ;;
      t <- pass ids n 0 ;;
      if Qlt_le_dec (2 # 10) t
      then set_number (estimated_number n time t repeat)
      else estimate fuel' repeat time (next_n n t)
  end.

(** [next(progress)]: with [show_progress] the generator prints its next
    line; it is asked [task_num + 1] times at most and is never
    exhausted. *)
Definition next_progress (show_progress : bool) (task_num : nat)
  : M RunSt unit :=
  fun rs =>
    let st := rs_st rs in
    let st' :=
      if show_progress
      then fst (print (OutProgress (rs_progress_i rs) task_num) st)
      else st in
    ({| rs_st := st'; rs_number := rs_number rs; rs_new := rs_new rs;
        rs_progress_i := S (rs_progress_i rs) |}, Ok tt).

(** [result['time'].append(t / number); result['total_time'] += t] *)
Definition record_trial (t : Q) (nb : Z) (r : Result) : Result :=
  {| r_time := r_time r ++ [(t / inject_Z nb)%Q];
     r_total_time := (r_total_time r + t)%Q;
     r_stats := r_stats r; r_results := r_results r |}.

Definition update_result (id : Z) (f : Result -> Result) : M RunSt unit :=
  modify (fun rs =>
    {| rs_st := rs_st rs; rs_number := rs_number rs;
       rs_new := map (fun kv => if Z.eqb (fst kv) id
                             then (fst kv, f (snd kv)) else kv) (rs_new rs);
       rs_progress_i := rs_progress_i rs |}).

(** The body of [for timer, result in new.items()]. *)
Definition trial (show_progress : bool) (task_num : nat) (id : Z)
  : M RunSt unit :=
  nb <- gets rs_number ;;
  t <- timeit id nb ;;
  update_result id (record_trial t nb) ;;
  next_progress show_progress task_num.

(** The measuring part of the [try] block: the progress generator and the
    two nested loops. *)
Definition measure (repeat : Z) (show_progress : bool) : M RunSt unit :=
  ids <- gets (fun rs => dict_keys (rs_new rs)) ;;
  let task_num := (List.length ids * Z.to_nat repeat)%nat in
  next_progress show_progress task_num ;;
  for_range (Z.to_nat repeat)
    (for_each ids (trial show_progress task_num)).

(** The [try] block of [run]. *)
Definition run_try (fuel : nat) (repeat : Z) (time : Q)
    (show_progress : bool) : M RunSt unit :=
  nb <- gets rs_number ;;
  (if (nb <=? 0)%Z then estimate fuel repeat time 1 else ret tt) ;;
  measure repeat show_progress.

(** [for stat, func in self._stats.items():
       result['stats'][stat] = _stat_call(func, result['time'])] *)
Fixpoint compute_stats (fs : list (string * StatFunc)) (time : list Q)
    (acc : list (string * option num))
  : outcome (list (string * option num)) :=
  match fs with
  | [] => Ok acc
  | (stat, func) :: fs' =>
      match _stat_call func time with
      | Ok v => compute_stats fs' time (sset stat v acc)
      | Raise e => Raise e
      | Timeout => Timeout
      end
  end.

(** The body of [for result in new.values()]. *)
Definition finish_result (fs : list (string * StatFunc)) (r : Result)
  : outcome Result :=
  match compute_stats fs (r_time r) (r_stats r) with
  | Ok stats =>
      Ok {| r_time := r_time r; r_total_time := r_total_time r;
            r_stats := stats; r_results := r_results r |}
  | Raise e => Raise e
  | Timeout => Timeout
  end.

(** [timer.__dict__.update(result)]: the keys of [result] are ['time'],
    ['total_time'], ['stats'] and ['_results']; the attribute [_result] is
    not among them. *)
Definition dict_update (timer : Timer) (r : Result) : Timer :=
  {| timer_id := timer_id timer; timer_stmt := timer_stmt timer;
     timer_time := r_time r; timer_total_time := r_total_time r;
     timer_stats := r_stats r; timer_result := timer_result timer;
     timer_results := Some (r_results r) |}.

(** What [run] does after the [try] statement. *)
Definition run_finish (show_progress : bool) (rs : RunSt) : St * outcome unit :=
  let st := if show_progress then fst (print (OutLine "") (rs_st rs))
            else rs_st rs in
  match each_value (finish_result (_stats (self st))) (rs_new rs) with
  | Ok new' =>
      (set_self (fun c =>
         {| _timer_id := _timer_id c;
            _timer := map (fun kv => match zget (fst kv) new' with
                                     | Some r => (fst kv, dict_update (snd kv) r)
                                     | None => kv
                                     end) (_timer c);
            _stats := _stats c; _number := rs_number rs;
            _stats_namedtuple := _stats_namedtuple c;
            _catch_interrupt := _catch_interrupt c |}) st, Ok tt)
  | Raise e => (st, Raise e)
  | Timeout => (st, Timeout)
  end.

Definition empty_result : Result :=
  {| r_time := []; r_total_time := 0; r_stats := []; r_results := None |}.

(** The state in which the [try] block is entered: [new] has an empty
    result for every timer. *)
Definition enter_try (st : St) (number : Z) (timers : list (Z * Timer))
  : RunSt :=
  {| rs_st := st; rs_number := number;
     rs_new := map (fun kv => (fst kv, empty_result)) timers;
     rs_progress_i := O |}.

(** [self._catch_interrupt = e] *)
Definition set_catch_interrupt (v : option exn) (st : St) : St :=
  set_self (fun c =>
    {| _timer_id := _timer_id c; _timer := _timer c; _stats := _stats c;
       _number := _number c; _stats_namedtuple := _stats_namedtuple c;
       _catch_interrupt := Some v |}) st.

(** The checks of [run] on its arguments, with the clamped [repeat] and
    [time]. *)
Definition run_checks (repeat number time : pyval) : outcome (Z * Z * Q) :=
  match as_int repeat with
  | None => Raise TypeError
  | Some repeat =>
      let repeat := if (repeat <? 1)%Z then 1 else repeat in
      match as_int number with
      | None => Raise TypeError
      | Some number =>
          match as_float_or_int time with
          | None => Raise TypeError
          | Some time =>
              let time := if Qlt_le_dec (num_val time) 0 then 0%Q
                          else num_val time in
              Ok (repeat, number, time)
          end
      end
  end.

(** [if show_progress: print('timing now...')] *)
Definition announce (show_progress : bool) (st : St) : St :=
  if show_progress then fst (print (OutLine "timing now...") st) else st.

(** The [except] clause, when interrupts are caught:
    [self._catch_interrupt = e]. *)
Definition capture (e : exn) (rs : RunSt) : RunSt :=
  {| rs_st := set_catch_interrupt (Some e) (rs_st rs);
     rs_number := rs_number rs; rs_new := rs_new rs;
     rs_progress_i := rs_progress_i rs |}.

(** [Compare.run]. [show_progress] is the argument after [bool()]. *)
Definition run (fuel : nat) (repeat number time : pyval)
    (show_progress : bool) : M St unit :=
  fun st =>
    match run_checks repeat number time with
    | Ok (repeat, number, time) =>
        match _timer (self st) with
        | [] => (st, Ok tt)
        | timers =>
            let rs0 := enter_try (announce show_progress st) number timers in
            let catch_interrupt :=
              match _catch_interrupt (self st) with
              | Some _ => true
              | None => false
              end in
            match run_try fuel repeat time show_progress rs0 with
            | (rs1, Ok _) => run_finish show_progress rs1
            | (rs1, Raise KeyboardInterrupt) =>
                if catch_interrupt
                then run_finish show_progress (capture KeyboardInterrupt rs1)
                else (rs_st rs1, Raise KeyboardInterrupt)
            | (rs1, Raise e) => (rs_st rs1, Raise e)
            | (rs1, Timeout) => (rs_st rs1, Timeout)
            end
        end
    | Raise e => (st, Raise e)
    | Timeout => (st, Timeout)
    end.

(** ** Reporting *)

(** The [stats] and [percentage] arguments: [None], a string of names, or
    an iterable of anything. *)
Inductive names_arg : Type :=
| NamesNone
| NamesStr (s : string)
| NamesList (l : list pyval).

(** What [_print_results_args] returns. The timers are references (ids);
    [percentage] is a set, kept here as a list without duplicates. *)
Record PrintArgs : Type := mkPrintArgs {
  pa_timers : list Z;
  pa_sort_by : option string;
  pa_reverse : bool;
  pa_stats : list string;
  pa_percentage : list string;
  pa_precision : Z
}.

Fixpoint map_m {S A B : Type} (f : A -> M S B) (l : list A) : M S (list B) :=
  match l with
  | [] => ret []
  | x :: l' => y <- f x ;; ys <- map_m f l' ;; ret (y :: ys)
  end.

(** [self._timer[i]] *)
Definition timer_ref (i : Z) : M St Z :=
  c <- gets self ;;
  match zget i (_timer c) with
  | Some _ => ret i
  | None => raise KeyError
  end.

Definition mem_string (s : string) (l : list string) : bool :=
  existsb (String.eqb s) l.

Definition mem_Z (z : Z) (l : list Z) : bool := existsb (Z.eqb z) l.

(** [Compare._print_results_args]; [reverse] is the argument after
    [bool()]. *)
Definition _print_results_args (include exclude : option (list Z))
    (sort_by : pyval) (reverse : bool) (stats percentage : names_arg)
    (precision : pyval) : M St PrintArgs :=
  c <- gets self ;;
  timers <-
    match include, exclude with
    | Some _, Some _ => raise ValueError
    | Some include, None => map_m timer_ref (set_iter include)
    | None, Some exclude =>
        ret (filter (fun i => negb (mem_Z i exclude)) (dict_keys (_timer c)))
    | None, None => ret (dict_keys (_timer c))
    end ;;
  sort_by <-
    match sort_by with
    | VNone => ret None
    | v => s <- lift (_check_stat_select c v) ;; ret (Some s)
    end ;;
  stats <-
    match stats with
    | NamesNone => ret (dict_keys (_stats c))
    | NamesStr s =>
        map_m (fun v => lift (_check_stat_select c v))
              (map VStr (split_names s))
    | NamesList l => map_m (fun v => lift (_check_stat_select c v)) l
    end ;;
  let percentage :=
    match percentage with
    | NamesNone =>
        match sort_by with
        | None => []
        | Some s => map VStr (split_names s)
        end
    | NamesStr s => map VStr (split_names s)
    | NamesList l => l
    end in
  percentage <- map_m (fun v => lift (_check_stat_select c v)) percentage ;;
  let percentage :=
    filter (fun s => mem_string s stats) (nodup string_dec percentage) in
  match as_int precision with
  | None => raise TypeError
  | Some precision =>
      let precision :=
        if (precision <? 1)%Z then 1
        else if (precision >? 8)%Z then 8 else precision in
      ret {| pa_timers := timers; pa_sort_by := sort_by;
             pa_reverse := reverse; pa_stats := stats;
             pa_percentage := percentage; pa_precision := precision |}
  end.

(** [timer.stats[stat]] *)
Definition stat_of (timer : Timer) (stat : string) : outcome (option num) :=
  match sget stat (timer_stats timer) with
  | Some v => Ok v
  | None => Raise KeyError
  end.

(** [value / max_value[stat] if max_value[stat] else 1.0] *)
Definition percent (value max : num) : Q :=
  if negb (Qeq_bool (num_val max) 0) then (num_val value / num_val max)%Q
  else 1%Q.

(** The cells [get_line] appends for one [stat]. *)
Definition stat_cells (timer : Timer) (max_value : list (string * num))
    (precision : Z) (stat : string) : outcome (list cell) :=
  let p_time := precision in
  let p_percentage := Z.max (precision - 2) 0 in
  let p_progress := 5 + precision in
  match stat_of timer stat with
  | Ok value =>
      let key_time :=
        match value with
        | Some v => CTime v p_time
        | None => _null
        end in
      match sget stat max_value with
      | Some mx =>
          match value with
          | Some v =>
              Ok [key_time; CPercentage (percent v mx) p_percentage;
                  CProgress (percent v mx) p_progress]
          | None => Ok [key_time; _null; _null]
          end
      | None => Ok [key_time]
      end
  | Raise e => Raise e
  | Timeout => Timeout
  end.

Fixpoint concat_m {A B : Type} (f : A -> outcome (list B)) (l : list A)
  : outcome (list B) :=
  match l with
  | [] => Ok []
  | x :: l' =>
      match f x with
      | Ok ys =>
          match concat_m f l' with
          | Ok zs => Ok (ys ++ zs)
          | other => other
          end
      | Raise e => Raise e
      | Timeout => Timeout
      end
  end.

(** [_Timer.get_line] *)
Definition get_line (timer : Timer) (stats : list string)
    (max_value : list (string * num)) (precision : Z) : outcome (list cell) :=
  match concat_m (stat_cells timer max_value precision) stats with
  | Ok cells =>
      Ok (CId (timer_id timer) :: CStmt (timer_stmt timer)
          :: CRepeat (timer_repeat timer) :: cells)
  | other => other
  end.

Definition Qltb (a b : Q) : bool :=
  if Qlt_le_dec a b then true else false.

(** [l.sort(key=key, reverse=reverse)]: the stable sort. An element is
    inserted in front of the sorted rest of the list, after the elements
    that must come strictly before it. *)
Fixpoint insert_sorted {A : Type} (before : A -> A -> bool) (x : A)
    (l : list A) : list A :=
  match l with
  | [] => [x]
  | y :: l' => if before y x then y :: insert_sorted before x l' else x :: l
  end.

Definition list_sort {A : Type} (key : A -> Q) (reverse : bool) (l : list A)
  : list A :=
  let before y x :=
    if reverse then Qltb (key x) (key y) else Qltb (key y) (key x) in
  fold_right (insert_sorted before) [] l.

(** [lambda item: item.stats[sort_by]], on a timer of [timers_sort]. *)
Definition sort_key (sort_by : string) (timer : Timer) : Q :=
  match sget sort_by (timer_stats timer) with
  | Some (Some v) => num_val v
  | _ => 0%Q
  end.

(** The loop that fills [timers_sort] and [timers_none]. *)
Fixpoint split_none (sort_by : string) (timers : list Timer)
  : outcome (list Timer * list Timer) :=
  match timers with
  | [] => Ok ([], [])
  | timer :: timers' =>
      match stat_of timer sort_by with
      | Ok v =>
          match split_none sort_by timers' with
          | Ok (timers_sort, timers_none) =>
              match v with
              | Some _ => Ok (timer :: timers_sort, timers_none)
              | None => Ok (timers_sort, timer :: timers_none)
              end
          | other => other
          end
      | Raise e => Raise e
      | Timeout => Timeout
      end
  end.

(** The order of the rows: [timers_sort + timers_none] after the sort, or
    [timers] as it is when [sort_by] is [None]. *)
Definition sort_timers (sort_by : option string) (reverse : bool)
    (timers : list Timer) : outcome (list Timer) :=
  match sort_by with
  | None => Ok timers
  | Some sort_by =>
      match split_none sort_by timers with
      | Ok (timers_sort, timers_none) =>
          Ok (list_sort (sort_key sort_by) reverse timers_sort ++ timers_none)
      | Raise e => Raise e
      | Timeout => Timeout
      end
  end.

Fixpoint fold_m {A B : Type} (f : A -> B -> outcome A) (a : A) (l : list B)
  : outcome A :=
  match l with
  | [] => Ok a
  | x :: l' =>
      match f a x with
      | Ok a' => fold_m f a' l'
      | other => other
      end
  end.

(** The body of [for stat in percentage] in the computation of
    [max_value]. *)
Definition max_step (timer : Timer) (max_value : list (string * num))
    (stat : string) : outcome (list (string * num)) :=
  match stat_of timer stat with
  | Ok (Some value) =>
      match sget stat max_value with
      | Some mx =>
          if Qltb (num_val mx) (num_val value)
          then Ok (sset stat value max_value)
          else Ok max_value
      | None => Raise KeyError
      end
  | Ok None => Ok max_value
  | Raise e => Raise e
  | Timeout => Timeout
  end.

(** [max_value], from [dict.fromkeys(percentage, 0.0)]. *)
Definition compute_max_value (percentage : list string) (timers : list Timer)
  : outcome (list (string * num)) :=
  fold_m (fun mv timer => fold_m (max_step timer) mv percentage)
         (fold_left (fun d stat => sset stat (NFloat 0) d) percentage [])
         timers.

Fixpoint lines_m (f : Timer -> outcome (list cell)) (l : list Timer)
  : outcome (list (list cell)) :=
  match l with
  | [] => Ok []
  | x :: l' =>
      match f x with
      | Ok y =>
          match lines_m f l' with
          | Ok ys => Ok (y :: ys)
          | other => other
          end
      | Raise e => Raise e
      | Timeout => Timeout
      end
  end.

(** The table [_print_results] hands to [_table]. *)
Definition results_table (c : Compare) (timers : list Timer)
    (sort_by : option string) (reverse : bool) (stats percentage : list string)
    (precision : Z) : outcome Table :=
  let header :=
    HStr "Id" :: HStr "Stmt" :: HStr "Rpt"
    :: map (fun stat =>
              HStat stat
                match sort_by with
                | Some s => if String.eqb stat s then Some reverse else None
                | None => None
                end) stats in
  match sort_timers sort_by reverse timers with
  | Ok timers =>
      let header_cols :=
        1 :: 1 :: 1
        :: map (fun stat => if mem_string stat percentage then 3 else 1)
               stats in
      match compute_max_value percentage timers with
      | Ok max_value =>
          match lines_m (fun timer => get_line timer stats max_value precision)
                        timers with
          | Ok body =>
              Ok {| tbl_title := "Comparison Results (unit: s)";
                    tbl_header := header; tbl_header_cols := header_cols;
                    tbl_body := body; tbl_number := _number c;
                    tbl_total_time :=
                      fold_left Qplus (map timer_total_time timers) 0%Q |}
          | Raise e => Raise e
          | Timeout => Timeout
          end
      | Raise e => Raise e
      | Timeout => Timeout
      end
  | Raise e => Raise e
  | Timeout => Timeout
  end.

(** The timer object behind a reference. *)
Definition deref (i : Z) : M St Timer :=
  c <- gets self ;;
  match zget i (_timer c) with
  | Some timer => ret timer
  | None => raise KeyError
  end.

(** [Compare._print_results] *)
Definition _print_results (pa : PrintArgs) : M St unit :=
  c <- gets self ;;
  timers <- map_m deref (pa_timers pa) ;;
  table <- lift (results_table c timers (pa_sort_by pa) (pa_reverse pa)
                   (pa_stats pa) (pa_percentage pa) (pa_precision pa)) ;;
  print (OutTable table).

(** [Compare.print_results] *)
Definition print_results (include exclude : option (list Z))
    (sort_by : pyval) (reverse : bool) (stats percentage : names_arg)
    (precision : pyval) : M St unit :=
  args <- _print_results_args include exclude sort_by reverse stats
            percentage precision ;;
  _print_results args.

(** [compare] up to the call of [run]: the timers and statistics are
    registered, the arguments of [_print_results] validated beforehand and
    [_catch_interrupt] created. A timer is given by its statement: its setup
    and namespace only reach the timing primitive. *)
Definition compare_prepare (add_timers : list Stmt)
    (add_stats : list (pyval * func_arg)) (sort_by : pyval) (reverse : bool)
    (stats percentage : names_arg) (precision : pyval) : M St PrintArgs :=
  for_each add_timers (fun stmt => add_timer stmt ;; ret tt) ;;
  for_each add_stats (fun sf => add_stat (fst sf) (snd sf)) ;;
  print_results_args <-
    _print_results_args None None sort_by reverse stats percentage precision ;;
  modify (set_catch_interrupt None) ;;
  ret print_results_args.

(** [compare] after the call of [run]. *)
Definition compare_report (print_results_args : PrintArgs) : M St unit :=
  interrupt <- gets (fun st => _catch_interrupt (self st)) ;;
  _print_results print_results_args ;;
  match interrupt with
  | Some (Some e) => raise e
  | _ => ret tt
  end.

(** [compare], on a new [Compare] object. *)
Definition compare (fuel : nat) (add_timers : list Stmt)
    (add_stats : list (pyval * func_arg)) (repeat number time : pyval)
    (show_progress : bool) (sort_by : pyval) (reverse : bool)
    (stats percentage : names_arg) (precision : pyval)
  : World -> World * outcome unit :=
  fun w =>
    let body : M St unit :=
      print_results_args <-
        compare_prepare add_timers add_stats sort_by reverse stats percentage
          precision ;;
      run fuel repeat number time show_progress ;;
      compare_report print_results_args in
    let (st, o) := body {| self := Compare_init; world := w |} in
    (world st, o).

End Program.

(** ** The legacy module [timeit_compare.py]

    The parts of the older implementation that differ from the package in
    what the properties below are about. *)
Module Legacy.

(** [Compare._select], on the keys of [self._timer]; a timer is referred to
    by its index. *)
Definition _select {host : Host} (keys : list Z)
    (include exclude : option (list Z)) : outcome (list Z) :=
  let lookup :=
    fix lookup (l : list Z) : outcome (list Z) :=
      match l with
      | [] => Ok []
      | i :: l' =>
          if mem_Z i keys
          then match lookup l' with
               | Ok r => Ok (i :: r)
               | other => other
               end
          else Raise KeyError
      end in
  match include, exclude with
  | Some _, Some _ => Raise ValueError
  | Some include, None => lookup (set_iter include)
  | None, Some exclude =>
      lookup (set_iter (filter (fun i => negb (mem_Z i exclude)) keys))
  | None, None => Ok keys
  end.

(** [Compare._run_args]; [show_process] is the argument after [bool()]. *)
Definition _run_args (repeat number time : pyval) (show_process : bool)
  : outcome (Z * Z * Q * bool) :=
  match as_int repeat with
  | None => Raise TypeError
  | Some repeat =>
      let repeat := if (repeat <? 1)%Z then 1 else repeat in
      match as_int number with
      | None => Raise TypeError
      | Some number =>
          let number := if (number <? 0)%Z then 0 else number in
          match as_float_or_int time with
          | None => Raise TypeError
          | Some time =>
              let time := if Qlt_le_dec (num_val time) 0 then 0%Q
                          else num_val time in
              Ok (repeat, number, time, show_process)
          end
      end
  end.

(** [Compare._sort_by_args] *)
Definition _sort_by_args {host : Host} (sort_by : pyval) : outcome string :=
  match sort_by with
  | VStr s =>
      let s := str_lower s in
      if mem_string s ["index"; "mean"; "median"; "min"; "max"; "std"]
      then Ok s else Raise ValueError
  | _ => Raise TypeError
  end.

(** [Compare._print_results_args]; [reverse] is the argument after
    [bool()]. *)
Definition _print_results_args {host : Host} (sort_by : pyval)
    (reverse : bool) (decimal : pyval) : outcome (string * bool * Z) :=
  match _sort_by_args sort_by with
  | Ok sort_by =>
      match as_int decimal with
      | None => Raise TypeError
      | Some decimal =>
          let decimal :=
            if (decimal <? 0)%Z then 0
            else if (decimal >? 8)%Z then 8 else decimal in
          Ok (sort_by, reverse, decimal)
      end
  | Raise e => Raise e
  | Timeout => Timeout
  end.

(** The first two statements of [Compare.run]: the checked arguments and
    the selected timers. The reset and the timing come after them. *)
Definition run_selection {host : Host} (keys : list Z)
    (repeat number time : pyval) (include exclude : option (list Z))
    (show_process : bool) : outcome (Z * Z * Q * bool * list Z) :=
  match _run_args repeat number time show_process with
  | Ok args =>
      match _select keys include exclude with
      | Ok timers => Ok (args, timers)
      | Raise e => Raise e
      | Timeout => Timeout
      end
  | Raise e => Raise e
  | Timeout => Timeout
  end.

(** The first two statements of [Compare.print_results]; the table comes
    after them. *)
Definition print_results_selection {host : Host} (keys : list Z)
    (sort_by : pyval) (reverse : bool) (decimal : pyval)
    (include exclude : option (list Z))
  : outcome (string * bool * Z * list Z) :=
  match _print_results_args sort_by reverse decimal with
  | Ok args =>
      match _select keys include exclude with
      | Ok timers => Ok (args, timers)
      | Raise e => Raise e
      | Timeout => Timeout
      end
  | Raise e => Raise e
  | Timeout => Timeout
  end.

(** [n <<= 1] in [estimate] *)
Definition next_n (n : Z) : Z := Z.shiftl n 1.

(** [max(round((time * (n / total_time)) / repeat), 1)] in [estimate] *)
Definition estimated_number (n : Z) (time total_time : Q) (repeat : Z) : Z :=
  Z.max (py_round (time * (inject_Z n / total_time) / inject_Z repeat)) 1.

End Legacy.

(** ** A host for examples

    Names are ASCII; a set of ids iterates in order of first insertion; the
    timing primitive follows a script indexed by the number of calls made. *)
Module Example.

Definition is_alpha (c : ascii) : bool :=
  let n := nat_of_ascii c in
  ((65 <=? n) && (n <=? 90) || (97 <=? n) && (n <=? 122))%nat.

Definition is_digit (c : ascii) : bool :=
  let n := nat_of_ascii c in ((48 <=? n) && (n <=? 57))%nat.

Definition is_space (c : ascii) : bool :=
  let n := nat_of_ascii c in
  ((n =? 32) || (9 <=? n) && (n <=? 13) || (28 <=? n) && (n <=? 31))%nat.

Fixpoint all_chars (p : ascii -> bool) (s : string) : bool :=
  match s with
  | EmptyString => true
  | String c s' => p c && all_chars p s'
  end.

Definition isidentifier (s : string) : bool :=
  match s with
  | EmptyString => false
  | String c s' =>
      (is_alpha c || Ascii.eqb c "_"%char)
      && all_chars (fun c => is_alpha c || is_digit c || Ascii.eqb c "_"%char) s'
  end.

Definition kwlist : list string :=
  ["False"; "None"; "True"; "and"; "as"; "assert"; "async"; "await";
   "break"; "class"; "continue"; "def"; "del"; "elif"; "else"; "except";
   "finally"; "for"; "from"; "global"; "if"; "import"; "in"; "is";
   "lambda"; "nonlocal"; "not"; "or"; "pass"; "raise"; "return"; "try";
   "while"; "with"; "yield"].

Definition lower_char (c : ascii) : ascii :=
  let n := nat_of_ascii c in
  if ((65 <=? n) && (n <=? 90))%nat then ascii_of_nat (n + 32) else c.

Fixpoint lower (s : string) : string :=
  match s with
  | EmptyString => EmptyString
  | String c s' => String (lower_char c) (lower s')
  end.

(** Splits at commas and white space; [cur] is the word being read, in
    reverse. *)
Fixpoint split_from (cur : list ascii) (s : string) : list string :=
  let flush rest :=
    match cur with
    | [] => rest
    | _ => string_of_list_ascii (rev cur) :: rest
    end in
  match s with
  | EmptyString => flush []
  | String c s' =>
      if is_space c || Ascii.eqb c ","%char
      then flush (split_from [] s')
      else split_from (c :: cur) s'
  end.

Definition sumQ (l : list Q) : Q := fold_left Qplus l 0%Q.

Definition StatisticsError : exn := StmtError "StatisticsError".

Definition mean : StatFunc := fun time =>
  match time with
  | [] => Throws StatisticsError
  | _ => Returns (VFloat (Qred (sumQ time / inject_Z (Z.of_nat (List.length time)))))
  end.

Definition extremum (pick : Q -> Q -> Q) : StatFunc := fun time =>
  match time with
  | [] => Throws ValueError
  | x :: l => Returns (VFloat (fold_left pick l x))
  end.

Definition Qmin' (a b : Q) : Q := if Qlt_le_dec b a then b else a.
Definition Qmax' (a b : Q) : Q := if Qlt_le_dec a b then b else a.

Definition median : StatFunc := fun time =>
  match time with
  | [] => Throws StatisticsError
  | _ =>
      let sorted := list_sort (fun x => x) false time in
      let k := (List.length time / 2)%nat in
      if Nat.odd (List.length time)
      then Returns (VFloat (nth k sorted 0%Q))
      else Returns (VFloat (Qred ((nth (k - 1) sorted 0%Q + nth k sorted 0%Q) / 2)))
  end.

(** The square root is not rational: the example's [std] is the sample
    variance, undefined like the standard deviation for fewer than two
    durations. *)
Definition std : StatFunc := fun time =>
  match time with
  | _ :: _ :: _ =>
      let n := inject_Z (Z.of_nat (List.length time)) in
      let m := (sumQ time / n)%Q in
      Returns (VFloat (Qred (sumQ (map (fun x : Q => ((x - m) * (x - m))%Q) time)
                             / (n - 1))))
  | _ => Throws StatisticsError
  end.

(** The host whose [i]-th [timeit] call does [script i]. *)
Definition host (script : nat -> called Q) : Host :=
  {| timeit_prim := fun i _ _ => script i;
     str_isidentifier := isidentifier;
     iskeyword := fun s => existsb (String.eqb s) kwlist;
     str_lower := lower;
     split_names := split_from [];
     set_iter := nodup Z.eq_dec;
     stat_mean := mean;
     stat_median := median;
     stat_min := extremum Qmin';
     stat_max := extremum Qmax';
     stat_std := std |}.

(** Every call takes [t] seconds. *)
Definition steady (t : Q) : nat -> called Q := fun _ => Returns t.

(** The calls take the listed times; the call after them is interrupted. *)
Definition interrupted_after (ts : list Q) : nat -> called Q :=
  fun i => match nth_error ts i with
           | Some t => Returns t
           | None => Throws KeyboardInterrupt
           end.

(** The calls take the listed times; the call after them fails. *)
Definition failing_after (ts : list Q) : nat -> called Q :=
  fun i => match nth_error ts i with
           | Some t => Returns t
           | None => Throws (StmtError "ZeroDivisionError")
           end.

Definition empty_world : World := {| calls := []; stdout := [] |}.

(** The state after [Compare()] and one [add_timer] per statement. *)
Definition registered (h : Host) (stmts : list Stmt) : St :=
  fst (for_each stmts (fun stmt => add_timer stmt ;; ret tt)
         {| self := @Compare_init h; world := empty_world |}).



(** The calls take the listed times, the later ones one second. *)
Definition script (ts : list Q) : nat -> called Q :=
  fun i => Returns (nth i ts 1%Q).

End Example.

(** ** Vocabulary of the properties *)

(** The calibration the estimation performs when it is entered with the
    iteration count [n]: the passes that stayed within the threshold of 0.2
    seconds, each with its iteration count and its total elapsed time, then
    the first pass that exceeded it. *)
Inductive calibration {host : Host}
  : Z -> RunSt -> list (Z * Q) -> Z * Q -> RunSt -> Prop :=
| calibration_stop (n : Z) (rs rs1 : RunSt) (t : Q) :
    pass (dict_keys (rs_new rs)) n 0 rs = (rs1, Ok t) ->
    (2 # 10 < t)%Q ->
    calibration n rs [] (n, t) rs1
| calibration_grow (n : Z) (rs rs1 rs2 : RunSt) (t : Q)
    (ps : list (Z * Q)) (final : Z * Q) :
    pass (dict_keys (rs_new rs)) n 0 rs = (rs1, Ok t) ->
    (t <= 2 # 10)%Q ->
    calibration (next_n n t) rs1 ps final rs2 ->
    calibration n rs ((n, t) :: ps) final rs2.

(** The stats map computed from a tuple of durations: every registered
    statistic, in the order of the registry. *)
Definition stats_of (fs : list (string * StatFunc)) (time : list Q)
  : list (string * option num) :=
  fold_left (fun acc sf => sset (fst sf) (stat_value (snd sf) time) acc) fs [].

(** The [timeit] calls of [r] rounds over the timers [ids] with the
    iteration count [nb]. *)
Definition rounds (r : nat) (ids : list Z) (nb : Z) : list (Z * Z) :=
  List.concat (List.repeat (map (fun id => (id, nb)) ids) r).

(** The entries of [new] after some trials, compared with the entries
    before: the same keys in the same order, the stats untouched, and
    [k id] more durations for the timer [id]. *)
Definition grown (k : Z -> nat) (d d' : list (Z * Result)) : Prop :=
  Forall2 (fun kv kv' =>
             fst kv' = fst kv /\
             r_stats (snd kv') = r_stats (snd kv) /\
             List.length (r_time (snd kv')) =
             (List.length (r_time (snd kv)) + k (fst kv))%nat) d d'.

(** A stretch of the measurement: the iteration count and the object are as
    before, the [timeit] calls [cs] were made, and [new] has grown by [k]. *)
Definition advances (cs : list (Z * Z)) (k : Z -> nat) (rs rs' : RunSt)
  : Prop :=
  rs_number rs' = rs_number rs /\
  self (rs_st rs') = self (rs_st rs) /\
  calls (world (rs_st rs')) = calls (world (rs_st rs)) ++ cs /\
  grown k (rs_new rs) (rs_new rs').

(** The entries of [new] have the same keys in the same order, and the same
    stats. *)
Definition same_shape (d d' : list (Z * Result)) : Prop :=
  Forall2 (fun kv kv' =>
             fst kv' = fst kv /\ r_stats (snd kv') = r_stats (snd kv)) d d'.

(** What the [try] block leaves as it is, however it ends: the object, and
    the keys and stats of [new]. *)
Definition frame (rs rs' : RunSt) : Prop :=
  self (rs_st rs') = self (rs_st rs) /\ same_shape (rs_new rs) (rs_new rs').

(** What the estimation leaves as it is: the object and [new]; it only
    adds [timeit] calls. *)
Definition calibrated (rs rs' : RunSt) : Prop :=
  self (rs_st rs') = self (rs_st rs) /\
  rs_new rs' = rs_new rs /\
  exists cs, calls (world (rs_st rs')) = calls (world (rs_st rs)) ++ cs.

(** The result [run] leaves in [new] for one timer. *)
Definition finished (fs : list (string * StatFunc)) (r : Result) : Result :=
  {| r_time := r_time r; r_total_time := r_total_time r;
     r_stats := fold_left
                  (fun acc sf => sset (fst sf) (stat_value (snd sf) (r_time r)) acc)
                  fs (r_stats r);
     r_results := r_results r |}.




(** The effect of one timer's entry for a stat on the maximum found so far:
    a larger value replaces it. *)
Definition raise_to (entry : option (option num)) (mx : num) : num :=
  match entry with
  | Some (Some value) => if Qltb (num_val mx) (num_val value) then value else mx
  | _ => mx
  end.




(** * The rest of the interface *)

(** ** Deleting timers and statistics *)

(** [del d[k]]: [None] is the [KeyError] of a missing key. *)
Fixpoint dict_del {K V : Type} (eqb : K -> K -> bool) (k : K)
    (d : list (K * V)) : option (list (K * V)) :=
  match d with
  | [] => None
  | (k', v) :: d' =>
      if eqb k k' then Some d'
      else match dict_del eqb k d' with
           | Some d'' => Some ((k', v) :: d'')
           | None => None
           end
  end.

Definition sdel {V} := @dict_del string V String.eqb.
Definition zdel {V} := @dict_del Z V Z.eqb.

(** [Compare.del_timer] *)
Definition del_timer (id : Z) : M St unit :=
  fun st =>
    match zdel id (_timer (self st)) with
    | Some timers =>
        (set_self (fun c =>
           {| _timer_id := _timer_id c; _timer := timers;
              _stats := _stats c; _number := _number c;
              _stats_namedtuple := _stats_namedtuple c;
              _catch_interrupt := _catch_interrupt c |}) st, Ok tt)
    | None => (st, Raise KeyError)
    end.

(** [_Timer.del_stat] *)
Definition timer_del_stat (stat : string) (t : Timer) : outcome Timer :=
  match sdel stat (timer_stats t) with
  | Some stats =>
      Ok {| timer_id := timer_id t; timer_stmt := timer_stmt t;
            timer_time := timer_time t;
            timer_total_time := timer_total_time t;
            timer_stats := stats; timer_result := None;
            timer_results := timer_results t |}
  | None => Raise KeyError
  end.

(** [for timer in self._timer.values(): f(timer)], one timer after the
    other: a raise leaves the timers before it changed. [todo] is the part
    of the dictionary still to visit, [done] the part visited, in reverse. *)
Fixpoint visit_timers (f : Timer -> outcome Timer)
    (done todo : list (Z * Timer)) : list (Z * Timer) * outcome unit :=
  match todo with
  | [] => (rev done, Ok tt)
  | (id, timer) :: todo' =>
      match f timer with
      | Ok timer' => visit_timers f ((id, timer') :: done) todo'
      | Raise e => (rev done ++ todo, Raise e)
      | Timeout => (rev done ++ todo, Timeout)
      end
  end.

Definition for_timers (f : Timer -> outcome Timer) : M St unit :=
  fun st =>
    let (timers, o) := visit_timers f [] (_timer (self st)) in
    (set_self (fun c =>
       {| _timer_id := _timer_id c; _timer := timers;
          _stats := _stats c; _number := _number c;
          _stats_namedtuple := _stats_namedtuple c;
          _catch_interrupt := _catch_interrupt c |}) st, o).

(** [Compare.del_stat] *)
Definition del_stat {host : Host} (stat : pyval) : M St unit :=
  c <- gets self ;;
  stat <- lift (_check_stat_select c stat) ;;
  match sdel stat (_stats c) with
  | None => raise KeyError
  | Some stats =>
      modify (set_self (fun c =>
        {| _timer_id := _timer_id c; _timer := _timer c;
           _stats := stats; _number := _number c;
           _stats_namedtuple := None;
           _catch_interrupt := _catch_interrupt c |})) ;;
      for_timers (timer_del_stat stat)
  end.

(** The dictionaries of an object as the program keeps them: the keys of
    [_timer] are distinct ids below the counter, every timer carries its
    key as id, the registered names are distinct, every timer's stats map
    has the registered names, in the order of the registry, and a cached
    namedtuple class has the registered names as fields. *)
Definition well_formed (c : Compare) : Prop :=
  NoDup (dict_keys (_timer c)) /\
  (forall id, In id (dict_keys (_timer c)) -> id < _timer_id c) /\
  NoDup (dict_keys (_stats c)) /\
  Forall (fun kv => timer_id (snd kv) = fst kv /\
                    dict_keys (timer_stats (snd kv)) = dict_keys (_stats c))
    (_timer c) /\
  (forall fields, _stats_namedtuple c = Some fields ->
                  fields = dict_keys (_stats c)).

(** ** Results *)

(** [len(set(names)) == len(names)] *)
Fixpoint distinct (names : list string) : bool :=
  match names with
  | [] => true
  | name :: names' => negb (mem_string name names') && distinct names'
  end.

(** [namedtuple('Stats', names)]: the standard library raises
    [ValueError] for a field name that is not an identifier, is a keyword,
    starts with an underscore or occurs twice. The class is kept as the
    list of its fields. *)
Definition namedtuple {host : Host} (names : list string)
  : outcome (list string) :=
  if forallb (fun name => str_isidentifier name && negb (iskeyword name)) names
     && forallb (fun name => negb (startswith_underscore name)) names
     && distinct names
  then Ok names else Raise ValueError.

(** The call of [stats_namedtuple] with the entries of [self.stats] as
    keywords: a [TypeError] for a keyword that is no field or a field
    without a keyword. *)
Definition make_stats (fields : list string) (stats : list (string * option num))
  : outcome (list (string * option num)) :=
  if forallb (fun k => mem_string k fields) (dict_keys stats)
     && forallb (fun field => smem field stats) fields
  then Ok (map (fun field =>
                  (field, match sget field stats with
                          | Some value => value
                          | None => None
                          end)) fields)
  else Raise TypeError.

(** [timer._result = result] *)
Definition set_result (id : Z) (result : TimerResult) (st : St) : St :=
  set_self (fun c =>
    {| _timer_id := _timer_id c;
       _timer :=
         map (fun kv =>
                if Z.eqb (fst kv) id
                then (fst kv,
                      {| timer_id := timer_id (snd kv);
                         timer_stmt := timer_stmt (snd kv);
                         timer_time := timer_time (snd kv);
                         timer_total_time := timer_total_time (snd kv);
                         timer_stats := timer_stats (snd kv);
                         timer_result := Some result;
                         timer_results := timer_results (snd kv) |})
                else kv) (_timer c);
       _stats := _stats c; _number := _number c;
       _stats_namedtuple := _stats_namedtuple c;
       _catch_interrupt := _catch_interrupt c |}) st.

(** [Compare.get_result], with [_Timer.get_result]. *)
Definition get_result {host : Host} (id : Z) : M St TimerResult :=
  c <- gets self ;;
  fields <-
    match _stats_namedtuple c with
    | Some fields => ret fields
    | None =>
        fields <- lift (namedtuple (dict_keys (_stats c))) ;;
        modify (set_self (fun c =>
          {| _timer_id := _timer_id c; _timer := _timer c;
             _stats := _stats c; _number := _number c;
             _stats_namedtuple := Some fields;
             _catch_interrupt := _catch_interrupt c |})) ;;
        ret fields
    end ;;
  match zget id (_timer c) with
  | None => raise KeyError
  | Some timer =>
      match timer_result timer with
      | Some result => ret result
      | None =>
          stats <- lift (make_stats fields (timer_stats timer)) ;;
          let result :=
            {| res_id := timer_id timer; res_repeat := timer_repeat timer;
               res_stats := stats; res_time := timer_time timer;
               res_number := _number c |} in
          modify (set_result id result) ;;
          ret result
      end
  end.

(** The loop of [get_min] and [get_max]: [better value best] is
    [value < min_value] or [value > max_value]; [None] is the state before
    a timer with a value was seen, when the comparison is with an
    infinity. *)
Fixpoint find_best (better : Q -> Q -> bool) (stat : string)
    (best : option (Z * num)) (timers : list (Z * Timer))
  : outcome (option (Z * num)) :=
  match timers with
  | [] => Ok best
  | (id, timer) :: timers' =>
      match stat_of timer stat with
      | Ok (Some value) =>
          match best with
          | None => find_best better stat (Some (id, value)) timers'
          | Some (_, best_value) =>
              if better (num_val value) (num_val best_value)
              then find_best better stat (Some (id, value)) timers'
              else find_best better stat best timers'
          end
      | Ok None => find_best better stat best timers'
      | Raise e => Raise e
      | Timeout => Timeout
      end
  end.

Definition get_best {host : Host} (better : Q -> Q -> bool) (stat : pyval)
  : M St (option TimerResult) :=
  c <- gets self ;;
  stat <- lift (_check_stat_select c stat) ;;
  best <- lift (find_best better stat None (_timer c)) ;;
  match best with
  | Some (id, _) => result <- get_result id ;; ret (Some result)
  | None => ret None
  end.

(** [Compare.get_min] *)
Definition get_min {host : Host} (stat : pyval) : M St (option TimerResult) :=
  get_best Qltb stat.

(** [Compare.get_max] *)
Definition get_max {host : Host} (stat : pyval) : M St (option TimerResult) :=
  get_best (fun value best => Qltb best value) stat.

(** ** The layout of _table

    The widths that [_table] computes before it fills its template. Texts
    enter by their lengths: [title] is the length of the numbered title,
    [header] and [body] hold the lengths of the cells, [note :: notes] the
    lengths of the notes, of which there is at least one. A column count
    is positive. [None] is the [IndexError] of [body_width[i]]. *)

Record Layout : Type := mkLayout {
  lay_body_width : list Z;
  lay_header_width : list Z;
  lay_total_width : Z;
  lay_left : Z;                         (* len(dl) *)
  lay_right : Z                         (* len(dr) *)
}.

(** [sum(widths)] *)
Definition sum_widths (widths : list Z) : Z := fold_right Z.add 0 widths.

(** [sum(header_cols)] as the length of a list. *)
Definition count_cols (header_cols : list positive) : nat :=
  fold_right (fun col n => (Pos.to_nat col + n)%nat) O header_cols.

(** The [zip] of the rows of [body]: the columns, as many as the shortest
    row has cells. *)
Fixpoint zip_rows (body : list (list nat)) : list (list nat) :=
  match body with
  | [] => []
  | row :: rows =>
      match rows with
      | [] => map (fun cell => [cell]) row
      | _ => map (fun p => fst p :: snd p) (combine row (zip_rows rows))
      end
  end.

(** [max(map(len, item))], of lengths, which are not negative. *)
Definition max_len (item : list nat) : Z :=
  fold_right Z.max 0 (map Z.of_nat item).

(** [w[j] += d] *)
Definition add_at (j : nat) (d : Z) (w : list Z) : option (list Z) :=
  match nth_error w j with
  | Some x => Some (firstn j w ++ (x + d) :: skipn (S j) w)
  | None => None
  end.

(** [for j in range(j, j + count): w[j] += d] *)
Fixpoint add_range (j count : nat) (d : Z) (w : list Z) : option (list Z) :=
  match count with
  | O => Some w
  | S count' =>
      match add_at j d w with
      | Some w' => add_range (S j) count' d w'
      | None => None
      end
  end.

(** [for i, item in enumerate(...): body_width[i] += max(map(len, item))] *)
Fixpoint widen (i : nat) (items : list (list nat)) (body_width : list Z)
  : option (list Z) :=
  match items with
  | [] => Some body_width
  | item :: items' =>
      match add_at i (max_len item) body_width with
      | Some w => widen (S i) items' w
      | None => None
      end
  end.

(** The body of [for s, col in zip(header, header_cols)]; the result is
    the new [i], [body_width] and the width appended to [header_width]. *)
Definition header_step (i : nat) (body_width : list Z) (s : nat)
    (col : positive) : option (nat * list Z * Z) :=
  let hw := Z.of_nat s + 2 in
  if (col =? 1)%positive then
    match nth_error body_width i with
    | Some bw =>
        let body_width' :=
          if (hw >? bw)%Z
          then firstn i body_width ++ hw :: skipn (S i) body_width
          else body_width in
        let hw := if (hw <? bw)%Z then bw else hw in
        Some ((i + 1)%nat, body_width', hw)
    | None => None
    end
  else
    let n := Pos.to_nat col in
    let bw := sum_widths (firstn n (skipn i body_width)) + Zpos col - 1 in
    if (hw >? bw)%Z then
      let bw := hw - bw in
      let q := bw / Zpos col in
      let r := bw mod Zpos col in
      match add_range i n q body_width with
      | Some w1 =>
          match add_range i (Z.to_nat r) 1 w1 with
          | Some w2 =>
              let hw := if (hw <? bw)%Z then bw else hw in
              Some ((i + n)%nat, w2, hw)
          | None => None
          end
      | None => None
      end
    else
      let hw := if (hw <? bw)%Z then bw else hw in
      Some ((i + n)%nat, body_width, hw).

Fixpoint header_loop (columns : list (nat * positive)) (i : nat)
    (body_width header_width : list Z) : option (list Z * list Z) :=
  match columns with
  | [] => Some (body_width, header_width)
  | (s, col) :: columns' =>
      match header_step i body_width s col with
      | Some (i', body_width', hw) =>
          header_loop columns' i' body_width' (header_width ++ [hw])
      | None => None
      end
  end.

(** [_table], up to the template. *)
Definition table_layout (title : nat) (header : list nat)
    (header_cols : list positive) (body : list (list nat))
    (note : nat) (notes : list nat) : option Layout :=
  let body_width := List.repeat 2 (count_cols header_cols) in
  match widen 0 (zip_rows body) body_width with
  | Some body_width =>
      match header_loop (combine header header_cols) 0 body_width [] with
      | Some (body_width, header_width) =>
          let total_width :=
            sum_widths header_width + Z.of_nat (List.length header_width) + 1 in
          let other_width :=
            fold_right Z.max (Z.of_nat title) (map Z.of_nat (note :: notes)) in
          if (other_width >? total_width)%Z then
            let bw := other_width - total_width in
            Some {| lay_body_width := body_width;
                    lay_header_width := header_width;
                    lay_total_width := other_width;
                    lay_left := bw / 2; lay_right := bw - bw / 2 |}
          else
            Some {| lay_body_width := body_width;
                    lay_header_width := header_width;
                    lay_total_width := total_width;
                    lay_left := 0; lay_right := 0 |}
      | None => None
      end
  | None => None
  end.

(** The body widths under each header cell. *)
Fixpoint spans (header_cols : list positive) (body_width : list Z)
  : list (list Z) :=
  match header_cols with
  | [] => []
  | col :: cols =>
      firstn (Pos.to_nat col) body_width
      :: spans cols (skipn (Pos.to_nat col) body_width)
  end.

(** The width of a line of the table: the margins, a bar before each cell
    and one after the last. *)
Definition line_width (left right : Z) (widths : list Z) : Z :=
  left + (sum_widths widths + Z.of_nat (List.length widths) + 1) + right.

(** [sum(header_cols)], the number of body columns in [_table]. *)
Definition sum_cols (header_cols : list Z) : Z := fold_left Z.add header_cols 0.






(** The lines of the progress generator from position [from] on. *)
Definition progress_lines (task_num from k : nat) : list out_event :=
  map (fun i => OutProgress i task_num) (seq from k).

(** The generator was asked [k] more times, and printed its lines when
    [show_progress] is set. *)
Definition printed (show_progress : bool) (task_num k : nat)
    (rs rs' : RunSt) : Prop :=
  stdout (world (rs_st rs')) =
    stdout (world (rs_st rs))
    ++ (if show_progress then progress_lines task_num (rs_progress_i rs) k
        else []) /\
  rs_progress_i rs' = (rs_progress_i rs + k)%nat.

(** The output and the generator are as they were. *)
Definition silent (rs rs' : RunSt) : Prop :=
  stdout (world (rs_st rs')) = stdout (world (rs_st rs)) /\
  rs_progress_i rs' = rs_progress_i rs.

(** The computation leaves the state as it is. *)
Definition unchanged {S : Type} (s s' : S) : Prop := s' = s.

(** The computation leaves the object as it is. *)
Definition same_object (s s' : St) : Prop := self s' = self s.

(** The computation leaves the world as it is: no [timeit] call, no
    output. *)
Definition same_world (s s' : St) : Prop := world s' = world s.

(** * Properties *)

(** ** Dictionaries *)

Section DictFacts.
Context {K V : Type} (eqb : K -> K -> bool).
Hypothesis eqb_spec : forall a b, reflect (a = b) (eqb a b).

Lemma dict_get_set_same (k : K) (v : V) (d : list (K * V)) :
  dict_get eqb k (dict_set eqb k v d) = Some v.
Proof.
  induction d as [|[k' v'] d IH]; simpl.
  - destruct (eqb_spec k k); congruence.
  - destruct (eqb_spec k k') as [->|Hne]; simpl.
    + destruct (eqb_spec k' k'); congruence.
    + destruct (eqb_spec k k'); [contradiction|assumption].
Qed.

Lemma dict_get_set_other (k k0 : K) (v : V) (d : list (K * V)) :
  k0 <> k -> dict_get eqb k0 (dict_set eqb k v d) = dict_get eqb k0 d.
Proof.
  intros Hne. induction d as [|[k' v'] d IH]; simpl.
  - destruct (eqb_spec k0 k); [contradiction|reflexivity].
  - destruct (eqb_spec k k') as [->|Hk]; simpl.
    + destruct (eqb_spec k0 k'); [contradiction|reflexivity].
    + destruct (eqb_spec k0 k'); [reflexivity|assumption].
Qed.

Lemma dict_keys_set_old (k : K) (v : V) (d : list (K * V)) :
  dict_mem eqb k d = true -> dict_keys (dict_set eqb k v d) = dict_keys d.
Proof.
  unfold dict_mem, dict_keys.
  induction d as [|[k' v'] d IH]; simpl; [discriminate|].
  destruct (eqb_spec k k') as [->|Hk]; simpl; [reflexivity|].
  intros H. now rewrite IH.
Qed.

Lemma dict_keys_set_new (k : K) (v : V) (d : list (K * V)) :
  dict_mem eqb k d = false -> dict_keys (dict_set eqb k v d) = dict_keys d ++ [k].
Proof.
  unfold dict_mem, dict_keys.
  induction d as [|[k' v'] d IH]; simpl; [reflexivity|].
  destruct (eqb_spec k k') as [->|Hk]; simpl; [discriminate|].
  intros H. now rewrite IH.
Qed.

Lemma dict_mem_keys (k : K) (d : list (K * V)) :
  dict_mem eqb k d = true <-> In k (dict_keys d).
Proof.
  unfold dict_mem, dict_keys.
  induction d as [|[k' v'] d IH]; simpl.
  - split; [discriminate|tauto].
  - destruct (eqb_spec k k') as [->|Hk].
    + split; auto.
    + rewrite IH. split; [auto|]. intros [H|H]; [congruence|assumption].
Qed.

Lemma dict_mem_set (k k0 : K) (v : V) (d : list (K * V)) :
  dict_mem eqb k0 (dict_set eqb k v d) = true <->
  k0 = k \/ dict_mem eqb k0 d = true.
Proof.
  unfold dict_mem. destruct (eqb_spec k0 k) as [->|Hne].
  - rewrite dict_get_set_same. tauto.
  - rewrite dict_get_set_other by assumption. tauto.
Qed.
End DictFacts.

Lemma string_eqb_reflect (a b : string) : reflect (a = b) (String.eqb a b).
Proof. apply String.eqb_spec. Qed.

Lemma Z_eqb_reflect (a b : Z) : reflect (a = b) (Z.eqb a b).
Proof. apply Z.eqb_spec. Qed.

(** ** Statistics *)

Lemma _stat_call_value (func : StatFunc) (time : list Q) :
  _stat_call func time = Ok (stat_value func time).
Proof.
  unfold _stat_call, stat_value.
  destruct (func time) as [v|e]; [destruct (as_float_or_int v)|]; reflexivity.
Qed.

(** C4. Evaluating a statistic never raises, whatever the aggregation
    function and the durations: when the function raises (any exception,
    [KeyboardInterrupt] included) or returns something that is neither a
    float nor an int, [_stat_call] returns [None]; when it returns a float or
    an int (a bool is an int), [_stat_call] returns that value. *)
Theorem _stat_call_never_raises (func : StatFunc) (time : list Q) :
  (exists r, _stat_call func time = Ok r) /\
  match func time with
  | Throws _ => _stat_call func time = Ok None
  | Returns (VFloat q) => _stat_call func time = Ok (Some (NFloat q))
  | Returns (VInt z) => _stat_call func time = Ok (Some (NInt z))
  | Returns (VBool b) => _stat_call func time = Ok (Some (NBool b))
  | Returns (VNone | VStr _ | VOther _) => _stat_call func time = Ok None
  end.
Proof.
  split.
  - exists (stat_value func time). apply _stat_call_value.
  - unfold _stat_call. destruct (func time) as [[| | | | |]|]; reflexivity.
Qed.

Lemma each_value_total {A B : Type} (f : A -> outcome B) (g : A -> B)
    (d : list (Z * A)) :
  (forall a, f a = Ok (g a)) ->
  each_value f d = Ok (map (fun kv => (fst kv, g (snd kv))) d).
Proof.
  intros Hf. induction d as [|[id a] d IH]; simpl; [reflexivity|].
  now rewrite Hf, IH.
Qed.

Lemma timer_add_stat_total (stat : string) (func : StatFunc) (t : Timer) :
  timer_add_stat stat func t = Ok (timer_with_stat stat func t).
Proof. unfold timer_add_stat. now rewrite _stat_call_value. Qed.

Section AddStat.
Context {host : Host}.

Lemma _check_stat_accepts (s : string) :
  str_isidentifier s = true -> iskeyword s = false ->
  startswith_underscore s = false ->
  _check_stat (VStr s) = Ok (str_lower s).
Proof. intros H1 H2 H3. simpl. now rewrite H1, H2, H3. Qed.

Lemma _check_stat_rejects (s : string) :
  str_isidentifier s = false \/ iskeyword s = true \/
  startswith_underscore s = true ->
  _check_stat (VStr s) = Raise ValueError.
Proof.
  intros H. simpl.
  destruct (str_isidentifier s); simpl; [|reflexivity].
  destruct (iskeyword s); [reflexivity|].
  destruct (startswith_underscore s); [reflexivity|].
  destruct H as [H|[H|H]]; discriminate.
Qed.

Lemma _check_stat_not_str (stat : pyval) :
  (forall s, stat <> VStr s) -> _check_stat stat = Raise TypeError.
Proof.
  intros H. destruct stat; try reflexivity. now destruct (H s).
Qed.

(** C8. Registering a statistic validates its name. A name that is not a
    string raises [TypeError]; a string that is not an identifier, is a
    keyword or starts with an underscore raises [ValueError]; in both cases
    nothing is changed. An accepted name, with a callable, is stored
    lowercased: it then maps to the new function, the other names keep
    theirs, and the order of the names is unchanged when the lowercased
    name was registered already (a new name goes last). *)
Theorem add_stat_validates_name (stat : pyval) (func : func_arg) (st : St) :
  ((forall s, stat <> VStr s) ->
   add_stat stat func st = (st, Raise TypeError)) /\
  (forall s, stat = VStr s ->
     str_isidentifier s = false \/ iskeyword s = true \/
     startswith_underscore s = true ->
     add_stat stat func st = (st, Raise ValueError)) /\
  (forall s f, stat = VStr s -> func = Callable f ->
     str_isidentifier s = true -> iskeyword s = false ->
     startswith_underscore s = false ->
     exists st',
       add_stat stat func st = (st', Ok tt) /\
       world st' = world st /\
       sget (str_lower s) (_stats (self st')) = Some f /\
       (forall k, k <> str_lower s ->
          sget k (_stats (self st')) = sget k (_stats (self st))) /\
       (smem (str_lower s) (_stats (self st)) = true ->
          dict_keys (_stats (self st')) = dict_keys (_stats (self st))) /\
       (smem (str_lower s) (_stats (self st)) = false ->
          dict_keys (_stats (self st')) =
          dict_keys (_stats (self st)) ++ [str_lower s])).
Proof.
  split; [|split].
  - intros H. unfold add_stat, bind, lift.
    now rewrite (_check_stat_not_str _ H).
  - intros s -> H. unfold add_stat, bind, lift.
    now rewrite (_check_stat_rejects _ H).
  - intros s f -> -> H1 H2 H3.
    unfold add_stat, bind, lift, modify, gets.
    rewrite (_check_stat_accepts _ H1 H2 H3). cbn [set_self self world _timer].
    rewrite (each_value_total _ (timer_with_stat (str_lower s) f))
      by apply timer_add_stat_total.
    eexists. split; [reflexivity|]. cbn [set_self self world _stats].
    split; [reflexivity|]. unfold sget, sset, smem. split; [|split; [|split]].
    + apply dict_get_set_same, string_eqb_reflect.
    + intros k Hk. now apply dict_get_set_other; [apply string_eqb_reflect|].
    + apply dict_keys_set_old, string_eqb_reflect.
    + apply dict_keys_set_new, string_eqb_reflect.
Qed.
End AddStat.

(** An instance of C8: [3] is refused with a type error and ["_private"] with
    a validation error; ["Mean"] replaces the function of ["mean"] and the
    five names keep their order. *)
Lemma add_stat_validates_name_witness :
  let h := Example.host (Example.steady 1) in
  let st := {| self := @Compare_init h; world := Example.empty_world |} in
  let f : StatFunc := fun _ => Returns (VInt 7) in
  @add_stat h (VInt 3) (Callable f) st = (st, Raise TypeError) /\
  @add_stat h (VStr "_private") (Callable f) st = (st, Raise ValueError) /\
  exists st',
    @add_stat h (VStr "Mean") (Callable f) st = (st', Ok tt) /\
    sget "mean" (_stats (self st')) = Some f /\
    dict_keys (_stats (self st')) = ["mean"; "median"; "min"; "max"; "std"].
Proof.
  intros h st f. split; [|split].
  - apply (proj1 (@add_stat_validates_name h (VInt 3) (Callable f) st)).
    intros s; discriminate.
  - apply (proj1 (proj2 (@add_stat_validates_name h (VStr "_private")
                           (Callable f) st)) "_private" eq_refl).
    right; right; reflexivity.
  - destruct (proj2 (proj2 (@add_stat_validates_name h (VStr "Mean")
                              (Callable f) st)) "Mean" f eq_refl eq_refl
                eq_refl eq_refl eq_refl)
      as (st' & Hrun & _ & Hget & _ & Hold & _).
    exists st'. split; [exact Hrun|]. split; [exact Hget|].
    rewrite Hold; reflexivity.
Defined.

(** ** The estimation of the iteration count *)

Section Estimation.
Context {host : Host}.

Lemma estimate_step (fuel : nat) (repeat : Z) (time : Q) (n : Z)
    (rs rs1 : RunSt) (t : Q) :
  pass (dict_keys (rs_new rs)) n 0 rs = (rs1, Ok t) ->
  estimate (S fuel) repeat time n rs =
  if Qlt_le_dec (2 # 10) t
  then set_number (estimated_number n time t repeat) rs1
  else estimate fuel repeat time (next_n n t) rs1.
Proof.
  intros Hpass. cbn [estimate]. unfold bind at 1. unfold gets at 1.
  unfold bind at 1. rewrite Hpass.
  destruct (Qlt_le_dec (2 # 10) t); reflexivity.
Qed.


Lemma estimate_calibration (repeat : Z) (time : Q) (fuel : nat) :
  forall n rs rs',
  estimate fuel repeat time n rs = (rs', Ok tt) ->
  exists ps final rs2,
    calibration n rs ps final rs2 /\ (List.length ps < fuel)%nat /\
    (rs', Ok tt) =
    set_number (estimated_number (fst final) time (snd final) repeat) rs2.
Proof.
  induction fuel as [|fuel IH]; intros n rs rs' H; [discriminate|].
  destruct (pass (dict_keys (rs_new rs)) n 0 rs) as [rs1 [t|e|]] eqn:Hpass.
  - rewrite (estimate_step _ _ _ _ _ _ _ Hpass) in H.
    destruct (Qlt_le_dec (2 # 10) t) as [Hlt|Hle].
    + exists [], (n, t), rs1. split; [now constructor|].
      split; [simpl; lia|]. now rewrite <- H.
    + destruct (IH _ _ _ H) as (ps & final & rs2 & Hc & Hlen & Heq).
      exists ((n, t) :: ps), final, rs2. split; [now econstructor; eauto|].
      split; [simpl; lia|assumption].
  - cbn [estimate] in H. unfold bind at 1 in H. unfold gets at 1 in H.
    unfold bind at 1 in H. rewrite Hpass in H. discriminate.
  - cbn [estimate] in H. unfold bind at 1 in H. unfold gets at 1 in H.
    unfold bind at 1 in H. rewrite Hpass in H. discriminate.
Qed.
End Estimation.








(** ** What a computation leaves as it is *)

Section Preserve.
Context {S : Type} (R : S -> S -> Prop).
Hypothesis R_refl : forall s, R s s.
Hypothesis R_trans : forall a b c, R a b -> R b c -> R a c.

(** Whatever its outcome, the computation relates the state it starts from
    to the state it ends in. *)
Definition preserves {A : Type} (c : M S A) : Prop :=
  forall s s' o, c s = (s', o) -> R s s'.

Lemma preserves_ret {A} (a : A) : preserves (ret a).
Proof. intros s s' o H. inversion H. apply R_refl. Qed.

Lemma preserves_lift {A} (o : outcome A) : preserves (lift o).
Proof. intros s s' o' H. inversion H. apply R_refl. Qed.

Lemma preserves_gets {A} (f : S -> A) : preserves (gets f).
Proof. intros s s' o H. inversion H. apply R_refl. Qed.

Lemma preserves_modify (f : S -> S) :
  (forall s, R s (f s)) -> preserves (modify f).
Proof. intros Hf s s' o H. inversion H. apply Hf. Qed.

Lemma preserves_bind {A B} (c : M S A) (k : A -> M S B) :
  preserves c -> (forall a, preserves (k a)) -> preserves (bind c k).
Proof.
  intros Hc Hk s s' o H. unfold bind in H.
  destruct (c s) as [s1 [a|e|]] eqn:E.
  - eapply R_trans; [eapply Hc; eauto|eapply Hk; eauto].
  - inversion H; subst. eapply Hc; eauto.
  - inversion H; subst. eapply Hc; eauto.
Qed.

Lemma preserves_for_each {A} (l : list A) (body : A -> M S unit) :
  (forall x, preserves (body x)) -> preserves (for_each l body).
Proof.
  intros Hb. induction l as [|x l IH]; simpl.
  - apply preserves_ret.
  - apply preserves_bind; auto.
Qed.

Lemma preserves_for_range (k : nat) (body : M S unit) :
  preserves body -> preserves (for_range k body).
Proof.
  intros Hb. induction k as [|k IH]; simpl.
  - apply preserves_ret.
  - apply preserves_bind; auto.
Qed.
End Preserve.

(** ** Compare.run *)

Lemma compute_stats_total (fs : list (string * StatFunc)) (time : list Q)
    (acc : list (string * option num)) :
  compute_stats fs time acc =
  Ok (fold_left (fun acc sf => sset (fst sf) (stat_value (snd sf) time) acc)
        fs acc).
Proof.
  revert acc. induction fs as [|[stat func] fs IH]; intros acc; simpl.
  - reflexivity.
  - now rewrite _stat_call_value, IH.
Qed.

Section Run.
Context {host : Host}.

Lemma same_shape_refl (d : list (Z * Result)) : same_shape d d.
Proof. unfold same_shape. induction d; constructor; auto. Qed.

Lemma same_shape_trans (a b c : list (Z * Result)) :
  same_shape a b -> same_shape b c -> same_shape a c.
Proof.
  unfold same_shape. intros Hab. revert c.
  induction Hab as [|x y a b [H1 H2] _ IH]; intros c Hbc;
    inversion Hbc as [|y' z b' c' [H3 H4] Hbc']; subst; constructor.
  - split; congruence.
  - now apply IH.
Qed.

Lemma same_shape_keys (d d' : list (Z * Result)) :
  same_shape d d' -> dict_keys d' = dict_keys d.
Proof.
  unfold same_shape, dict_keys.
  induction 1 as [|x y a b [H1 _] _ IH]; simpl; congruence.
Qed.

Lemma frame_refl (rs : RunSt) : frame rs rs.
Proof. split; [reflexivity|apply same_shape_refl]. Qed.

Lemma frame_trans (a b c : RunSt) : frame a b -> frame b c -> frame a c.
Proof.
  intros [H1 H2] [H3 H4]. split; [congruence|].
  eapply same_shape_trans; eauto.
Qed.

Local Hint Resolve frame_refl frame_trans : core.

Lemma timeit_frame (id n : Z) : preserves frame (timeit id n).
Proof.
  intros rs rs' o H. unfold timeit in H.
  destruct (timeit_prim _ id n); inversion H; subst;
    (split; [reflexivity|apply same_shape_refl]).
Qed.

Lemma pass_frame (ids : list Z) (n : Z) (t : Q) : preserves frame (pass ids n t).
Proof.
  revert t. induction ids as [|id ids IH]; intros t; simpl.
  - apply preserves_ret; auto.
  - apply preserves_bind; eauto using timeit_frame.
Qed.

Lemma set_number_frame (x : Z) : preserves frame (set_number x).
Proof.
  apply preserves_modify. intros s.
  split; [reflexivity|apply same_shape_refl].
Qed.

Lemma estimate_frame (fuel : nat) (repeat : Z) (time : Q) (n : Z) :
  preserves frame (estimate fuel repeat time n).
Proof.
  revert n. induction fuel as [|fuel IH]; intros n; simpl.
  - apply preserves_lift; auto.
  - apply preserves_bind; eauto using preserves_gets.
    intros ids. apply preserves_bind; eauto using pass_frame.
    intros t. destruct (Qlt_le_dec (2 # 10) t); auto using set_number_frame.
Qed.

Lemma next_progress_frame (show_progress : bool) (task_num : nat) :
  preserves frame (next_progress show_progress task_num).
Proof.
  intros rs rs' o H. unfold next_progress in H. inversion H; subst.
  destruct show_progress; (split; [reflexivity|apply same_shape_refl]).
Qed.

Lemma map_update_keys (id : Z) (f : Result -> Result) (d : list (Z * Result)) :
  dict_keys (map (fun kv => if Z.eqb (fst kv) id
                            then (fst kv, f (snd kv)) else kv) d)
  = dict_keys d.
Proof.
  unfold dict_keys. rewrite map_map. apply map_ext.
  intros [k v]. simpl. now destruct (Z.eqb k id).
Qed.

Lemma update_result_frame (id : Z) (t : Q) (nb : Z) :
  preserves frame (update_result id (record_trial t nb)).
Proof.
  apply preserves_modify. intros s. split; [reflexivity|]. cbn.
  unfold same_shape. induction (rs_new s) as [|[k r] d IH]; simpl;
    constructor; auto.
  simpl. destruct (Z.eqb k id); auto.
Qed.

Lemma trial_frame (show_progress : bool) (task_num : nat) (id : Z) :
  preserves frame (trial show_progress task_num id).
Proof.
  unfold trial.
  apply preserves_bind; eauto using preserves_gets. intros nb.
  apply preserves_bind; eauto using timeit_frame. intros t.
  apply preserves_bind; eauto using update_result_frame, next_progress_frame.
Qed.

Lemma measure_frame (repeat : Z) (show_progress : bool) :
  preserves frame (measure repeat show_progress).
Proof.
  unfold measure.
  apply preserves_bind; eauto using preserves_gets. intros ids.
  apply preserves_bind; eauto using next_progress_frame. intros _.
  apply (preserves_for_range frame frame_refl frame_trans).
  apply (preserves_for_each frame frame_refl frame_trans).
  apply trial_frame.
Qed.

Lemma run_try_frame (fuel : nat) (repeat : Z) (time : Q) (show_progress : bool) :
  preserves frame (run_try fuel repeat time show_progress).
Proof.
  unfold run_try.
  apply preserves_bind; eauto using preserves_gets. intros nb.
  apply preserves_bind; eauto using measure_frame.
  destruct (nb <=? 0)%Z; auto using estimate_frame, preserves_ret.
Qed.

Lemma finish_result_total (fs : list (string * StatFunc)) (r : Result) :
  finish_result fs r = Ok (finished fs r).
Proof. unfold finish_result. now rewrite compute_stats_total. Qed.

(** [run_finish] always succeeds. *)
Lemma run_finish_ok (show_progress : bool) (rs : RunSt) :
  exists st', run_finish show_progress rs = (st', Ok tt).
Proof.
  unfold run_finish.
  rewrite (each_value_total _ _ _ (finish_result_total _)).
  eexists; reflexivity.
Qed.

(** C10. A run that ends with an exception leaves the object as it was:
    the timers with their durations, total times, stats and cached
    results, the registry of statistics and the stored iteration count.
    This covers an error of a statement during the estimation or the
    measurement, an interrupt that is not captured, and a rejected
    argument. *)
Theorem run_atomic_on_failure (fuel : nat) (repeat number time : pyval)
    (show_progress : bool) (st st' : St) (e : exn) :
  run fuel repeat number time show_progress st = (st', Raise e) ->
  self st' = self st.
Proof.
  unfold run. intros H.
  destruct (run_checks repeat number time) as [[[r nb] tm]|e0|];
    [|now inversion H|discriminate].
  destruct (_timer (self st)) as [|kv timers] eqn:Ht; [discriminate|].
  match type of H with
  | context [run_try ?f ?r ?t ?s ?rs0] =>
      destruct (run_try f r t s rs0) as [rs1 o] eqn:Htry
  end.
  apply run_try_frame in Htry. destruct Htry as [Hself _].
  assert (Hst1 : self (rs_st rs1) = self st).
  { rewrite Hself. unfold enter_try, announce. cbn [rs_st].
    destruct show_progress; reflexivity. }
  destruct o as [[]|e'|].
  - destruct (run_finish_ok show_progress rs1) as [st2 Hfin].
    rewrite Hfin in H. discriminate.
  - destruct e'; try (inversion H; subst; assumption).
    destruct (_catch_interrupt (self st)).
    + match type of H with
      | run_finish ?s ?rs = _ =>
          destruct (run_finish_ok s rs) as [st2 Hfin]
      end.
      rewrite Hfin in H. discriminate.
    + inversion H; subst; assumption.
  - discriminate.
Qed.
End Run.

(** ** The measurement, trial by trial *)

Lemma grown_refl (d : list (Z * Result)) : grown (fun _ => O) d d.
Proof.
  unfold grown. induction d as [|kv d IH]; constructor;
    [repeat split; lia|assumption].
Qed.

Lemma grown_trans (k1 k2 : Z -> nat) (a b c : list (Z * Result)) :
  grown k1 a b -> grown k2 b c -> grown (fun i => (k1 i + k2 i)%nat) a c.
Proof.
  unfold grown. intros Hab. revert c.
  induction Hab as [|x y a b (Hk & Hs & Hl) _ IH]; intros c Hbc;
    inversion Hbc as [|y' z b' c' (Hk' & Hs' & Hl') Hbc']; subst; constructor.
  - repeat split; try congruence. rewrite Hl', Hl, Hk. lia.
  - now apply IH.
Qed.

Lemma grown_ext (k k' : Z -> nat) (d d' : list (Z * Result)) :
  (forall i, k i = k' i) -> grown k d d' -> grown k' d d'.
Proof.
  unfold grown. intros Hk H.
  induction H as [|x y a b (H1 & H2 & H3) _ IH]; constructor; auto.
  rewrite <- Hk. auto.
Qed.

Lemma grown_keys (k : Z -> nat) (d d' : list (Z * Result)) :
  grown k d d' -> dict_keys d' = dict_keys d.
Proof.
  unfold grown, dict_keys.
  induction 1 as [|x y a b (H1 & _) _ IH]; simpl; congruence.
Qed.

Lemma advances_refl (rs : RunSt) : advances [] (fun _ => O) rs rs.
Proof.
  unfold advances. rewrite app_nil_r. auto using grown_refl.
Qed.

Lemma advances_trans (cs1 cs2 : list (Z * Z)) (k1 k2 : Z -> nat)
    (a b c : RunSt) :
  advances cs1 k1 a b -> advances cs2 k2 b c ->
  advances (cs1 ++ cs2) (fun i => (k1 i + k2 i)%nat) a c.
Proof.
  intros (H1 & H2 & H3 & H4) (H5 & H6 & H7 & H8). unfold advances.
  rewrite H5, H1, H6, H2, H7, H3, app_assoc.
  eauto using grown_trans.
Qed.

Lemma advances_ext (cs : list (Z * Z)) (k k' : Z -> nat) (rs rs' : RunSt) :
  (forall i, k i = k' i) -> advances cs k rs rs' -> advances cs k' rs rs'.
Proof.
  intros Hk (H1 & H2 & H3 & H4). unfold advances. eauto using grown_ext.
Qed.

Section Measurement.
Context {host : Host}.

Lemma timeit_advances (id n : Z) (rs rs' : RunSt) (o : outcome Q) :
  timeit id n rs = (rs', o) -> advances [(id, n)] (fun _ => O) rs rs'.
Proof.
  unfold timeit. intros H.
  assert (Hrs : rs' =
    {| rs_st := {| self := self (rs_st rs);
                   world := {| calls := calls (world (rs_st rs)) ++ [(id, n)];
                               stdout := stdout (world (rs_st rs)) |} |};
       rs_number := rs_number rs; rs_new := rs_new rs;
       rs_progress_i := rs_progress_i rs |}).
  { destruct (timeit_prim _ id n); now inversion H. }
  subst rs'. unfold advances. cbn. auto using grown_refl.
Qed.

Lemma update_result_grown (id : Z) (t : Q) (nb : Z) (d : list (Z * Result)) :
  grown (fun i => if Z.eqb i id then 1%nat else O) d
    (map (fun kv => if Z.eqb (fst kv) id
                    then (fst kv, record_trial t nb (snd kv)) else kv) d).
Proof.
  unfold grown. induction d as [|[k r] d IH]; simpl; constructor; auto.
  simpl. destruct (Z.eqb k id); simpl.
  - repeat split. rewrite length_app. reflexivity.
  - repeat split. lia.
Qed.

Lemma next_progress_advances (show_progress : bool) (task_num : nat)
    (rs rs' : RunSt) (o : outcome unit) :
  next_progress show_progress task_num rs = (rs', o) ->
  advances [] (fun _ => O) rs rs'.
Proof.
  unfold next_progress. intros H. inversion H; subst. unfold advances.
  cbn. rewrite app_nil_r.
  destruct show_progress; cbn; auto using grown_refl.
Qed.

Lemma trial_advances (show_progress : bool) (task_num : nat) (id : Z)
    (rs rs' : RunSt) :
  trial show_progress task_num id rs = (rs', Ok tt) ->
  advances [(id, rs_number rs)] (fun i => if Z.eqb i id then 1%nat else O)
    rs rs'.
Proof.
  unfold trial, bind at 1, gets at 1, bind at 1. intros H.
  destruct (timeit id (rs_number rs) rs) as [rs1 [t|e|]] eqn:Ht;
    try discriminate.
  apply timeit_advances in Ht.
  unfold bind, update_result, modify in H.
  apply next_progress_advances in H.
  assert (Hupd : advances [] (fun i => if Z.eqb i id then 1%nat else O) rs1
    {| rs_st := rs_st rs1; rs_number := rs_number rs1;
       rs_new := map (fun kv => if Z.eqb (fst kv) id
                                then (fst kv, record_trial t (rs_number rs) (snd kv))
                                else kv) (rs_new rs1);
       rs_progress_i := rs_progress_i rs1 |}).
  { unfold advances. cbn. rewrite app_nil_r.
    repeat split. apply update_result_grown. }
  pose proof (advances_trans _ _ _ _ _ _ _ Ht
                (advances_trans _ _ _ _ _ _ _ Hupd H)) as Hall.
  eapply advances_ext; [|exact Hall]. intros i. cbn. lia.
Qed.
End Measurement.

Lemma rounds_succ (k : nat) (ids : list Z) (nb : Z) :
  rounds (S k) ids nb = map (fun id => (id, nb)) ids ++ rounds k ids nb.
Proof. reflexivity. Qed.

Section Rounds.
Context {host : Host}.

Lemma round_advances (show_progress : bool) (task_num : nat) (ids : list Z) :
  forall rs rs',
  for_each ids (trial show_progress task_num) rs = (rs', Ok tt) ->
  advances (map (fun id => (id, rs_number rs)) ids)
           (fun i => count_occ Z.eq_dec ids i) rs rs'.
Proof.
  induction ids as [|id ids IH]; intros rs rs' H.
  - inversion H; subst. apply advances_refl.
  - cbn [for_each] in H. unfold bind at 1 in H.
    destruct (trial show_progress task_num id rs) as [rs1 [[]|e|]] eqn:Ht;
      try discriminate.
    apply trial_advances in Ht. apply IH in H.
    assert (Hnb : rs_number rs1 = rs_number rs) by apply Ht.
    rewrite Hnb in H.
    pose proof (advances_trans _ _ _ _ _ _ _ Ht H) as Hall.
    eapply advances_ext; [|exact Hall].
    intros i. cbn [count_occ].
    destruct (Z.eq_dec id i) as [->|Hne].
    + now rewrite Z.eqb_refl.
    + destruct (Z.eqb_spec i id); [congruence|reflexivity].
Qed.

Lemma rounds_advances (show_progress : bool) (task_num : nat) (ids : list Z)
    (k : nat) :
  forall rs rs',
  for_range k (for_each ids (trial show_progress task_num)) rs = (rs', Ok tt) ->
  advances (rounds k ids (rs_number rs))
           (fun i => (k * count_occ Z.eq_dec ids i)%nat) rs rs'.
Proof.
  induction k as [|k IH]; intros rs rs' H.
  - inversion H; subst. apply advances_refl.
  - cbn [for_range] in H. unfold bind at 1 in H.
    destruct (for_each ids (trial show_progress task_num) rs)
      as [rs1 [[]|e|]] eqn:Hr; try discriminate.
    apply round_advances in Hr. apply IH in H.
    assert (Hnb : rs_number rs1 = rs_number rs) by apply Hr.
    rewrite Hnb in H. rewrite rounds_succ.
    pose proof (advances_trans _ _ _ _ _ _ _ Hr H) as Hall.
    eapply advances_ext; [|exact Hall].
    intros i. cbn. lia.
Qed.

Lemma measure_advances (repeat : Z) (show_progress : bool) (rs rs' : RunSt) :
  measure repeat show_progress rs = (rs', Ok tt) ->
  advances (rounds (Z.to_nat repeat) (dict_keys (rs_new rs)) (rs_number rs))
           (fun i => (Z.to_nat repeat
                      * count_occ Z.eq_dec (dict_keys (rs_new rs)) i)%nat)
           rs rs'.
Proof.
  unfold measure, bind at 1, gets at 1, bind at 1. intros H.
  match type of H with
  | context [next_progress ?s ?n rs] =>
      destruct (next_progress s n rs) as [rs1 [[]|e|]] eqn:Hp
  end; try discriminate.
  apply next_progress_advances in Hp. apply rounds_advances in H.
  assert (Hnb : rs_number rs1 = rs_number rs) by apply Hp.
  rewrite Hnb in H.
  pose proof (advances_trans _ _ _ _ _ _ _ Hp H) as Hall.
  eapply advances_ext; [|exact Hall]. intros i. cbn. lia.
Qed.

Lemma calibrated_refl (rs : RunSt) : calibrated rs rs.
Proof. repeat split. exists []. now rewrite app_nil_r. Qed.

Lemma calibrated_trans (a b c : RunSt) :
  calibrated a b -> calibrated b c -> calibrated a c.
Proof.
  intros (H1 & H2 & cs1 & H3) (H4 & H5 & cs2 & H6).
  repeat split; try congruence.
  exists (cs1 ++ cs2). now rewrite H6, H3, app_assoc.
Qed.

Lemma timeit_calibrated (id n : Z) : preserves calibrated (timeit id n).
Proof.
  intros rs rs' o H. unfold timeit in H.
  destruct (timeit_prim _ id n); inversion H; subst; cbn;
    (repeat split; eexists; reflexivity).
Qed.

Lemma pass_calibrated (ids : list Z) (n : Z) (t : Q) :
  preserves calibrated (pass ids n t).
Proof.
  revert t. induction ids as [|id ids IH]; intros t; simpl.
  - apply preserves_ret, calibrated_refl.
  - apply (preserves_bind calibrated calibrated_trans);
      [apply timeit_calibrated|intros dt; apply IH].
Qed.

Lemma estimate_calibrated (fuel : nat) (repeat : Z) (time : Q) (n : Z) :
  preserves calibrated (estimate fuel repeat time n).
Proof.
  revert n. induction fuel as [|fuel IH]; intros n; simpl.
  - apply preserves_lift, calibrated_refl.
  - apply (preserves_bind calibrated calibrated_trans);
      [apply preserves_gets, calibrated_refl|intros ids].
    apply (preserves_bind calibrated calibrated_trans);
      [apply pass_calibrated|intros t].
    destruct (Qlt_le_dec (2 # 10) t); [|apply IH].
    apply preserves_modify. intros rs. cbn.
    repeat split. exists []. cbn. now rewrite app_nil_r.
Qed.

Lemma estimate_number_positive (fuel : nat) (repeat : Z) (time : Q) (n : Z)
    (rs rs' : RunSt) :
  estimate fuel repeat time n rs = (rs', Ok tt) -> 1 <= rs_number rs'.
Proof.
  intros H. apply estimate_calibration in H.
  destruct H as (ps & final & rs2 & _ & _ & Heq).
  inversion Heq; subst. cbn. unfold estimated_number. lia.
Qed.
End Rounds.

(** ** From [new] to the timers *)

Lemma zget_map_values {A B : Type} (g : A -> B) (id : Z) (d : list (Z * A)) :
  zget id (map (fun kv => (fst kv, g (snd kv))) d) = option_map g (zget id d).
Proof.
  unfold zget. induction d as [|[k a] d IH]; simpl; [reflexivity|].
  destruct (Z.eqb id k); [reflexivity|assumption].
Qed.

Lemma zget_in_keys {A : Type} (id : Z) (d : list (Z * A)) :
  In id (dict_keys d) -> exists a, zget id d = Some a.
Proof.
  intros H. apply (dict_mem_keys Z.eqb Z_eqb_reflect) in H.
  unfold dict_mem in H. unfold zget.
  destruct (dict_get Z.eqb id d) as [a|]; [eauto|discriminate].
Qed.

Lemma grown_zget (k : Z -> nat) (d d' : list (Z * Result)) (id : Z) (r0 : Result) :
  grown k d d' -> zget id d = Some r0 ->
  exists r1, zget id d' = Some r1 /\ r_stats r1 = r_stats r0 /\
             List.length (r_time r1) = (List.length (r_time r0) + k id)%nat.
Proof.
  unfold grown, zget.
  induction 1 as [|[i a] [i' a'] d d' (Hk & Hs & Hl) _ IH]; simpl;
    [discriminate|].
  simpl in Hk, Hs, Hl. subst i'.
  destruct (Z.eqb_spec id i) as [->|Hne]; [|assumption].
  intros H. inversion H; subst. eauto.
Qed.

Lemma stats_of_finished (fs : list (string * StatFunc)) (r : Result) :
  r_stats r = [] -> r_stats (finished fs r) = stats_of fs (r_time r).
Proof. intros H. unfold finished, stats_of. cbn. now rewrite H. Qed.

(** The timers [run] leaves, given [new] as the [try] block left it. *)
Lemma updated_timers_measured (fs : list (string * StatFunc)) (r : nat)
    (k : Z -> nat) (timers : list (Z * Timer)) (new1 : list (Z * Result)) :
  grown k (map (fun kv => (fst kv, empty_result)) timers) new1 ->
  (forall i, In i (dict_keys timers) -> k i = r) ->
  Forall (fun kv =>
            List.length (timer_time (snd kv)) = r /\
            timer_stats (snd kv) = stats_of fs (timer_time (snd kv)))
    (map (fun kv =>
            match zget (fst kv)
                    (map (fun kv => (fst kv, finished fs (snd kv))) new1) with
            | Some x => (fst kv, dict_update (snd kv) x)
            | None => kv
            end) timers).
Proof.
  intros Hg Hk. apply Forall_forall. intros kv' Hin.
  apply in_map_iff in Hin. destruct Hin as ([id timer] & <- & Hin).
  cbn [fst snd].
  assert (Hkey : In id (dict_keys timers)).
  { unfold dict_keys. apply in_map_iff. exists (id, timer). auto. }
  destruct (zget_in_keys id timers Hkey) as [timer0 H0].
  pose proof (zget_map_values (fun _ : Timer => empty_result) id timers) as Hm.
  rewrite H0 in Hm. cbn in Hm.
  destruct (grown_zget _ _ _ _ _ Hg Hm) as (r1 & H1 & Hs & Hl).
  rewrite zget_map_values, H1. cbn.
  rewrite (Hk _ Hkey) in Hl. split; [assumption|].
  now apply stats_of_finished.
Qed.

Section RunCompleted.
Context {host : Host}.

Lemma run_finish_state (show_progress : bool) (rs : RunSt) (st' : St) :
  run_finish show_progress rs = (st', Ok tt) ->
  _timer (self st') =
    map (fun kv =>
           match zget (fst kv)
                   (map (fun kv => (fst kv, finished (_stats (self (rs_st rs)))
                                               (snd kv))) (rs_new rs)) with
           | Some x => (fst kv, dict_update (snd kv) x)
           | None => kv
           end) (_timer (self (rs_st rs))) /\
  _number (self st') = rs_number rs /\
  _stats (self st') = _stats (self (rs_st rs)) /\
  _catch_interrupt (self st') = _catch_interrupt (self (rs_st rs)) /\
  calls (world st') = calls (world (rs_st rs)) /\
  stdout (world st') =
    stdout (world (rs_st rs)) ++ (if show_progress then [OutLine ""] else []).
Proof.
  unfold run_finish. intros H.
  destruct show_progress; cbn in H;
    rewrite (each_value_total _ _ _ (finish_result_total _)) in H;
    inversion H; subst; cbn; rewrite ?app_nil_r; auto 10.
Qed.

(** The [try] block, when it completes. *)
Lemma run_try_completed (fuel : nat) (repeat : Z) (time : Q)
    (show_progress : bool) (rs rs' : RunSt) :
  run_try fuel repeat time show_progress rs = (rs', Ok tt) ->
  exists rsE,
    calibrated rs rsE /\
    (if (rs_number rs <=? 0)%Z then 1 <= rs_number rsE
     else rs_number rsE = rs_number rs) /\
    advances (rounds (Z.to_nat repeat) (dict_keys (rs_new rs)) (rs_number rsE))
      (fun i => (Z.to_nat repeat
                 * count_occ Z.eq_dec (dict_keys (rs_new rs)) i)%nat)
      rsE rs'.
Proof.
  unfold run_try, bind at 1, gets at 1, bind at 1. intros H.
  destruct (rs_number rs <=? 0)%Z eqn:Hnb.
  - destruct (estimate fuel repeat time 1 rs) as [rsE [[]|e|]] eqn:He;
      try discriminate.
    exists rsE. pose proof (estimate_calibrated _ _ _ _ _ _ _ He) as Hc.
    split; [assumption|]. split; [eapply estimate_number_positive; eauto|].
    apply measure_advances in H.
    destruct Hc as (_ & Hnew & _). now rewrite Hnew in H.
  - unfold ret in H. exists rs. split; [apply calibrated_refl|].
    split; [reflexivity|]. apply measure_advances in H. exact H.
Qed.

(** C1. A run with [repeat = r], [r >= 1], that returns without having
    captured an interrupt (a statement error would have made it raise)
    leaves every timer with exactly [r] durations and with the stats map
    computed from these durations by the registered statistics. With at
    least one timer, the measurement is [r] rounds of one [timeit] call per
    timer, all with the one iteration count that is then stored in
    [_number], which is at least 1. *)
Theorem run_records_every_trial (fuel : nat) (r : Z) (number time : pyval)
    (show_progress : bool) (st st' : St) :
  1 <= r ->
  NoDup (dict_keys (_timer (self st))) ->
  run fuel (VInt r) number time show_progress st = (st', Ok tt) ->
  _catch_interrupt (self st') <> Some (Some KeyboardInterrupt) ->
  Forall (fun kv =>
            List.length (timer_time (snd kv)) = Z.to_nat r /\
            timer_stats (snd kv) =
            stats_of (_stats (self st')) (timer_time (snd kv)))
    (_timer (self st')) /\
  (_timer (self st) <> [] ->
   1 <= _number (self st') /\
   exists est,
     calls (world st') =
     calls (world st) ++ est
     ++ rounds (Z.to_nat r) (dict_keys (_timer (self st))) (_number (self st'))).
Proof.
  intros Hr Hnodup Hrun Hint. unfold run, run_checks in Hrun.
  cbn [as_int] in Hrun.
  assert (Hlt : (r <? 1)%Z = false) by (apply Z.ltb_ge; lia).
  rewrite Hlt in Hrun.
  destruct (as_int number) as [nb|]; [|discriminate].
  destruct (as_float_or_int time) as [tm|]; [|discriminate].
  destruct (_timer (self st)) as [|kv0 timers0] eqn:Htimers.
  { inversion Hrun; subst. rewrite Htimers. split; [constructor|congruence]. }
  rewrite <- Htimers in *.
  set (st1 := announce show_progress st) in Hrun.
  assert (Hst1 : self st1 = self st /\ calls (world st1) = calls (world st)).
  { subst st1. unfold announce. destruct show_progress; cbn; auto. }
  destruct Hst1 as [Hself1 Hcalls1].
  match type of Hrun with
  | context [run_try ?f ?rr ?t ?s ?rs0] =>
      destruct (run_try f rr t s rs0) as [rs1 o] eqn:Htry
  end.
  assert (Hfin : run_finish show_progress rs1 = (st', Ok tt)).
  { destruct o as [[]|e|]; [assumption| |discriminate].
    destruct e; try discriminate.
    destruct (_catch_interrupt (self st)); [|discriminate].
    apply run_finish_state in Hrun.
    destruct Hrun as (_ & _ & _ & Hci & _). cbn in Hci.
    congruence. }
  assert (Hok : o = Ok tt).
  { destruct o as [[]|e|]; [reflexivity| |discriminate].
    destruct e; try discriminate.
    destruct (_catch_interrupt (self st)); [|discriminate].
    apply run_finish_state in Hrun.
    destruct Hrun as (_ & _ & _ & Hci & _). cbn in Hci.
    congruence. }
  subst o. clear Hrun.
  apply run_try_completed in Htry.
  destruct Htry as (rsE & (HselfE & HnewE & est & HcallsE) & HnbE & Hadv).
  destruct Hadv as (Hnb1 & Hself1' & Hcalls1' & Hgrown).
  cbn [enter_try rs_st rs_new rs_number] in *.
  apply run_finish_state in Hfin.
  destruct Hfin as (Htm & Hnum & Hstats & _ & Hcalls & _).
  assert (Hkeys : dict_keys (map (fun kv : Z * Timer => (fst kv, empty_result))
                               (_timer (self st))) = dict_keys (_timer (self st))).
  { unfold dict_keys. rewrite map_map. reflexivity. }
  rewrite Hkeys in *.
  assert (Hs : self (rs_st rs1) = self st) by congruence.
  split.
  - rewrite Htm, Hstats, Hs. rewrite HnewE in Hgrown.
    eapply updated_timers_measured; [exact Hgrown|].
    intros i Hi. cbn beta.
    rewrite (proj1 (NoDup_count_occ' Z.eq_dec _) Hnodup i Hi). lia.
  - intros _. rewrite Hnum, Hnb1. split.
    + destruct (nb <=? 0)%Z eqn:E; [assumption|].
      rewrite HnbE. apply Z.leb_gt in E. lia.
    + exists est. rewrite Hcalls, Hcalls1', HcallsE, Hcalls1.
      now rewrite <- app_assoc.
Qed.
End RunCompleted.

(** An instance of C1: two timers, three repetitions, every call taking a
    quarter of a second. *)
Lemma run_records_every_trial_witness :
  let h := Example.host (Example.steady (1 # 4)) in
  let st := Example.registered h [Source "a"; Source "b"] in
  exists st',
    @run h 5 (VInt 3) (VInt 0) (VFloat 1) true st = (st', Ok tt) /\
    Forall (fun kv =>
              List.length (timer_time (snd kv)) = 3%nat /\
              timer_stats (snd kv) =
              stats_of (_stats (self st')) (timer_time (snd kv)))
      (_timer (self st')) /\
    (_timer (self st) <> [] ->
     1 <= _number (self st') /\
     exists est,
       calls (world st') =
       calls (world st) ++ est
       ++ rounds 3 (dict_keys (_timer (self st))) (_number (self st'))).
Proof.
  intros h st. eexists. split; [vm_compute; reflexivity|].
  apply (@run_records_every_trial h 5 3 (VInt 0) (VFloat 1) true st).
  - lia.
  - vm_compute. repeat constructor; simpl; intuition discriminate.
  - vm_compute. reflexivity.
  - vm_compute. discriminate.
Defined.

(** An instance of C10: after a first run of two timers, a second run whose
    fifth call fails raises the error and leaves the object of the first
    run. *)
Lemma run_atomic_on_failure_witness :
  let h := Example.host (Example.failing_after (List.repeat (1 # 4) 10)) in
  let st0 := Example.registered h [Source "a"; Source "b"] in
  let st := fst (@run h 0 (VInt 3) (VInt 1) (VFloat 1) false st0) in
  exists st',
    @run h 5 (VInt 3) (VInt 0) (VFloat 1) false st
    = (st', Raise (StmtError "ZeroDivisionError")) /\
    List.length (calls (world st')) = 11%nat /\
    self st' = self st.
Proof.
  intros h st0 st. eexists. split; [vm_compute; reflexivity|].
  split; [reflexivity|].
  apply (@run_atomic_on_failure h 5 (VInt 3) (VInt 0) (VFloat 1) false st _
           (StmtError "ZeroDivisionError")).
  vm_compute. reflexivity.
Defined.

(** ** The arguments of [run] *)

Section RunArguments.
Context {host : Host}.

(** C9, as the code does it. An argument of the wrong type ([repeat] or
    [number] that is not an integer, [time] that is not a real number)
    raises [TypeError] before anything is measured or changed. A number
    out of range is not an error: [repeat < 1] runs as [repeat = 1] and a
    negative [time] as [time = 0.0]. The legacy [_run_args] checks and
    clamps the same way, and clamps a negative [number] to 0. *)
Theorem run_checks_types_and_clamps (fuel : nat) (repeat number time : pyval)
    (show_progress : bool) (st : St) :
  (as_int repeat = None \/ as_int number = None \/
   as_float_or_int time = None ->
   run fuel repeat number time show_progress st = (st, Raise TypeError) /\
   Legacy._run_args repeat number time show_progress = Raise TypeError) /\
  (forall r, as_int repeat = Some r -> r < 1 ->
     run fuel repeat number time show_progress st =
     run fuel (VInt 1) number time show_progress st) /\
  (forall x, as_float_or_int time = Some x -> (num_val x < 0)%Q ->
     run fuel repeat number time show_progress st =
     run fuel repeat number (VFloat 0) show_progress st) /\
  (forall r n x,
     as_int repeat = Some r -> as_int number = Some n ->
     as_float_or_int time = Some x ->
     exists t,
       Legacy._run_args repeat number time show_progress =
       Ok (Z.max r 1, Z.max n 0, t, show_progress) /\
       (0 <= t)%Q /\ ((0 <= num_val x)%Q -> t = num_val x)).
Proof.
  split; [|split; [|split]].
  - intros H. unfold run, run_checks, Legacy._run_args.
    destruct (as_int repeat); [|auto].
    destruct (as_int number); [|auto].
    destruct (as_float_or_int time); [|auto].
    destruct H as [H|[H|H]]; discriminate.
  - intros r Hr Hlt. unfold run, run_checks. rewrite Hr. cbn [as_int].
    apply Z.ltb_lt in Hlt. rewrite Hlt. reflexivity.
  - intros x Hx Hlt. unfold run, run_checks. rewrite Hx.
    cbn [as_float_or_int num_val].
    destruct (as_int repeat); [|reflexivity].
    destruct (as_int number); [|reflexivity].
    destruct (Qlt_le_dec (num_val x) 0) as [_|Hle];
      [|exfalso; apply (Qlt_not_le _ _ Hlt Hle)].
    reflexivity.
  - intros r n x Hr Hn Hx. unfold Legacy._run_args. rewrite Hr, Hn, Hx.
    assert (Hr1 : (if (r <? 1)%Z then 1 else r) = Z.max r 1)
      by (destruct (Z.ltb_spec r 1); lia).
    assert (Hn0 : (if (n <? 0)%Z then 0 else n) = Z.max n 0)
      by (destruct (Z.ltb_spec n 0); lia).
    rewrite Hr1, Hn0. eexists. split; [reflexivity|].
    destruct (Qlt_le_dec (num_val x) 0) as [H1|H1].
    + split; [apply Qle_refl|]. intros H2.
      exfalso. apply (Qlt_not_le _ _ H1 H2).
    + split; [assumption|reflexivity].
Qed.
End RunArguments.

(** An instance of C9: a string for [repeat] is refused; [repeat = 0] runs as
    [repeat = 1] and [time = -1.0] as [time = 0.0]. *)
Lemma run_checks_types_and_clamps_witness :
  let h := Example.host (Example.steady (1 # 4)) in
  let st := Example.registered h [Source "a"] in
  @run h 5 (VStr "3") (VInt 0) (VFloat 1) false st = (st, Raise TypeError) /\
  @run h 5 (VInt 0) (VInt 0) (VFloat 1) false st =
  @run h 5 (VInt 1) (VInt 0) (VFloat 1) false st /\
  @run h 5 (VInt 0) (VInt 0) (VFloat (-1)) false st =
  @run h 5 (VInt 0) (VInt 0) (VFloat 0) false st.
Proof.
  intros h st. split; [|split].
  - apply (@run_checks_types_and_clamps h 5 (VStr "3") (VInt 0) (VFloat 1)
             false st).
    left. reflexivity.
  - apply (proj1 (proj2 (@run_checks_types_and_clamps h 5 (VInt 0) (VInt 0)
                           (VFloat 1) false st)) 0); [reflexivity|lia].
  - apply (proj1 (proj2 (proj2 (@run_checks_types_and_clamps h 5 (VInt 0)
                                  (VInt 0) (VFloat (-1)) false st)))
             (NFloat (-1))); reflexivity.
Defined.

(** C9 as stated fails: a run with [repeat = 0] and [time = -1.0] raises
    nothing. It estimates the iteration count, measures the timer once and
    stores the result. *)
Lemma run_accepts_numbers_out_of_range :
  let h := Example.host (Example.steady (1 # 4)) in
  let st := Example.registered h [Source "a"] in
  exists st',
    @run h 5 (VInt 0) (VInt 0) (VFloat (-1)) false st = (st', Ok tt) /\
    calls (world st') = [(0, 1); (0, 1)] /\
    map (fun kv => timer_time (snd kv)) (_timer (self st')) = [[1 # 4]].
Proof.
  intros h st. eexists. split; [vm_compute; reflexivity|].
  split; reflexivity.
Defined.

(** ** Selection *)

(** C7. A call that gives both [include] and [exclude] raises [ValueError]
    and does nothing else: [print_results] prints no table and leaves the
    state as it is, whatever the other arguments. In the legacy module
    [_select] raises [ValueError]; its callers [run] and [print_results]
    raise before any reset, timing or printing: the error of their own
    argument check when that check fails, this [ValueError] otherwise. *)
Theorem include_and_exclude_rejected {host : Host} (include exclude : list Z)
    (sort_by : pyval) (reverse : bool) (stats percentage : names_arg)
    (precision : pyval) (st : St) (keys : list Z) (repeat number time : pyval)
    (show_process : bool) :
  print_results (Some include) (Some exclude) sort_by reverse stats percentage
    precision st = (st, Raise ValueError) /\
  Legacy._select keys (Some include) (Some exclude) = Raise ValueError /\
  Legacy.run_selection keys repeat number time (Some include) (Some exclude)
    show_process =
  Raise match Legacy._run_args repeat number time show_process with
        | Raise e => e
        | _ => ValueError
        end /\
  Legacy.print_results_selection keys sort_by reverse precision
    (Some include) (Some exclude) =
  Raise match Legacy._print_results_args sort_by reverse precision with
        | Raise e => e
        | _ => ValueError
        end.
Proof.
  split; [reflexivity|]. split; [reflexivity|]. split.
  - unfold Legacy.run_selection, Legacy._run_args.
    destruct (as_int repeat); [|reflexivity].
    destruct (as_int number); [|reflexivity].
    destruct (as_float_or_int time); reflexivity.
  - unfold Legacy.print_results_selection, Legacy._print_results_args,
      Legacy._sort_by_args.
    destruct sort_by; try reflexivity.
    destruct (mem_string _ _); [|reflexivity].
    destruct (as_int precision); reflexivity.
Qed.

(** ** The order of the rows *)



Section ListSort.
Context {A : Type} (key : A -> Q) (reverse : bool).


Let before (y x : A) : bool :=
  if reverse then Qltb (key x) (key y) else Qltb (key y) (key x).




Lemma insert_sorted_perm (x : A) (l : list A) :
  Permutation (insert_sorted before x l) (x :: l).
Proof.
  induction l as [|y l IH]; simpl; [reflexivity|].
  destruct (before y x); [|reflexivity].
  rewrite IH. apply perm_swap.
Qed.


Lemma list_sort_perm (l : list A) : Permutation (list_sort key reverse l) l.
Proof.
  unfold list_sort. fold before. induction l as [|x l IH]; simpl; [reflexivity|].
  rewrite insert_sorted_perm. now constructor.
Qed.

End ListSort.


Lemma lines_m_heads (f : Timer -> outcome (list cell)) (l : list Timer)
    (body : list (list cell)) :
  (forall t line, f t = Ok line -> hd _null line = CId (timer_id t)) ->
  lines_m f l = Ok body ->
  map (hd _null) body = map (fun t => CId (timer_id t)) l.
Proof.
  intros Hf. revert body. induction l as [|t l IH]; intros body H; simpl in H.
  - now inversion H.
  - destruct (f t) as [line| |] eqn:E; try discriminate.
    destruct (lines_m f l) as [lines| |]; try discriminate.
    inversion H; subst. simpl. now rewrite (Hf _ _ E), (IH lines).
Qed.

Lemma get_line_head (timer : Timer) (stats : list string)
    (max_value : list (string * num)) (precision : Z) (line : list cell) :
  get_line timer stats max_value precision = Ok line ->
  hd _null line = CId (timer_id timer).
Proof.
  unfold get_line. destruct (concat_m _ stats); intros H; inversion H.
  reflexivity.
Qed.



(** ** The percentage columns *)

Lemma mem_string_In (s : string) (l : list string) :
  mem_string s l = true <-> In s l.
Proof.
  unfold mem_string. rewrite existsb_exists. split.
  - intros (x & Hx & E). apply String.eqb_eq in E. now subst.
  - intros H. exists s. split; [assumption|apply String.eqb_refl].
Qed.

Lemma raise_to_idempotent (entry : option (option num)) (mx : num) :
  raise_to entry (raise_to entry mx) = raise_to entry mx.
Proof.
  destruct entry as [[v|]|]; simpl; try reflexivity.
  destruct (Qltb (num_val mx) (num_val v)) eqn:E; [|now rewrite E].
  unfold Qltb. destruct (Qlt_le_dec (num_val v) (num_val v)) as [H|_];
    [|reflexivity].
  now apply Qlt_irrefl in H.
Qed.

Lemma max_step_get (timer : Timer) (mv mv' : list (string * num)) (stat : string) :
  max_step timer mv stat = Ok mv' ->
  forall k, sget k mv' =
            if String.eqb k stat
            then option_map (raise_to (sget stat (timer_stats timer))) (sget k mv)
            else sget k mv.
Proof.
  unfold max_step, stat_of. intros H k.
  destruct (sget stat (timer_stats timer)) as [[v|]|] eqn:Ev; try discriminate.
  - destruct (sget stat mv) as [mx|] eqn:Em; try discriminate.
    destruct (String.eqb_spec k stat) as [->|Hne].
    + rewrite Em. simpl. destruct (Qltb (num_val mx) (num_val v));
        inversion H; subst; [|assumption].
      apply dict_get_set_same, string_eqb_reflect.
    + destruct (Qltb (num_val mx) (num_val v)); inversion H; subst;
        [|reflexivity].
      now apply dict_get_set_other; [apply string_eqb_reflect|].
  - inversion H; subst.
    destruct (String.eqb k stat); [|reflexivity].
    now destruct (sget k mv').
Qed.

Lemma max_steps_get (timer : Timer) (l : list string) :
  forall mv mv',
  fold_m (max_step timer) mv l = Ok mv' ->
  forall k, sget k mv' =
            if mem_string k l
            then option_map (raise_to (sget k (timer_stats timer))) (sget k mv)
            else sget k mv.
Proof.
  induction l as [|stat l IH]; intros mv mv' H k; simpl in H.
  - now inversion H.
  - destruct (max_step timer mv stat) as [mv1| |] eqn:E1; try discriminate.
    rewrite (IH _ _ H k), (max_step_get _ _ _ _ E1 k).
    unfold mem_string. simpl.
    destruct (String.eqb_spec k stat) as [->|Hne]; simpl.
    + destruct (existsb _ l); [|reflexivity].
      destruct (sget stat mv); simpl; [|reflexivity].
      now rewrite raise_to_idempotent.
    + reflexivity.
Qed.


Lemma fromkeys_get (percentage : list string) (k : string) :
  forall d,
  sget k (fold_left (fun d stat => sset stat (NFloat 0) d) percentage d) =
  if mem_string k percentage then Some (NFloat 0) else sget k d.
Proof.
  assert (Hin : forall l d, sget k d = Some (NFloat 0) ->
            sget k (fold_left (fun d stat => sset stat (NFloat 0) d) l d)
            = Some (NFloat 0)).
  { induction l as [|s l IH]; intros d Hd; simpl; [assumption|].
    apply IH. destruct (String.eqb_spec k s) as [->|Hne].
    - apply dict_get_set_same, string_eqb_reflect.
    - unfold sget, sset. rewrite dict_get_set_other;
        [assumption|apply string_eqb_reflect|assumption]. }
  induction percentage as [|s l IH]; intros d; simpl; [reflexivity|].
  unfold mem_string. simpl.
  destruct (String.eqb_spec k s) as [->|Hne]; simpl.
  - rewrite Hin; [reflexivity|]. apply dict_get_set_same, string_eqb_reflect.
  - rewrite IH. unfold mem_string. destruct (existsb _ l); [reflexivity|].
    now apply dict_get_set_other; [apply string_eqb_reflect|].
Qed.








(** ** The arguments of the report *)



Section PrintArgs.
Context {host : Host}.

Lemma _check_stat_select_mem (c : Compare) (v : pyval) (s : string) :
  _check_stat_select c v = Ok s -> smem s (_stats c) = true.
Proof.
  unfold _check_stat_select. destruct (_check_stat v) as [s0| |];
    try discriminate.
  destruct (smem s0 (_stats c)) eqn:E; intros H; inversion H; now subst.
Qed.



End PrintArgs.

(** ** The timers after an interrupted run *)

Lemma same_shape_zget (d d' : list (Z * Result)) (id : Z) (r0 : Result) :
  same_shape d d' -> zget id d = Some r0 ->
  exists r1, zget id d' = Some r1 /\ r_stats r1 = r_stats r0.
Proof.
  unfold same_shape, zget.
  induction 1 as [|[i a] [i' a'] d d' (Hk & Hs) _ IH]; simpl; [discriminate|].
  simpl in Hk, Hs. subst i'.
  destruct (Z.eqb_spec id i) as [->|Hne]; [|assumption].
  intros H. inversion H; subst. eauto.
Qed.

(** The timers [run] leaves when the [try] block has left [new1], however
    it ended: every timer has the durations recorded for it so far, and the
    stats map computed from them. *)
Lemma updated_timers_partial (fs : list (string * StatFunc))
    (timers : list (Z * Timer)) (new1 : list (Z * Result)) :
  same_shape (map (fun kv => (fst kv, empty_result)) timers) new1 ->
  Forall (fun kv =>
            exists r1,
              zget (fst kv) new1 = Some r1 /\
              timer_time (snd kv) = r_time r1 /\
              timer_total_time (snd kv) = r_total_time r1 /\
              timer_stats (snd kv) = stats_of fs (r_time r1))
    (map (fun kv =>
            match zget (fst kv)
                    (map (fun kv => (fst kv, finished fs (snd kv))) new1) with
            | Some x => (fst kv, dict_update (snd kv) x)
            | None => kv
            end) timers).
Proof.
  intros Hs. apply Forall_forall. intros kv' Hin.
  apply in_map_iff in Hin. destruct Hin as ([id timer] & <- & Hin).
  cbn [fst snd].
  assert (Hkey : In id (dict_keys timers)).
  { unfold dict_keys. apply in_map_iff. exists (id, timer). auto. }
  destruct (zget_in_keys id timers Hkey) as [timer0 H0].
  pose proof (zget_map_values (fun _ : Timer => empty_result) id timers) as Hm.
  rewrite H0 in Hm. cbn in Hm.
  destruct (same_shape_zget _ _ _ _ Hs Hm) as (r1 & H1 & Hst).
  rewrite zget_map_values, H1. cbn. exists r1.
  split; [assumption|]. split; [reflexivity|]. split; [reflexivity|].
  now apply stats_of_finished.
Qed.

Lemma updated_timers_keys (new' : list (Z * Result)) (timers : list (Z * Timer)) :
  dict_keys (map (fun kv : Z * Timer =>
                    match zget (fst kv) new' with
                    | Some x => (fst kv, dict_update (snd kv) x)
                    | None => kv
                    end) timers) = dict_keys timers.
Proof.
  unfold dict_keys. rewrite map_map. apply map_ext.
  intros [k t]. cbn. now destruct (zget k new').
Qed.



Lemma zget_In {A : Type} (id : Z) (d : list (Z * A)) (a : A) :
  zget id d = Some a -> In (id, a) d.
Proof.
  unfold zget. induction d as [|[k v] d IH]; simpl; [discriminate|].
  destruct (Z.eqb_spec id k) as [->|Hne].
  - intros H. inversion H. now left.
  - intros H. right. auto.
Qed.

(** ** The report *)









Section Interrupt.
Context {host : Host}.

(** The state [run] leaves after its [try] block was interrupted and the
    interrupt captured. *)
Lemma run_finish_captured (show_progress : bool) (rs1 : RunSt) (st : St)
    (nb : Z) :
  frame (enter_try (announce show_progress st) nb (_timer (self st))) rs1 ->
  exists st2,
    run_finish show_progress (capture KeyboardInterrupt rs1) = (st2, Ok tt) /\
    _catch_interrupt (self st2) = Some (Some KeyboardInterrupt) /\
    _number (self st2) = rs_number rs1 /\
    _stats (self st2) = _stats (self st) /\
    dict_keys (_timer (self st2)) = dict_keys (_timer (self st)) /\
    calls (world st2) = calls (world (rs_st rs1)) /\
    stdout (world st2) =
      stdout (world (rs_st rs1)) ++ (if show_progress then [OutLine ""] else []) /\
    Forall (fun kv =>
              exists r1,
                zget (fst kv) (rs_new rs1) = Some r1 /\
                timer_time (snd kv) = r_time r1 /\
                timer_total_time (snd kv) = r_total_time r1 /\
                timer_stats (snd kv) = stats_of (_stats (self st)) (r_time r1))
      (_timer (self st2)).
Proof.
  intros [Hself Hshape]. cbn [enter_try rs_st rs_new] in Hself, Hshape.
  assert (Hs : self (rs_st rs1) = self st).
  { rewrite Hself. unfold announce. destruct show_progress; reflexivity. }
  destruct (run_finish_ok show_progress (capture KeyboardInterrupt rs1))
    as [st2 Hfin].
  exists st2. split; [exact Hfin|].
  apply run_finish_state in Hfin.
  destruct Hfin as (Htm & Hnum & Hstats & Hci & Hcalls & Hout).
  cbn [capture rs_st rs_new rs_number set_catch_interrupt set_self self world
       _timer _stats _catch_interrupt] in *.
  rewrite Hs in *.
  split; [assumption|]. split; [assumption|]. split; [assumption|].
  split; [rewrite Htm; apply updated_timers_keys|].
  split; [assumption|]. split; [assumption|].
  rewrite Htm. now apply updated_timers_partial.
Qed.


(** An interrupt in the [try] block of [run]. Without the attribute
    [_catch_interrupt] the interrupt leaves [run]. With the attribute, [run]
    returns: the interrupt is stored in the attribute, and every timer has
    the durations recorded for it before the interrupt, their total, and the
    stats map computed from these durations. *)
Theorem run_interrupted (fuel : nat) (repeat number time : pyval)
    (show_progress : bool) (st : St) (r nb : Z) (tm : Q) (rs1 : RunSt) :
  run_checks repeat number time = Ok (r, nb, tm) ->
  _timer (self st) <> [] ->
  run_try fuel r tm show_progress
    (enter_try (announce show_progress st) nb (_timer (self st)))
  = (rs1, Raise KeyboardInterrupt) ->
  (_catch_interrupt (self st) = None ->
   run fuel repeat number time show_progress st
   = (rs_st rs1, Raise KeyboardInterrupt)) /\
  (forall v, _catch_interrupt (self st) = Some v ->
   exists st2,
     run fuel repeat number time show_progress st = (st2, Ok tt) /\
     _catch_interrupt (self st2) = Some (Some KeyboardInterrupt) /\
     _number (self st2) = rs_number rs1 /\
     _stats (self st2) = _stats (self st) /\
     dict_keys (_timer (self st2)) = dict_keys (_timer (self st)) /\
     calls (world st2) = calls (world (rs_st rs1)) /\
     Forall (fun kv =>
               exists r1,
                 zget (fst kv) (rs_new rs1) = Some r1 /\
                 timer_time (snd kv) = r_time r1 /\
                 timer_total_time (snd kv) = r_total_time r1 /\
                 timer_stats (snd kv) = stats_of (_stats (self st)) (r_time r1))
       (_timer (self st2))).
Proof.
  intros Hchecks Htimers Htry. unfold run. rewrite Hchecks.
  destruct (_timer (self st)) as [|kv timers] eqn:Ht; [congruence|].
  rewrite <- Ht in *. rewrite Htry. split.
  - intros Hnone. now rewrite Hnone.
  - intros v Hv. rewrite Hv.
    destruct (run_finish_captured show_progress rs1 st nb)
      as (st2 & H1 & H2 & H3 & H4 & H5 & H6 & _ & H8).
    { eapply run_try_frame. exact Htry. }
    exists st2. auto 10.
Qed.

Lemma for_each_keeps_world {A : Type} (l : list A) (body : A -> M St unit) :
  (forall x st st' o, body x st = (st', o) -> world st' = world st) ->
  forall st st' o, for_each l body st = (st', o) -> world st' = world st.
Proof.
  intros Hb.
  apply (preserves_for_each (fun st st' : St => world st' = world st)).
  - reflexivity.
  - intros a b c H1 H2. congruence.
  - intros x st st' o. apply Hb.
Qed.


End Interrupt.

Lemma pair_of_snd {A B : Type} (p : A * B) (b : B) :
  snd p = b -> p = (fst p, b).
Proof. destruct p. simpl. now intros ->. Qed.

(** An instance: two timers; the sixth [timeit] call is interrupted, after
    one estimation pass and three trials. Without the attribute the
    interrupt leaves [run]; with it [run] returns and stores it. *)
Lemma run_interrupted_witness :
  let h := Example.host
             (Example.interrupted_after [1 # 8; 1 # 8; 1 # 4; 1 # 4; 1 # 2]) in
  let st := Example.registered h [Source "a"; Source "b"] in
  let st_c := set_catch_interrupt None st in
  (exists st', @run h 10 (VInt 3) (VInt 0) (VFloat 1) false st
               = (st', Raise KeyboardInterrupt)) /\
  (exists st2,
     @run h 10 (VInt 3) (VInt 0) (VFloat 1) false st_c = (st2, Ok tt) /\
     _catch_interrupt (self st2) = Some (Some KeyboardInterrupt) /\
     dict_keys (_timer (self st2)) = dict_keys (_timer (self st_c))).
Proof.
  intros h st st_c.
  assert (Hne : _timer (self st) <> []) by (vm_compute; discriminate).
  assert (Hne_c : _timer (self st_c) <> []) by (vm_compute; discriminate).
  pose (rs0 := enter_try (announce false st) 0 (_timer (self st))).
  pose (rs0_c := enter_try (announce false st_c) 0 (_timer (self st_c))).
  assert (Htry : @run_try h 10 3 1 false rs0
                 = (fst (@run_try h 10 3 1 false rs0), Raise KeyboardInterrupt))
    by (apply pair_of_snd; vm_compute; reflexivity).
  assert (Htry_c : @run_try h 10 3 1 false rs0_c
                   = (fst (@run_try h 10 3 1 false rs0_c),
                      Raise KeyboardInterrupt))
    by (apply pair_of_snd; vm_compute; reflexivity).
  split.
  - exists (rs_st (fst (@run_try h 10 3 1 false rs0))).
    exact (proj1 (@run_interrupted h 10 (VInt 3) (VInt 0) (VFloat 1) false st
                    3 0 1 (fst (@run_try h 10 3 1 false rs0)) eq_refl Hne Htry)
             eq_refl).
  - destruct (proj2 (@run_interrupted h 10 (VInt 3) (VInt 0) (VFloat 1) false
                       st_c 3 0 1 (fst (@run_try h 10 3 1 false rs0_c))
                       eq_refl Hne_c Htry_c) None eq_refl)
      as (st2 & H1 & H2 & _ & _ & H5 & _).
    exists st2. auto.
Defined.


(** ** The estimation ends *)

Section EstimationEnds.
Context {host : Host}.

End EstimationEnds.

Section EstimationEnds2.
Context {host : Host}.



End EstimationEnds2.


(** ** What a run raises *)

Section Faithful.
Context {host : Host}.













End Faithful.

Section RunRaises.
Context {host : Host}.



End RunRaises.


(** ** The output and the calls of a completed run *)

Lemma printed_zero (sp : bool) (tn : nat) (rs rs' : RunSt) :
  silent rs rs' -> printed sp tn 0 rs rs'.
Proof.
  intros [H1 H2]. unfold printed, progress_lines. cbn.
  destruct sp; rewrite app_nil_r; split; auto; lia.
Qed.

Lemma printed_trans (sp : bool) (tn k1 k2 : nat) (a b c : RunSt) :
  printed sp tn k1 a b -> printed sp tn k2 b c -> printed sp tn (k1 + k2) a c.
Proof.
  intros [H1 H2] [H3 H4]. unfold printed. rewrite H3, H1, H4, H2.
  split; [|lia]. rewrite <- app_assoc. f_equal.
  destruct sp; [|reflexivity].
  unfold progress_lines. now rewrite seq_app, map_app.
Qed.

Section Output.
Context {host : Host}.

Lemma silent_refl (rs : RunSt) : silent rs rs.
Proof. split; reflexivity. Qed.

Lemma silent_trans (a b c : RunSt) : silent a b -> silent b c -> silent a c.
Proof. intros [H1 H2] [H3 H4]. split; congruence. Qed.

Lemma timeit_silent (id n : Z) : preserves silent (timeit id n).
Proof.
  intros rs rs' o H. unfold timeit in H.
  destruct (timeit_prim _ id n); inversion H; subst; split; reflexivity.
Qed.

Lemma pass_silent (ids : list Z) (n : Z) (t : Q) :
  preserves silent (pass ids n t).
Proof.
  revert t. induction ids as [|id ids IH]; intros t; simpl.
  - apply preserves_ret, silent_refl.
  - apply (preserves_bind silent silent_trans);
      [apply timeit_silent|intros dt; apply IH].
Qed.

Lemma estimate_silent (fuel : nat) (repeat : Z) (time : Q) (n : Z) :
  preserves silent (estimate fuel repeat time n).
Proof.
  revert n. induction fuel as [|fuel IH]; intros n; simpl.
  - apply preserves_lift, silent_refl.
  - apply (preserves_bind silent silent_trans);
      [apply preserves_gets, silent_refl|intros ids].
    apply (preserves_bind silent silent_trans);
      [apply pass_silent|intros t].
    destruct (Qlt_le_dec (2 # 10) t); [|apply IH].
    apply preserves_modify. intros rs. split; reflexivity.
Qed.

Lemma next_progress_printed (sp : bool) (tn : nat) (rs rs' : RunSt)
    (o : outcome unit) :
  next_progress sp tn rs = (rs', o) -> printed sp tn 1 rs rs'.
Proof.
  unfold next_progress. intros H. inversion H; subst. unfold printed.
  cbn. split; [|lia]. destruct sp; cbn; [reflexivity|now rewrite app_nil_r].
Qed.

Lemma trial_printed (sp : bool) (tn : nat) (id : Z) (rs rs' : RunSt) :
  trial sp tn id rs = (rs', Ok tt) -> printed sp tn 1 rs rs'.
Proof.
  unfold trial, bind at 1, gets at 1, bind at 1. intros H.
  destruct (timeit id (rs_number rs) rs) as [rs1 [t|e|]] eqn:Ht;
    try discriminate.
  apply timeit_silent in Ht.
  unfold bind, update_result, modify in H.
  apply next_progress_printed in H.
  apply (printed_trans sp tn 0 1 rs rs1 rs'); [now apply printed_zero|].
  exact H.
Qed.

Lemma round_printed (sp : bool) (tn : nat) (ids : list Z) :
  forall rs rs',
  for_each ids (trial sp tn) rs = (rs', Ok tt) ->
  printed sp tn (List.length ids) rs rs'.
Proof.
  induction ids as [|id ids IH]; intros rs rs' H.
  - inversion H; subst. apply printed_zero, silent_refl.
  - cbn [for_each] in H. unfold bind at 1 in H.
    destruct (trial sp tn id rs) as [rs1 [[]|e|]] eqn:Ht; try discriminate.
    apply trial_printed in Ht. apply IH in H.
    exact (printed_trans sp tn 1 _ _ _ _ Ht H).
Qed.

Lemma rounds_printed (sp : bool) (tn : nat) (ids : list Z) (k : nat) :
  forall rs rs',
  for_range k (for_each ids (trial sp tn)) rs = (rs', Ok tt) ->
  printed sp tn (k * List.length ids) rs rs'.
Proof.
  induction k as [|k IH]; intros rs rs' H.
  - inversion H; subst. apply printed_zero, silent_refl.
  - cbn [for_range] in H. unfold bind at 1 in H.
    destruct (for_each ids (trial sp tn) rs) as [rs1 [[]|e|]] eqn:Hr;
      try discriminate.
    apply round_printed in Hr. apply IH in H.
    exact (printed_trans sp tn _ _ _ _ _ Hr H).
Qed.

Lemma run_try_printed (fuel : nat) (repeat : Z) (time : Q) (sp : bool)
    (rs rs' : RunSt) :
  run_try fuel repeat time sp rs = (rs', Ok tt) ->
  let ids := dict_keys (rs_new rs) in
  printed sp (List.length ids * Z.to_nat repeat)
    (S (Z.to_nat repeat * List.length ids)) rs rs'.
Proof.
  unfold run_try, bind at 1, gets at 1, bind at 1. intros H.
  assert (Hest : exists rsE,
            (if (rs_number rs <=? 0)%Z then estimate fuel repeat time 1
             else ret tt) rs = (rsE, Ok tt) /\
            silent rs rsE /\ rs_new rsE = rs_new rs /\
            measure repeat sp rsE = (rs', Ok tt)).
  { destruct (rs_number rs <=? 0)%Z.
    - destruct (estimate fuel repeat time 1 rs) as [rsE [[]|e|]] eqn:He;
        try discriminate.
      exists rsE. split; [reflexivity|].
      split; [exact (estimate_silent _ _ _ _ _ _ _ He)|].
      split; [apply (estimate_calibrated _ _ _ _ _ _ _ He)|exact H].
    - unfold ret in *. exists rs. split; [reflexivity|].
      split; [apply silent_refl|]. split; [reflexivity|exact H]. }
  destruct Hest as (rsE & _ & Hsilent & Hnew & Hm). clear H.
  cbv zeta. rewrite <- Hnew.
  unfold measure, bind at 1, gets at 1, bind at 1 in Hm.
  match type of Hm with
  | context [next_progress ?s ?n rsE] =>
      destruct (next_progress s n rsE) as [rs1 [[]|e|]] eqn:Hp
  end; try discriminate.
  apply next_progress_printed in Hp. apply rounds_printed in Hm.
  pose proof (printed_trans _ _ _ _ _ _ _ Hp Hm) as Hall.
  pose proof (printed_trans _ _ 0 _ _ _ _ (printed_zero sp _ _ _ Hsilent) Hall)
    as Hall'.
  exact Hall'.
Qed.
End Output.

Section Completed.
Context {host : Host}.

(** A run that returns without having stored an interrupt has completed
    its [try] block. *)
Lemma run_completed_inversion (fuel : nat) (repeat number time : pyval)
    (sp : bool) (st st' : St) (r nb : Z) (tm : Q) :
  run_checks repeat number time = Ok (r, nb, tm) ->
  _timer (self st) <> [] ->
  run fuel repeat number time sp st = (st', Ok tt) ->
  _catch_interrupt (self st') <> Some (Some KeyboardInterrupt) ->
  exists rs1,
    run_try fuel r tm sp (enter_try (announce sp st) nb (_timer (self st)))
    = (rs1, Ok tt) /\
    run_finish sp rs1 = (st', Ok tt).
Proof.
  intros Hchk Hne Hrun Hint. unfold run in Hrun. rewrite Hchk in Hrun.
  destruct (_timer (self st)) as [|kv timers] eqn:Ht; [congruence|].
  rewrite <- Ht in *.
  match type of Hrun with
  | context [run_try ?f ?rr ?t ?s ?rs0] =>
      destruct (run_try f rr t s rs0) as [rs1 o] eqn:Htry
  end.
  exists rs1. destruct o as [[]|e|]; [auto| |discriminate].
  exfalso. destruct e; try discriminate.
  destruct (_catch_interrupt (self st)); [|discriminate].
  apply run_finish_state in Hrun. destruct Hrun as (_ & _ & _ & Hci & _).
  cbn in Hci. congruence.
Qed.

(** The output of a completed run over at least one timer. With
    [show_progress] it is the line 'timing now...', the progress lines
    0 to [task_num] for [task_num = timers * repeat], and an empty line;
    the generator is asked [task_num + 1] times and never exhausted.
    Without [show_progress] nothing is printed. *)
Theorem run_progress_output (fuel : nat) (repeat number time : pyval)
    (sp : bool) (st st' : St) (r nb : Z) (tm : Q) :
  run_checks repeat number time = Ok (r, nb, tm) ->
  _timer (self st) <> [] ->
  run fuel repeat number time sp st = (st', Ok tt) ->
  _catch_interrupt (self st') <> Some (Some KeyboardInterrupt) ->
  let task_num := (List.length (_timer (self st)) * Z.to_nat r)%nat in
  stdout (world st') =
  stdout (world st)
  ++ (if sp
      then OutLine "timing now..." :: progress_lines task_num 0 (S task_num)
           ++ [OutLine ""]
      else []).
Proof.
  intros Hchk Hne Hrun Hint.
  destruct (run_completed_inversion _ _ _ _ _ _ _ _ _ _ Hchk Hne Hrun Hint)
    as (rs1 & Htry & Hfin).
  apply run_try_printed in Htry. cbv zeta in Htry.
  destruct Htry as [Hout _]. cbn [enter_try rs_new rs_st rs_progress_i] in Hout.
  apply run_finish_state in Hfin.
  destruct Hfin as (_ & _ & _ & _ & _ & Hout').
  assert (Hlen : List.length (dict_keys
                   (map (fun kv : Z * Timer => (fst kv, empty_result))
                      (_timer (self st)))) = List.length (_timer (self st))).
  { unfold dict_keys. now rewrite !length_map. }
  rewrite Hlen in Hout. cbv zeta. rewrite Hout', Hout.
  replace (Z.to_nat r * List.length (_timer (self st)))%nat
    with (List.length (_timer (self st)) * Z.to_nat r)%nat by lia.
  unfold announce. destruct sp; cbn.
  - rewrite <- !app_assoc. reflexivity.
  - now rewrite !app_nil_r.
Qed.

(** A completed run with a positive [number] makes no calibration call: its
    calls are [repeat] rounds over the timers with that iteration count,
    which is the one it stores. *)
Theorem run_with_given_number (fuel : nat) (repeat number time : pyval)
    (sp : bool) (st st' : St) (r nb : Z) (tm : Q) :
  run_checks repeat number time = Ok (r, nb, tm) ->
  0 < nb ->
  _timer (self st) <> [] ->
  run fuel repeat number time sp st = (st', Ok tt) ->
  _catch_interrupt (self st') <> Some (Some KeyboardInterrupt) ->
  _number (self st') = nb /\
  calls (world st') =
  calls (world st) ++ rounds (Z.to_nat r) (dict_keys (_timer (self st))) nb.
Proof.
  intros Hchk Hnb Hne Hrun Hint.
  destruct (run_completed_inversion _ _ _ _ _ _ _ _ _ _ Hchk Hne Hrun Hint)
    as (rs1 & Htry & Hfin).
  unfold run_try, bind at 1, gets at 1, bind at 1 in Htry.
  cbn [enter_try rs_number] in Htry.
  assert (Hleb : (nb <=? 0)%Z = false) by (apply Z.leb_gt; lia).
  rewrite Hleb in Htry. unfold ret in Htry.
  apply measure_advances in Htry.
  destruct Htry as (Hnum & _ & Hcalls & _).
  cbn [enter_try rs_number rs_new rs_st] in Hnum, Hcalls.
  apply run_finish_state in Hfin.
  destruct Hfin as (_ & Hnum' & _ & _ & Hcalls' & _).
  split; [congruence|]. rewrite Hcalls', Hcalls.
  f_equal.
  - unfold announce. now destruct sp.
  - f_equal. unfold dict_keys. rewrite map_map. reflexivity.
Qed.
End Completed.

(** An instance: two timers, three repetitions, progress shown. *)
Lemma run_progress_output_witness :
  let h := Example.host (Example.steady (1 # 4)) in
  let st := Example.registered h [Source "a"; Source "b"] in
  exists st',
    @run h 5 (VInt 3) (VInt 2) (VFloat 1) true st = (st', Ok tt) /\
    stdout (world st') =
    stdout (world st)
    ++ OutLine "timing now..." :: progress_lines 6 0 7 ++ [OutLine ""].
Proof.
  intros h st.
  pose (res := @run h 5 (VInt 3) (VInt 2) (VFloat 1) true st).
  assert (Hrun : res = (fst res, Ok tt))
    by (apply pair_of_snd; vm_compute; reflexivity).
  exists (fst res). split; [exact Hrun|].
  apply (@run_progress_output h 5 (VInt 3) (VInt 2) (VFloat 1) true st
           (fst res) 3 2 1 eq_refl).
  - vm_compute. discriminate.
  - exact Hrun.
  - vm_compute. discriminate.
Defined.

(** An instance: two timers, three repetitions of two iterations. *)
Lemma run_with_given_number_witness :
  let h := Example.host (Example.steady (1 # 4)) in
  let st := Example.registered h [Source "a"; Source "b"] in
  exists st',
    @run h 5 (VInt 3) (VInt 2) (VFloat 1) false st = (st', Ok tt) /\
    _number (self st') = 2 /\
    calls (world st') =
    calls (world st) ++ rounds 3 (dict_keys (_timer (self st))) 2.
Proof.
  intros h st.
  pose (res := @run h 5 (VInt 3) (VInt 2) (VFloat 1) false st).
  assert (Hrun : res = (fst res, Ok tt))
    by (apply pair_of_snd; vm_compute; reflexivity).
  exists (fst res). split; [exact Hrun|].
  apply (@run_with_given_number h 5 (VInt 3) (VInt 2) (VFloat 1) false st
           (fst res) 3 2 1 eq_refl).
  - lia.
  - vm_compute. discriminate.
  - exact Hrun.
  - vm_compute. discriminate.
Defined.

(** ** Dictionaries, continued *)

Section DictDel.
Context {K V : Type} (eqb : K -> K -> bool).
Hypothesis eqb_spec : forall a b, reflect (a = b) (eqb a b).

Lemma dict_del_missing (k : K) (d : list (K * V)) :
  dict_del eqb k d = None <-> ~ In k (dict_keys d).
Proof.
  unfold dict_keys. induction d as [|[k' v] d IH]; simpl.
  - tauto.
  - destruct (eqb_spec k k') as [->|Hne].
    + split; [discriminate|]. intros H. exfalso. apply H. now left.
    + destruct (dict_del eqb k d).
      * split; [discriminate|]. intros H. exfalso.
        assert (Hn : ~ In k (map fst d)) by tauto.
        apply IH in Hn. discriminate.
      * split; [|reflexivity]. intros _ [H|H]; [congruence|].
        now apply (proj1 IH).
Qed.

Lemma dict_del_keys (k : K) (d d' : list (K * V)) :
  dict_del eqb k d = Some d' ->
  exists l1 l2, dict_keys d = l1 ++ k :: l2 /\ dict_keys d' = l1 ++ l2 /\
                ~ In k l1.
Proof.
  unfold dict_keys. revert d'. induction d as [|[k' v] d IH]; intros d' H;
    simpl in H; [discriminate|].
  destruct (eqb_spec k k') as [->|Hne].
  - inversion H; subst. exists [], (map fst d'). auto.
  - destruct (dict_del eqb k d) as [d''|]; [|discriminate].
    inversion H; subst. destruct (IH d'' eq_refl) as (l1 & l2 & H1 & H2 & H3).
    exists (k' :: l1), l2. simpl. rewrite H1, H2.
    split; [reflexivity|]. split; [reflexivity|].
    intros [E|E]; [congruence|contradiction].
Qed.

Lemma dict_del_get_other (k k0 : K) (d d' : list (K * V)) :
  dict_del eqb k d = Some d' -> k0 <> k ->
  dict_get eqb k0 d' = dict_get eqb k0 d.
Proof.
  revert d'. induction d as [|[k' v] d IH]; intros d' H Hne; simpl in H;
    [discriminate|].
  destruct (eqb_spec k k') as [->|Hk].
  - inversion H; subst. simpl.
    destruct (eqb_spec k0 k'); [contradiction|reflexivity].
  - destruct (dict_del eqb k d) as [d''|]; [|discriminate].
    inversion H; subst. simpl. destruct (eqb k0 k'); [reflexivity|].
    now apply IH.
Qed.

Lemma dict_del_set_new (k : K) (v : V) (d : list (K * V)) :
  ~ In k (dict_keys d) -> dict_del eqb k (dict_set eqb k v d) = Some d.
Proof.
  unfold dict_keys. induction d as [|[k' v'] d IH]; intros H; simpl.
  - destruct (eqb_spec k k); [reflexivity|congruence].
  - simpl in H. destruct (eqb_spec k k') as [->|Hne]; [tauto|].
    simpl. destruct (eqb_spec k k'); [contradiction|].
    rewrite IH by tauto. reflexivity.
Qed.

Lemma dict_keys_set_same_keys {V' : Type} (k : K) (v : V) (v' : V')
    (d : list (K * V)) (d' : list (K * V')) :
  dict_keys d = dict_keys d' ->
  dict_keys (dict_set eqb k v d) = dict_keys (dict_set eqb k v' d').
Proof.
  unfold dict_keys. revert d'.
  induction d as [|[k1 v1] d IH]; intros [|[k2 v2] d'] H; simpl in *;
    try discriminate; [reflexivity|].
  inversion H; subst. destruct (eqb k k2); simpl; [congruence|].
  f_equal. now apply IH.
Qed.

Lemma dict_del_same_keys {V' : Type} (k : K) (d d1 : list (K * V))
    (d' : list (K * V')) :
  dict_keys d = dict_keys d' -> dict_del eqb k d = Some d1 ->
  exists d1', dict_del eqb k d' = Some d1' /\ dict_keys d1 = dict_keys d1'.
Proof.
  unfold dict_keys. revert d1 d'.
  induction d as [|[k1 v1] d IH]; intros d1 [|[k2 v2] d'] H Hd; simpl in *;
    try discriminate.
  inversion H; subst. destruct (eqb k k2).
  - inversion Hd; subst. eauto.
  - destruct (dict_del eqb k d) as [d2|] eqn:E; [|discriminate].
    inversion Hd; subst.
    destruct (IH d2 d' H2 eq_refl) as (d2' & -> & Hk).
    eexists. split; [reflexivity|]. simpl. congruence.
Qed.

Lemma dict_set_nodup (k : K) (v : V) (d : list (K * V)) :
  NoDup (dict_keys d) -> NoDup (dict_keys (dict_set eqb k v d)).
Proof.
  intros H. destruct (dict_mem eqb k d) eqn:E.
  - now rewrite (dict_keys_set_old eqb eqb_spec).
  - rewrite (dict_keys_set_new eqb eqb_spec) by assumption.
    assert (Hn : ~ In k (dict_keys d)).
    { intros Hin. apply (dict_mem_keys eqb eqb_spec) in Hin. congruence. }
    clear E. induction (dict_keys d) as [|x l IH]; simpl.
    + constructor; [tauto|constructor].
    + inversion H; subst. constructor.
      * rewrite in_app_iff. simpl. intros [Hx|[Hx|[]]]; [tauto|].
        apply Hn. now left.
      * apply IH; [assumption|]. intros Hl. apply Hn. now right.
Qed.
Lemma dict_set_append (k : K) (v : V) (d : list (K * V)) :
  ~ In k (dict_keys d) -> dict_set eqb k v d = d ++ [(k, v)].
Proof.
  unfold dict_keys. induction d as [|[k' v'] d IH]; intros H; simpl;
    [reflexivity|].
  simpl in H. destruct (eqb_spec k k') as [->|Hne]; [tauto|].
  rewrite IH by tauto. reflexivity.
Qed.

Lemma dict_get_missing (k : K) (d : list (K * V)) :
  dict_get eqb k d = None <-> ~ In k (dict_keys d).
Proof.
  split.
  - intros H Hin. apply (dict_mem_keys eqb eqb_spec) in Hin.
    unfold dict_mem in Hin. rewrite H in Hin. discriminate.
  - intros H. destruct (dict_get eqb k d) eqn:E; [|reflexivity].
    exfalso. apply H. apply (dict_mem_keys eqb eqb_spec).
    unfold dict_mem. now rewrite E.
Qed.

Lemma dict_del_In (k : K) (d d' : list (K * V)) (kv : K * V) :
  dict_del eqb k d = Some d' -> In kv d' -> In kv d.
Proof.
  revert d'. induction d as [|[k' v] d IH]; intros d' H Hin; simpl in H;
    [discriminate|].
  destruct (eqb k k').
  - inversion H; subst. now right.
  - destruct (dict_del eqb k d) as [d''|]; [|discriminate].
    inversion H; subst. destruct Hin as [<-|Hin]; [now left|].
    right. now apply (IH d'').
Qed.
End DictDel.

(** ** The registry of timers and statistics *)

Lemma NoDup_remove_middle {A : Type} (l1 l2 : list A) (a : A) :
  NoDup (l1 ++ a :: l2) -> NoDup (l1 ++ l2) /\ ~ In a (l1 ++ l2).
Proof. intros H. apply NoDup_remove in H. exact H. Qed.

Lemma stats_keys_from (time : list Q) (fs : list (string * StatFunc)) :
  forall acc : list (string * option num),
  NoDup (dict_keys acc ++ dict_keys fs) ->
  dict_keys (fold_left (fun acc sf => sset (fst sf) (stat_value (snd sf) time) acc)
               fs acc) = dict_keys acc ++ dict_keys fs.
Proof.
  induction fs as [|[k f] fs IH]; intros acc H; simpl.
  - now rewrite app_nil_r.
  - assert (Hk : ~ In k (dict_keys acc)).
    { intros Hin. apply NoDup_remove_middle in H. destruct H as [_ H].
      apply H. apply in_or_app. now left. }
    unfold sset. rewrite (dict_set_append String.eqb string_eqb_reflect) by assumption.
    rewrite IH; unfold dict_keys in *; rewrite map_app; simpl;
      rewrite <- app_assoc; simpl; [reflexivity|assumption].
Qed.

Lemma stats_of_keys (fs : list (string * StatFunc)) (time : list Q) :
  NoDup (dict_keys fs) -> dict_keys (stats_of fs time) = dict_keys fs.
Proof. intros H. unfold stats_of. now rewrite stats_keys_from. Qed.

Section Registry.
Context {host : Host}.

Lemma add_stats_fold (fs : list (string * StatFunc)) (t : Timer) :
  fold_left (fun acc sf =>
               match acc with
               | Ok timer => timer_add_stat (fst sf) (snd sf) timer
               | other => other
               end) fs (Ok t)
  = Ok (fold_left (fun t sf => timer_with_stat (fst sf) (snd sf) t) fs t).
Proof.
  revert t. induction fs as [|sf fs IH]; intros t; simpl; [reflexivity|].
  rewrite timer_add_stat_total. apply IH.
Qed.

Lemma with_stats_fields (fs : list (string * StatFunc)) :
  forall t : Timer,
  let t' := fold_left (fun t sf => timer_with_stat (fst sf) (snd sf) t) fs t in
  timer_id t' = timer_id t /\ timer_stmt t' = timer_stmt t /\
  timer_time t' = timer_time t /\ timer_total_time t' = timer_total_time t /\
  timer_results t' = timer_results t /\
  (timer_result t = None -> timer_result t' = None) /\
  timer_stats t' =
    fold_left (fun acc sf => sset (fst sf) (stat_value (snd sf) (timer_time t)) acc)
      fs (timer_stats t).
Proof.
  induction fs as [|sf fs IH]; intros t; simpl; [tauto|].
  destruct (IH (timer_with_stat (fst sf) (snd sf) t))
    as (H1 & H2 & H3 & H4 & H5 & H6 & H7).
  cbn in *. rewrite H1, H2, H3, H4, H5, H7. repeat split; auto.
Qed.

Lemma well_formed_init : well_formed Compare_init.
Proof.
  unfold well_formed, Compare_init. cbn. split; [constructor|].
  split; [tauto|]. split; [|split; [constructor|discriminate]].
  repeat (constructor; [cbn; intuition discriminate|]). constructor.
Qed.

(** The state after a successful [add_timer]. *)
Lemma add_timer_state (stmt : Stmt) (st : St) :
  (forall id, In id (dict_keys (_timer (self st))) -> id < _timer_id (self st)) ->
  exists timer,
    add_timer stmt st =
      ({| self := {| _timer_id := _timer_id (self st) + 1;
                     _timer := _timer (self st) ++ [(_timer_id (self st), timer)];
                     _stats := _stats (self st);
                     _number := _number (self st);
                     _stats_namedtuple := _stats_namedtuple (self st);
                     _catch_interrupt := _catch_interrupt (self st) |};
          world := world st |}, Ok (_timer_id (self st))) /\
    timer_id timer = _timer_id (self st) /\ timer_stmt timer = stmt /\
    timer_time timer = [] /\ timer_total_time timer = 0%Q /\
    timer_result timer = None /\
    timer_stats timer = stats_of (_stats (self st)) [].
Proof.
  intros Hlt. unfold add_timer. rewrite add_stats_fold.
  destruct (with_stats_fields (_stats (self st)) (new_timer stmt))
    as (H1 & H2 & H3 & H4 & H5 & H6 & H7).
  eexists. split.
  - unfold set_self. cbn [self world _timer_id _timer _stats _number
                          _stats_namedtuple _catch_interrupt].
    unfold zset.
    rewrite (dict_set_append Z.eqb Z_eqb_reflect).
    + reflexivity.
    + intros Hin. apply Hlt in Hin. lia.
  - cbn. rewrite H2, H3, H4, H7. cbn. repeat split; auto.
Qed.
End Registry.



Section Operations.
Context {host : Host}.


Lemma add_timer_well_formed (stmt : Stmt) (st st' : St) (o : outcome Z) :
  well_formed (self st) -> add_timer stmt st = (st', o) ->
  well_formed (self st').
Proof.
  intros Hwf Hrun. pose proof Hwf as (Hnd & Hids & Hsnd & Hall & Hnt).
  destruct (add_timer_state stmt st Hids)
    as (timer & Hrun' & H1 & H2 & H3 & _ & _ & H4).
  rewrite Hrun' in Hrun. inversion Hrun; subst st' o. clear Hrun.
  unfold well_formed. cbn. unfold dict_keys in *. rewrite map_app. cbn.
  split; [|split; [|split; [|split; [|exact Hnt]]]].
  - apply NoDup_app; [assumption|repeat constructor; intros []|].
    intros a Ha [<-|[]]. apply Hids in Ha. lia.
  - intros id Hin. apply in_app_or in Hin. destruct Hin as [Hin|[<-|[]]].
    + apply Hids in Hin. lia.
    + lia.
  - assumption.
  - apply Forall_app. split; [assumption|]. constructor; [|constructor].
    cbn. split; [assumption|]. rewrite H4. now apply stats_of_keys.
Qed.

Lemma del_timer_state (id : Z) (st st' : St) (o : outcome unit) :
  del_timer id st = (st', o) ->
  (o = Raise KeyError /\ st' = st /\ ~ In id (dict_keys (_timer (self st)))) \/
  (o = Ok tt /\ world st' = world st /\
   zdel id (_timer (self st)) = Some (_timer (self st')) /\
   _timer_id (self st') = _timer_id (self st) /\
   _stats (self st') = _stats (self st) /\
   _number (self st') = _number (self st) /\
   _stats_namedtuple (self st') = _stats_namedtuple (self st)).
Proof.
  unfold del_timer. destruct (zdel id (_timer (self st))) as [timers|] eqn:E;
    intros H; inversion H; subst.
  - right. cbn. auto 10.
  - left. split; [reflexivity|]. split; [reflexivity|].
    now apply (dict_del_missing Z.eqb Z_eqb_reflect).
Qed.

Lemma del_timer_well_formed (id : Z) (st st' : St) (o : outcome unit) :
  well_formed (self st) -> del_timer id st = (st', o) ->
  well_formed (self st').
Proof.
  intros Hwf Hrun. apply del_timer_state in Hrun.
  destruct Hrun as [(_ & -> & _)|(_ & _ & Hdel & Hc & Hs & _ & Hn)];
    [assumption|].
  destruct Hwf as (Hnd & Hids & Hsnd & Hall & Hnt).
  destruct (dict_del_keys Z.eqb Z_eqb_reflect _ _ _ Hdel)
    as (l1 & l2 & Hk & Hk' & Hl1).
  unfold well_formed. rewrite Hk', Hc, Hs, Hn. rewrite Hk in Hnd, Hids.
  split; [|split; [|split; [|split; [|exact Hnt]]]].
  - now apply NoDup_remove_middle in Hnd.
  - intros i Hi. apply Hids. apply in_app_or in Hi. apply in_or_app.
    destruct Hi; [now left|right; now right].
  - assumption.
  - rewrite Forall_forall in *. intros kv Hkv. apply Hall.
    eapply dict_del_In; eauto.
Qed.

Lemma add_stat_state (stat : pyval) (func : func_arg) (st st' : St)
    (o : outcome unit) :
  add_stat stat func st = (st', o) ->
  (st' = st /\ exists e, o = Raise e) \/
  (exists name f,
     _check_stat stat = Ok name /\ func = Callable f /\ o = Ok tt /\
     st' = {| self := {| _timer_id := _timer_id (self st);
                         _timer := map (fun kv => (fst kv,
                                          timer_with_stat name f (snd kv)))
                                       (_timer (self st));
                         _stats := sset name f (_stats (self st));
                         _number := _number (self st);
                         _stats_namedtuple := None;
                         _catch_interrupt := _catch_interrupt (self st) |};
              world := world st |}).
Proof.
  unfold add_stat, bind, lift.
  destruct (_check_stat stat) as [name|e|] eqn:Hchk.
  - destruct func as [f|v].
    + unfold modify, gets. cbn [set_self self world _timer].
      rewrite (each_value_total _ (timer_with_stat name f))
        by apply timer_add_stat_total.
      intros H. inversion H; subst. right. exists name, f. auto.
    + unfold raise. intros H. inversion H; subst. left. eauto.
  - intros H. inversion H; subst. left. eauto.
  - exfalso. destruct stat; try discriminate. cbn in Hchk.
    destruct (negb (str_isidentifier s)); [discriminate|].
    destruct (iskeyword s); [discriminate|].
    destruct (startswith_underscore s); discriminate.
Qed.

Lemma add_stat_well_formed (stat : pyval) (func : func_arg) (st st' : St)
    (o : outcome unit) :
  well_formed (self st) -> add_stat stat func st = (st', o) ->
  well_formed (self st').
Proof.
  intros Hwf Hrun. apply add_stat_state in Hrun.
  destruct Hrun as [[-> _]|(name & f & _ & _ & _ & ->)]; [assumption|].
  destruct Hwf as (Hnd & Hids & Hsnd & Hall & Hnt).
  unfold well_formed. cbn [self _timer _stats _timer_id _stats_namedtuple].
  assert (Hkeys : dict_keys (map (fun kv : Z * Timer =>
                                    (fst kv, timer_with_stat name f (snd kv)))
                               (_timer (self st))) = dict_keys (_timer (self st))).
  { unfold dict_keys. rewrite map_map. reflexivity. }
  rewrite Hkeys. split; [assumption|]. split; [assumption|].
  split; [|split; [|discriminate]].
  - now apply (dict_set_nodup String.eqb string_eqb_reflect).
  - rewrite Forall_map. rewrite Forall_forall in *. intros kv Hkv.
    destruct (Hall kv Hkv) as [Hid Hk]. cbn. split; [assumption|].
    now apply dict_keys_set_same_keys.
Qed.
End Operations.

Lemma visit_timers_ok (f : Timer -> outcome Timer) (todo : list (Z * Timer)) :
  forall done,
  (forall kv, In kv todo -> exists t', f (snd kv) = Ok t') ->
  exists todo',
    visit_timers f done todo = (rev done ++ todo', Ok tt) /\
    Forall2 (fun kv kv' => fst kv' = fst kv /\ f (snd kv) = Ok (snd kv'))
      todo todo'.
Proof.
  induction todo as [|[id t] todo IH]; intros done H; simpl.
  - exists []. rewrite app_nil_r. split; [reflexivity|constructor].
  - destruct (H (id, t) (or_introl eq_refl)) as [t' Ht']. cbn in Ht'.
    rewrite Ht'.
    destruct (IH ((id, t') :: done)) as (todo' & Hv & Hall).
    { intros kv Hkv. apply H. now right. }
    exists ((id, t') :: todo'). split.
    + rewrite Hv. cbn. now rewrite <- app_assoc.
    + constructor; [split; [reflexivity|exact Ht']|assumption].
Qed.

Lemma _check_stat_select_no_timeout {host : Host} (c : Compare) (stat : pyval) :
  _check_stat_select c stat <> Timeout.
Proof.
  unfold _check_stat_select, _check_stat. destruct stat; try discriminate.
  destruct (negb (str_isidentifier s)); [discriminate|].
  destruct (iskeyword s); [discriminate|].
  destruct (startswith_underscore s); [discriminate|].
  destruct (smem (str_lower s) (_stats c)); discriminate.
Qed.

Section Deletion.
Context {host : Host}.

Lemma del_stat_state (stat : pyval) (st st' : St) (o : outcome unit) :
  well_formed (self st) ->
  del_stat stat st = (st', o) ->
  (st' = st /\ exists e, o = Raise e /\
                         _check_stat_select (self st) stat = Raise e) \/
  (exists name stats',
     _check_stat_select (self st) stat = Ok name /\
     sdel name (_stats (self st)) = Some stats' /\
     o = Ok tt /\ world st' = world st /\
     _stats (self st') = stats' /\
     _stats_namedtuple (self st') = None /\
     _timer_id (self st') = _timer_id (self st) /\
     _number (self st') = _number (self st) /\
     Forall2 (fun kv kv' => fst kv' = fst kv /\
                            timer_del_stat name (snd kv) = Ok (snd kv'))
       (_timer (self st)) (_timer (self st'))).
Proof.
  intros (Hnd & Hids & Hsnd & Hall & _). unfold del_stat, bind at 1, gets at 1.
  unfold bind at 1, lift at 1.
  destruct (_check_stat_select (self st) stat) as [name|e|] eqn:Hchk.
  - pose proof (_check_stat_select_mem _ _ _ Hchk) as Hmem.
    apply (dict_mem_keys String.eqb string_eqb_reflect) in Hmem.
    destruct (sdel name (_stats (self st))) as [stats'|] eqn:Hdel.
    2:{ apply (dict_del_missing String.eqb string_eqb_reflect) in Hdel.
        contradiction. }
    unfold bind, modify, for_timers. cbn [set_self self world _timer].
    destruct (visit_timers_ok (timer_del_stat name) (_timer (self st)) [])
      as (timers' & Hv & Hrel).
    { intros kv Hkv. rewrite Forall_forall in Hall.
      destruct (Hall kv Hkv) as [_ Hkeys]. unfold timer_del_stat.
      destruct (sdel name (timer_stats (snd kv))) as [s'|] eqn:E; [eauto|].
      apply (dict_del_missing String.eqb string_eqb_reflect) in E.
      rewrite Hkeys in E. contradiction. }
    rewrite Hv. cbn [rev app]. intros H. inversion H; subst. right.
    exists name, stats'. cbn. auto 12.
  - intros H. inversion H; subst. left. eauto.
  - now apply _check_stat_select_no_timeout in Hchk.
Qed.

Lemma del_stat_well_formed (stat : pyval) (st st' : St) (o : outcome unit) :
  well_formed (self st) -> del_stat stat st = (st', o) ->
  well_formed (self st').
Proof.
  intros Hwf Hrun. pose proof Hwf as (Hnd & Hids & Hsnd & Hall & _).
  apply del_stat_state in Hrun; [|assumption].
  destruct Hrun as [[-> _]|(name & stats' & _ & Hdel & _ & _ & Hs & Hn & Hc & _ & Hrel)];
    [assumption|].
  assert (Hkeys : dict_keys (_timer (self st')) = dict_keys (_timer (self st))).
  { unfold dict_keys. clear - Hrel. induction Hrel as [|? ? ? ? [E _]]; cbn;
      [reflexivity|congruence]. }
  unfold well_formed. rewrite Hkeys, Hc, Hs, Hn.
  split; [assumption|]. split; [assumption|]. split; [|split; [|discriminate]].
  - destruct (dict_del_keys String.eqb string_eqb_reflect _ _ _ Hdel)
      as (l1 & l2 & Hk & Hk' & _).
    rewrite Hk'. rewrite Hk in Hsnd. now apply NoDup_remove_middle in Hsnd.
  - clear Hkeys Hnd Hids. revert Hall.
    induction Hrel as [|kv kv' l l' [Hf Ht] Hrel IH]; intros Hall;
      [constructor|].
    inversion Hall as [|? ? [Hid Hk] Hall']; subst.
    constructor; [|now apply IH].
    unfold timer_del_stat in Ht.
    destruct (sdel name (timer_stats (snd kv))) as [s'|] eqn:E; [|discriminate].
    inversion Ht as [Ht']. cbn. split; [congruence|].
    destruct (dict_del_same_keys String.eqb name _ _ _ Hk E) as (d1' & Hd1 & Hkk).
    unfold sdel in Hdel. rewrite Hdel in Hd1. inversion Hd1; subst. exact Hkk.
Qed.
End Deletion.

Lemma same_shape_empty (timers : list (Z * Timer)) :
  forall new1,
  same_shape (map (fun kv => (fst kv, empty_result)) timers) new1 ->
  Forall (fun kv => r_stats (snd kv) = []) new1.
Proof.
  induction timers as [|kv timers IH]; intros new1 H; inversion H; subst;
    constructor.
  - match goal with Hx : _ /\ _ |- _ => destruct Hx as [_ Hx]; exact Hx end.
  - now apply IH.
Qed.

Lemma updated_timers_well_formed (fs : list (string * StatFunc))
    (new1 : list (Z * Result)) (timers : list (Z * Timer)) :
  NoDup (dict_keys fs) ->
  Forall (fun kv => r_stats (snd kv) = []) new1 ->
  Forall (fun kv => timer_id (snd kv) = fst kv /\
                    dict_keys (timer_stats (snd kv)) = dict_keys fs) timers ->
  Forall (fun kv => timer_id (snd kv) = fst kv /\
                    dict_keys (timer_stats (snd kv)) = dict_keys fs)
    (map (fun kv : Z * Timer =>
            match zget (fst kv)
                    (map (fun kv => (fst kv, finished fs (snd kv))) new1) with
            | Some x => (fst kv, dict_update (snd kv) x)
            | None => kv
            end) timers).
Proof.
  intros Hnd Hnew Hall. rewrite Forall_map. rewrite Forall_forall in *.
  intros kv Hkv. destruct (Hall kv Hkv) as [Hid Hk].
  rewrite (zget_map_values (finished fs)).
  destruct (zget (fst kv) new1) as [r|] eqn:E; cbn; [|auto].
  split; [assumption|].
  apply zget_In in E. specialize (Hnew _ E). cbn in Hnew.
  change (dict_keys (r_stats (finished fs r)) = dict_keys fs).
  rewrite stats_of_finished by assumption. now apply stats_of_keys.
Qed.

Section RunKeeps.
Context {host : Host}.

Lemma announce_self (sp : bool) (st : St) : self (announce sp st) = self st.
Proof. now destruct sp. Qed.

Lemma run_finish_counter (sp : bool) (rs : RunSt) (st' : St) (o : outcome unit) :
  run_finish sp rs = (st', o) ->
  _timer_id (self st') = _timer_id (self (rs_st rs)) /\
  _stats_namedtuple (self st') = _stats_namedtuple (self (rs_st rs)).
Proof.
  unfold run_finish.
  rewrite (each_value_total _ (finished
             (_stats (self (if sp then fst (print (OutLine "") (rs_st rs))
                            else rs_st rs)))))
    by (intros a; apply finish_result_total).
  intros H. inversion H; subst. now destruct sp.
Qed.

Lemma run_finish_well_formed (sp : bool) (rs : RunSt) (st' : St)
    (o : outcome unit) (c0 : Compare) :
  well_formed c0 ->
  _timer (self (rs_st rs)) = _timer c0 ->
  _timer_id (self (rs_st rs)) = _timer_id c0 ->
  _stats (self (rs_st rs)) = _stats c0 ->
  _stats_namedtuple (self (rs_st rs)) = _stats_namedtuple c0 ->
  same_shape (map (fun kv => (fst kv, empty_result)) (_timer c0)) (rs_new rs) ->
  run_finish sp rs = (st', o) ->
  well_formed (self st').
Proof.
  intros (Hnd & Hids & Hsnd & Hall & Hnt) Ht Hc Hs Hn Hshape Hrun.
  pose proof (run_finish_counter _ _ _ _ Hrun) as [Hc' Hn'].
  destruct (run_finish_ok sp rs) as [st2 Hok]. rewrite Hok in Hrun.
  inversion Hrun; subst st2 o. clear Hrun.
  apply run_finish_state in Hok.
  destruct Hok as (Htimers & _ & Hstats & _).
  unfold well_formed. rewrite Htimers, Hstats, Hc', Hc, Hs, Ht, Hn', Hn.
  rewrite updated_timers_keys.
  split; [assumption|]. split; [assumption|]. split; [assumption|].
  split; [|assumption].
  apply updated_timers_well_formed; auto.
  eapply same_shape_empty; eauto.
Qed.

Lemma run_well_formed (fuel : nat) (repeat number time : pyval) (sp : bool)
    (st st' : St) (o : outcome unit) :
  well_formed (self st) ->
  run fuel repeat number time sp st = (st', o) ->
  well_formed (self st').
Proof.
  intros Hwf. unfold run.
  destruct (run_checks repeat number time) as [[[r nb] tm]|e|];
    [|intros H; inversion H; subst; assumption..].
  destruct (_timer (self st)) as [|kv timers] eqn:Ht;
    [intros H; inversion H; subst; assumption|].
  rewrite <- Ht.
  match goal with
  | |- context [run_try ?f ?rr ?t ?s ?rs0] =>
      destruct (run_try f rr t s rs0) as [rs1 o1] eqn:Htry
  end.
  apply run_try_frame in Htry. destruct Htry as [Hself Hshape].
  cbn [enter_try rs_st rs_new] in Hself, Hshape.
  rewrite announce_self in Hself.
  destruct o1 as [[]|e|].
  - apply (run_finish_well_formed sp rs1 st' o (self st)); auto;
      now rewrite Hself.
  - destruct e; try (intros H; inversion H; subst; now rewrite Hself).
    destruct (_catch_interrupt (self st));
      [|intros H; inversion H; subst; now rewrite Hself].
    apply (run_finish_well_formed sp _ st' o (self st)); auto;
      cbn; now rewrite Hself.
  - intros H. inversion H; subst. now rewrite Hself.
Qed.
End RunKeeps.

Lemma filter_out_absent {A : Type} (eqb : A -> A -> bool)
    (eqb_spec : forall a b, reflect (a = b) (eqb a b)) (a : A) (l : list A) :
  ~ In a l -> filter (fun x => negb (eqb x a)) l = l.
Proof.
  induction l as [|x l IH]; intros H; simpl; [reflexivity|].
  destruct (eqb_spec x a) as [->|Hne]; simpl.
  - exfalso. apply H. now left.
  - rewrite IH; [reflexivity|]. intros Hl. apply H. now right.
Qed.

Lemma filter_out_middle {A : Type} (eqb : A -> A -> bool)
    (eqb_spec : forall a b, reflect (a = b) (eqb a b)) (a : A) (l1 l2 : list A) :
  NoDup (l1 ++ a :: l2) ->
  filter (fun x => negb (eqb x a)) (l1 ++ a :: l2) = l1 ++ l2.
Proof.
  intros H. apply NoDup_remove_middle in H. destruct H as [_ H].
  rewrite filter_app. simpl. destruct (eqb_spec a a) as [_|Hne]; [|congruence].
  simpl. rewrite !(filter_out_absent eqb eqb_spec); auto;
    intros Hin; apply H; apply in_or_app; auto.
Qed.

Lemma zget_related {A B : Type} (P : A -> B -> Prop) (id : Z) (a : A)
    (d : list (Z * A)) (d' : list (Z * B)) :
  Forall2 (fun kv kv' => fst kv' = fst kv /\ P (snd kv) (snd kv')) d d' ->
  zget id d = Some a ->
  exists b, zget id d' = Some b /\ P a b.
Proof.
  induction 1 as [|[k x] [k' y] d d' [Hk HP] _ IH]; intros Hget; simpl in *;
    [discriminate|].
  subst k'. destruct (Z.eqb id k).
  - inversion Hget; subst. eauto.
  - now apply IH.
Qed.

Lemma related_keys {A B : Type} (P : A -> B -> Prop)
    (d : list (Z * A)) (d' : list (Z * B)) :
  Forall2 (fun kv kv' => fst kv' = fst kv /\ P (snd kv) (snd kv')) d d' ->
  dict_keys d' = dict_keys d.
Proof.
  unfold dict_keys. induction 1 as [|? ? ? ? [E _]]; cbn; congruence.
Qed.

Section OperationsSpec.
Context {host : Host}.

(** [del_timer] of an id that is not a key raises [KeyError] and changes
    nothing. For a key, the entry is removed and the rest stays in its
    order; the counter is not set back, so that a timer added afterwards
    never gets the deleted id or the id of a timer there is. *)
Theorem del_timer_removes (id : Z) (st : St) :
  well_formed (self st) ->
  (~ In id (dict_keys (_timer (self st))) ->
   del_timer id st = (st, Raise KeyError)) /\
  (In id (dict_keys (_timer (self st))) ->
   exists st',
     del_timer id st = (st', Ok tt) /\
     world st' = world st /\
     _stats (self st') = _stats (self st) /\
     zget id (_timer (self st')) = None /\
     (forall id', id' <> id ->
        zget id' (_timer (self st')) = zget id' (_timer (self st))) /\
     dict_keys (_timer (self st')) =
       filter (fun i => negb (Z.eqb i id)) (dict_keys (_timer (self st))) /\
     forall stmt st'' id',
       add_timer stmt st' = (st'', Ok id') ->
       id' <> id /\ ~ In id' (dict_keys (_timer (self st)))).
Proof.
  intros Hwf. split.
  - intros Hid. unfold del_timer.
    apply (dict_del_missing Z.eqb Z_eqb_reflect) in Hid.
    unfold zdel. now rewrite Hid.
  - intros Hid. destruct (del_timer id st) as [st' o] eqn:Hrun.
    pose proof (del_timer_well_formed _ _ _ _ Hwf Hrun) as Hwf'.
    apply del_timer_state in Hrun.
    destruct Hrun as [(_ & _ & Hno)|(-> & Hw & Hdel & Hc & Hs & _ & _)];
      [contradiction|].
    exists st'. split; [reflexivity|]. split; [assumption|].
    split; [assumption|].
    destruct Hwf as (Hnd & Hids & _). destruct Hwf' as (Hnd' & Hids' & _).
    destruct (dict_del_keys Z.eqb Z_eqb_reflect _ _ _ Hdel)
      as (l1 & l2 & Hk & Hk' & Hl1).
    split; [|split; [|split]].
    + apply (dict_get_missing Z.eqb Z_eqb_reflect). rewrite Hk'.
      rewrite Hk in Hnd. now apply NoDup_remove_middle in Hnd.
    + intros id' Hne. now apply (dict_del_get_other Z.eqb Z_eqb_reflect id).
    + rewrite Hk, Hk'. symmetry.
      apply (filter_out_middle Z.eqb Z_eqb_reflect). now rewrite <- Hk.
    + intros stmt st'' id' Hadd.
      destruct (add_timer_state stmt st' Hids') as (timer & Hadd' & _).
      rewrite Hadd' in Hadd. inversion Hadd; subst id'.
      rewrite Hc. split.
      * intros E. specialize (Hids id Hid). lia.
      * intros Hin. specialize (Hids _ Hin). lia.
Qed.

(** [add_stat] with an accepted name and a callable computes the statistic
    for every timer there is, from the durations the timer holds; the
    timer's other statistics and its durations stay, and its cached result
    and the cached namedtuple class are dropped. *)
Theorem add_stat_recomputes (stat : pyval) (f : StatFunc) (name : string)
    (st : St) :
  _check_stat stat = Ok name ->
  exists st',
    add_stat stat (Callable f) st = (st', Ok tt) /\
    _stats_namedtuple (self st') = None /\
    dict_keys (_timer (self st')) = dict_keys (_timer (self st)) /\
    forall id t, zget id (_timer (self st)) = Some t ->
      exists t',
        zget id (_timer (self st')) = Some t' /\
        timer_id t' = timer_id t /\ timer_stmt t' = timer_stmt t /\
        timer_time t' = timer_time t /\
        timer_total_time t' = timer_total_time t /\
        sget name (timer_stats t') = Some (stat_value f (timer_time t)) /\
        (forall k, k <> name ->
           sget k (timer_stats t') = sget k (timer_stats t)) /\
        timer_result t' = None.
Proof.
  intros Hchk. unfold add_stat, bind, lift. rewrite Hchk.
  unfold modify, gets. cbn [set_self self world _timer].
  rewrite (each_value_total _ (timer_with_stat name f))
    by apply timer_add_stat_total.
  - eexists. split; [reflexivity|]. cbn.
    split; [reflexivity|]. split.
    { unfold dict_keys. now rewrite map_map. }
    intros id t Hget.
    rewrite (zget_map_values (timer_with_stat name f)), Hget. cbn.
    eexists. split; [reflexivity|]. cbn.
    repeat (split; [reflexivity|]). split; [|split; [|reflexivity]].
    + apply (dict_get_set_same String.eqb string_eqb_reflect).
    + intros k Hk. now apply (dict_get_set_other String.eqb string_eqb_reflect).
Qed.
End OperationsSpec.

Lemma timer_del_stat_ok (name : string) (t t' : Timer) :
  timer_del_stat name t = Ok t' ->
  sdel name (timer_stats t) = Some (timer_stats t') /\
  timer_id t' = timer_id t /\ timer_stmt t' = timer_stmt t /\
  timer_time t' = timer_time t /\ timer_total_time t' = timer_total_time t /\
  timer_results t' = timer_results t /\ timer_result t' = None.
Proof.
  unfold timer_del_stat. destruct (sdel name (timer_stats t)); [|discriminate].
  intros H. inversion H; subst. cbn. auto 10.
Qed.

Section StatDeletion.
Context {host : Host}.

(** [del_stat] of a name that the checks reject, or that is not
    registered, raises and changes nothing. For a registered name the
    entry leaves the registry and every timer's stats map, the other
    entries stay in their order, and the cached results and the cached
    namedtuple class are dropped. *)
Theorem del_stat_removes (stat : pyval) (st : St) :
  well_formed (self st) ->
  (forall e, _check_stat stat = Raise e -> del_stat stat st = (st, Raise e)) /\
  (forall name, _check_stat stat = Ok name ->
     smem name (_stats (self st)) = false ->
     del_stat stat st = (st, Raise ValueError)) /\
  (forall name, _check_stat stat = Ok name ->
     smem name (_stats (self st)) = true ->
     exists st',
       del_stat stat st = (st', Ok tt) /\
       world st' = world st /\
       sget name (_stats (self st')) = None /\
       (forall k, k <> name ->
          sget k (_stats (self st')) = sget k (_stats (self st))) /\
       dict_keys (_stats (self st')) =
         filter (fun k => negb (String.eqb k name))
                (dict_keys (_stats (self st))) /\
       _stats_namedtuple (self st') = None /\
       dict_keys (_timer (self st')) = dict_keys (_timer (self st)) /\
       forall id t, zget id (_timer (self st)) = Some t ->
         exists t',
           zget id (_timer (self st')) = Some t' /\
           timer_time t' = timer_time t /\
           timer_total_time t' = timer_total_time t /\
           sget name (timer_stats t') = None /\
           (forall k, k <> name ->
              sget k (timer_stats t') = sget k (timer_stats t)) /\
           timer_result t' = None).
Proof.
  intros Hwf. split; [|split].
  - intros e He. unfold del_stat, bind, gets, lift, _check_stat_select.
    now rewrite He.
  - intros name Hn Hmem. unfold del_stat, bind, gets, lift, _check_stat_select.
    now rewrite Hn, Hmem.
  - intros name Hn Hmem.
    assert (Hsel : _check_stat_select (self st) stat = Ok name).
    { unfold _check_stat_select. now rewrite Hn, Hmem. }
    destruct (del_stat stat st) as [st' o] eqn:Hrun.
    apply del_stat_state in Hrun; [|assumption].
    destruct Hrun as [(_ & e & _ & He)|
                      (name' & stats' & Hsel' & Hdel & -> & Hw & Hs & Hnt & _ & _ & Hrel)];
      [congruence|].
    rewrite Hsel in Hsel'. inversion Hsel'; subst name'. clear Hsel'.
    destruct Hwf as (_ & _ & Hsnd & Hall & _).
    exists st'. split; [reflexivity|]. split; [assumption|].
    destruct (dict_del_keys String.eqb string_eqb_reflect _ _ _ Hdel)
      as (l1 & l2 & Hk & Hk' & _).
    rewrite Hs. split; [|split; [|split; [|split; [|split]]]].
    + apply (dict_get_missing String.eqb string_eqb_reflect). rewrite Hk'.
      rewrite Hk in Hsnd. now apply NoDup_remove_middle in Hsnd.
    + intros k Hne.
      now apply (dict_del_get_other String.eqb string_eqb_reflect name).
    + rewrite Hk, Hk'. symmetry.
      apply (filter_out_middle String.eqb string_eqb_reflect).
      now rewrite <- Hk.
    + assumption.
    + exact (related_keys (fun t t' => timer_del_stat name t = Ok t') _ _ Hrel).
    + intros id t Hget.
      destruct (zget_related (fun t t' => timer_del_stat name t = Ok t')
                  id t _ _ Hrel Hget) as (t' & Hget' & Ht').
      exists t'. split; [assumption|].
      apply timer_del_stat_ok in Ht'.
      destruct Ht' as (Hd & _ & _ & Htime & Htot & _ & Hres).
      split; [assumption|]. split; [assumption|].
      apply zget_In in Hget. rewrite Forall_forall in Hall.
      destruct (Hall _ Hget) as [_ Hkeys]. cbn in Hkeys.
      destruct (dict_del_keys String.eqb string_eqb_reflect _ _ _ Hd)
        as (m1 & m2 & Hm & Hm' & _).
      split; [|split; [|assumption]].
      * apply (dict_get_missing String.eqb string_eqb_reflect). rewrite Hm'.
        rewrite <- Hkeys, Hm in Hsnd. now apply NoDup_remove_middle in Hsnd.
      * intros k Hne.
        now apply (dict_del_get_other String.eqb string_eqb_reflect name).
Qed.

(** Registering a statistic under a name that is not registered and
    deleting it again gives back the registry and every timer's stats map;
    what is lost are the cached results of the timers and the cached
    namedtuple class. *)
Theorem add_then_del_stat (stat : pyval) (f : StatFunc) (name : string)
    (st st1 : St) :
  well_formed (self st) ->
  _check_stat stat = Ok name ->
  smem name (_stats (self st)) = false ->
  add_stat stat (Callable f) st = (st1, Ok tt) ->
  del_stat stat st1 =
    ({| self := {| _timer_id := _timer_id (self st);
                   _timer :=
                     map (fun kv =>
                            (fst kv,
                             {| timer_id := timer_id (snd kv);
                                timer_stmt := timer_stmt (snd kv);
                                timer_time := timer_time (snd kv);
                                timer_total_time := timer_total_time (snd kv);
                                timer_stats := timer_stats (snd kv);
                                timer_result := None;
                                timer_results := timer_results (snd kv) |}))
                         (_timer (self st));
                   _stats := _stats (self st);
                   _number := _number (self st);
                   _stats_namedtuple := None;
                   _catch_interrupt := _catch_interrupt (self st) |};
        world := world st |}, Ok tt).
Proof.
  intros Hwf Hn Hmem Hadd. destruct Hwf as (_ & _ & Hsnd & Hall & _).
  assert (Hnew : ~ In name (dict_keys (_stats (self st)))).
  { intros Hin. apply (dict_mem_keys String.eqb string_eqb_reflect) in Hin.
    unfold smem in Hmem. congruence. }
  apply add_stat_state in Hadd.
  destruct Hadd as [[_ [e He]]|(name' & f' & Hn' & Hf & _ & ->)];
    [discriminate|].
  rewrite Hn in Hn'. inversion Hn'; subst name'. inversion Hf; subst f'.
  unfold del_stat, bind at 1, gets at 1. unfold bind at 1, lift at 1.
  cbn [self]. unfold _check_stat_select. rewrite Hn. cbn [_stats].
  assert (Hm : smem name (sset name f (_stats (self st))) = true).
  { apply (dict_mem_set String.eqb string_eqb_reflect). now left. }
  rewrite Hm. unfold sdel, sset.
  rewrite (dict_del_set_new String.eqb string_eqb_reflect) by assumption.
  unfold bind, modify, for_timers. cbn [set_self self world _timer].
  assert (Hv : forall todo done,
            Forall (fun kv : Z * Timer =>
                      dict_keys (timer_stats (snd kv)) =
                      dict_keys (_stats (self st))) todo ->
            visit_timers (timer_del_stat name) done
              (map (fun kv => (fst kv, timer_with_stat name f (snd kv))) todo)
            = (rev done ++
               map (fun kv =>
                      (fst kv,
                       {| timer_id := timer_id (snd kv);
                          timer_stmt := timer_stmt (snd kv);
                          timer_time := timer_time (snd kv);
                          timer_total_time := timer_total_time (snd kv);
                          timer_stats := timer_stats (snd kv);
                          timer_result := None;
                          timer_results := timer_results (snd kv) |})) todo,
               Ok tt)).
  { induction todo as [|[id t] todo IH]; intros done Hk; simpl.
    - now rewrite app_nil_r.
    - inversion Hk as [|? ? Hkt Hk']; subst. cbn in Hkt.
      unfold timer_del_stat. cbn [timer_with_stat timer_stats].
      unfold sdel, sset.
      rewrite (dict_del_set_new String.eqb string_eqb_reflect)
        by now rewrite Hkt.
      cbn [timer_id timer_stmt timer_time timer_total_time timer_results].
      rewrite IH by assumption. cbn. now rewrite <- app_assoc. }
  rewrite Hv.
  - reflexivity.
  - eapply Forall_impl; [|exact Hall]. intros kv [_ H]. exact H.
Qed.
End StatDeletion.

(** ** Printing *)

Section ReadOnly.
Context {S : Type}.

Lemma unchanged_refl (s : S) : unchanged s s.
Proof. reflexivity. Qed.

Lemma unchanged_trans (a b c : S) :
  unchanged a b -> unchanged b c -> unchanged a c.
Proof. unfold unchanged. congruence. Qed.

Lemma raise_unchanged {A : Type} (e : exn) : preserves unchanged (@raise S A e).
Proof. intros s s' o H. inversion H. reflexivity. Qed.

Lemma map_m_unchanged {A B : Type} (f : A -> M S B) (l : list A) :
  (forall x, preserves unchanged (f x)) -> preserves unchanged (map_m f l).
Proof.
  intros Hf. induction l as [|x l IH]; simpl.
  - apply preserves_ret, unchanged_refl.
  - apply (preserves_bind unchanged unchanged_trans); [apply Hf|]. intros y.
    apply (preserves_bind unchanged unchanged_trans); [apply IH|]. intros ys.
    apply preserves_ret, unchanged_refl.
Qed.
End ReadOnly.

Section Printing.
Context {host : Host}.

Lemma timer_ref_unchanged (i : Z) : preserves unchanged (timer_ref i).
Proof.
  intros s s' o. unfold timer_ref, bind, gets.
  destruct (zget i (_timer (self s))); intros H; inversion H; reflexivity.
Qed.

Lemma checked_unchanged (c : Compare) (l : list pyval) :
  preserves (S := St) unchanged
    (map_m (fun v => lift (_check_stat_select c v)) l).
Proof.
  apply map_m_unchanged. intros x. apply preserves_lift, unchanged_refl.
Qed.

Lemma _print_results_args_unchanged (include exclude : option (list Z))
    (sort_by : pyval) (reverse : bool) (stats percentage : names_arg)
    (precision : pyval) :
  preserves unchanged
    (_print_results_args include exclude sort_by reverse stats percentage
       precision).
Proof.
  unfold _print_results_args.
  apply (preserves_bind unchanged unchanged_trans);
    [apply preserves_gets, unchanged_refl|]. intros c.
  apply (preserves_bind unchanged unchanged_trans).
  { destruct include, exclude;
      first [apply raise_unchanged
            |apply preserves_ret, unchanged_refl
            |apply map_m_unchanged; intros x; apply timer_ref_unchanged]. }
  intros timers.
  apply (preserves_bind unchanged unchanged_trans).
  { destruct sort_by; cbv iota;
      first [apply (preserves_bind unchanged unchanged_trans);
             [apply preserves_lift, unchanged_refl
             |intros s0; apply preserves_ret, unchanged_refl]
            |apply preserves_ret, unchanged_refl]. }
  intros sb.
  apply (preserves_bind unchanged unchanged_trans).
  { destruct stats;
      first [apply preserves_ret, unchanged_refl|apply checked_unchanged]. }
  intros sts.
  apply (preserves_bind unchanged unchanged_trans);
    [apply checked_unchanged|]. intros pcs.
  destruct (as_int precision);
    [apply preserves_ret, unchanged_refl|apply raise_unchanged].
Qed.




End Printing.

(** ** The shape of the table *)

Lemma sum_cols_cons (c : Z) (cols : list Z) :
  sum_cols (c :: cols) = c + sum_cols cols.
Proof.
  unfold sum_cols. simpl.
  assert (H : forall l a, fold_left Z.add l a = a + fold_left Z.add l 0).
  { induction l as [|x l IH]; intros a; simpl; [lia|].
    rewrite (IH (a + x)), (IH x). lia. }
  apply H.
Qed.

Lemma max_value_keys (percentage : list string) (timers : list Timer) :
  forall mv mv',
  fold_m (fun mv timer => fold_m (max_step timer) mv percentage) mv timers
  = Ok mv' ->
  forall k, sget k mv' = None <-> sget k mv = None.
Proof.
  induction timers as [|t timers IH]; intros mv mv' H k; simpl in H.
  - inversion H. tauto.
  - destruct (fold_m (max_step t) mv percentage) as [mv1|e|] eqn:E;
      try discriminate.
    rewrite (IH _ _ H k). rewrite (max_steps_get _ _ _ _ E k).
    destruct (mem_string k percentage); [|tauto].
    destruct (sget k mv); cbn; split; congruence.
Qed.

Lemma compute_max_value_keys (percentage : list string) (timers : list Timer)
    (mv : list (string * num)) (k : string) :
  compute_max_value percentage timers = Ok mv ->
  sget k mv = None <-> mem_string k percentage = false.
Proof.
  intros H. unfold compute_max_value in H.
  rewrite (max_value_keys _ _ _ _ H k), fromkeys_get.
  destruct (mem_string k percentage); cbn; split; congruence.
Qed.

Lemma stat_cells_length (timer : Timer) (mv : list (string * num))
    (precision : Z) (stat : string) (cells : list cell) :
  stat_cells timer mv precision stat = Ok cells ->
  Z.of_nat (List.length cells) =
  match sget stat mv with Some _ => 3 | None => 1 end.
Proof.
  unfold stat_cells. destruct (stat_of timer stat) as [v|e|]; try discriminate.
  destruct (sget stat mv); [destruct v|]; intros H; inversion H; reflexivity.
Qed.

Lemma concat_m_length {A B : Type} (f : A -> outcome (list B)) (g : A -> Z)
    (l : list A) :
  (forall x ys, f x = Ok ys -> Z.of_nat (List.length ys) = g x) ->
  forall cells, concat_m f l = Ok cells ->
  Z.of_nat (List.length cells) = sum_cols (map g l).
Proof.
  intros Hf. induction l as [|x l IH]; intros cells H; simpl in H.
  - inversion H. reflexivity.
  - destruct (f x) as [ys|e|] eqn:E; try discriminate.
    destruct (concat_m f l) as [zs|e|]; try discriminate.
    inversion H; subst. simpl map. rewrite sum_cols_cons, length_app.
    rewrite Nat2Z.inj_add, (Hf _ _ E), (IH zs eq_refl). reflexivity.
Qed.

Lemma lines_m_each (f : Timer -> outcome (list cell)) (l : list Timer) :
  forall body, lines_m f l = Ok body ->
  Forall2 (fun t line => f t = Ok line) l body.
Proof.
  induction l as [|t l IH]; intros body H; simpl in H.
  - inversion H. constructor.
  - destruct (f t) as [y|e|] eqn:E; try discriminate.
    destruct (lines_m f l) as [ys|e|]; try discriminate.
    inversion H; subst. constructor; auto.
Qed.

Lemma split_none_perm (sort_by : string) (timers : list Timer) :
  forall a b, split_none sort_by timers = Ok (a, b) ->
  Permutation (a ++ b) timers.
Proof.
  induction timers as [|t timers IH]; intros a b H; simpl in H.
  - inversion H. constructor.
  - destruct (stat_of t sort_by) as [v|e|]; try discriminate.
    destruct (split_none sort_by timers) as [[a' b']|e|]; try discriminate.
    specialize (IH a' b' eq_refl).
    destruct v; inversion H; subst.
    + simpl. now constructor.
    + symmetry. apply Permutation_cons_app. now symmetry.
Qed.

Lemma sort_timers_perm (sort_by : option string) (reverse : bool)
    (timers rows : list Timer) :
  sort_timers sort_by reverse timers = Ok rows -> Permutation rows timers.
Proof.
  unfold sort_timers. destruct sort_by as [s|].
  - destruct (split_none s timers) as [[a b]|e|] eqn:E; try discriminate.
    intros H. inversion H; subst. apply split_none_perm in E.
    rewrite <- E. apply Permutation_app_tail.
    apply (list_sort_perm (sort_key s) reverse).
  - intros H. inversion H. reflexivity.
Qed.

(** The shape of a table that [results_table] returns. *)
Lemma results_table_shape (c : Compare) (timers : list Timer)
    (sort_by : option string) (reverse : bool) (stats percentage : list string)
    (precision : Z) (table : Table) :
  results_table c timers sort_by reverse stats percentage precision = Ok table ->
  List.length (tbl_header table) = List.length (tbl_header_cols table) /\
  Permutation (map (hd _null) (tbl_body table))
              (map (fun t => CId (timer_id t)) timers) /\
  Forall (fun row => Z.of_nat (List.length row) =
                     sum_cols (tbl_header_cols table)) (tbl_body table).
Proof.
  unfold results_table. intros H.
  destruct (sort_timers sort_by reverse timers) as [rows|e|] eqn:Hsort;
    try discriminate.
  destruct (compute_max_value percentage rows) as [mv|e|] eqn:Hmv;
    try discriminate.
  destruct (lines_m _ rows) as [body|e|] eqn:Hbody; try discriminate.
  inversion H; subst. cbn [tbl_header tbl_header_cols tbl_body]. clear H.
  split; [|split].
  - cbn [List.length]. now rewrite !length_map.
  - rewrite (lines_m_heads _ _ _ (fun t line => get_line_head t _ _ _ line) Hbody).
    apply Permutation_map. eapply sort_timers_perm; eauto.
  - assert (Hline : forall t line,
              get_line t stats mv precision = Ok line ->
              Z.of_nat (List.length line) =
              sum_cols (1 :: 1 :: 1
                        :: map (fun stat =>
                                  if mem_string stat percentage then 3 else 1)
                               stats)).
    { intros t line Hline. unfold get_line in Hline.
      destruct (concat_m (stat_cells t mv precision) stats) as [cells|e|] eqn:E;
        try discriminate.
      inversion Hline; subst. cbn [List.length].
      rewrite !sum_cols_cons, !Nat2Z.inj_succ.
      rewrite (concat_m_length _
                 (fun stat => match sget stat mv with Some _ => 3 | None => 1 end)
                 stats (stat_cells_length t mv precision) cells E).
      assert (Hcols : map (fun stat => match sget stat mv with
                                       | Some _ => 3 | None => 1 end) stats =
                      map (fun stat => if mem_string stat percentage then 3 else 1)
                          stats).
      { apply map_ext. intros k.
        pose proof (compute_max_value_keys _ _ _ k Hmv) as Hk.
        destruct (sget k mv), (mem_string k percentage); try reflexivity.
        - destruct Hk as [_ Hk]. specialize (Hk eq_refl). discriminate.
        - destruct Hk as [Hk _]. specialize (Hk eq_refl). discriminate. }
      rewrite Hcols. lia. }
    apply lines_m_each in Hbody. clear Hsort Hmv.
    induction Hbody as [|t line rows body Ht _ IH]; constructor; eauto.
Qed.

(** A table that [_print_results] builds has a width for every header
    cell, one row for every timer it was given, and in every row as many
    cells as the header columns add up to, which is the number of body
    columns that [_table] lays out. *)
Theorem table_rows_fit_header (c : Compare) (timers : list Timer)
    (sort_by : option string) (reverse : bool) (stats percentage : list string)
    (precision : Z) (table : Table) :
  results_table c timers sort_by reverse stats percentage precision = Ok table ->
  List.length (tbl_header table) = List.length (tbl_header_cols table) /\
  Permutation (map (hd _null) (tbl_body table))
              (map (fun t => CId (timer_id t)) timers) /\
  Forall (fun row => Z.of_nat (List.length row) =
                     sum_cols (tbl_header_cols table)) (tbl_body table).
Proof. apply results_table_shape. Qed.

Section PrintResults.
Context {host : Host}.



End PrintResults.

(** ** Results *)

Lemma zget_set_result (id : Z) (result : TimerResult) (timers : list (Z * Timer))
    (t : Timer) :
  zget id timers = Some t ->
  exists t',
    zget id (map (fun kv : Z * Timer =>
                    if Z.eqb (fst kv) id
                    then (fst kv,
                          {| timer_id := timer_id (snd kv);
                             timer_stmt := timer_stmt (snd kv);
                             timer_time := timer_time (snd kv);
                             timer_total_time := timer_total_time (snd kv);
                             timer_stats := timer_stats (snd kv);
                             timer_result := Some result;
                             timer_results := timer_results (snd kv) |})
                    else kv) timers) = Some t' /\
    timer_result t' = Some result /\ timer_time t' = timer_time t /\
    timer_stats t' = timer_stats t.
Proof.
  induction timers as [|[k x] timers IH]; intros H; simpl in *; [discriminate|].
  rewrite (Z.eqb_sym k id). destruct (Z.eqb id k) eqn:E.
  - inversion H; subst. simpl. rewrite E. eexists. split; [reflexivity|].
    cbn. auto.
  - simpl. rewrite E. now apply IH.
Qed.

Section Results.
Context {host : Host}.

(** A call of [get_result] that returns leaves the namedtuple class and
    the returned result cached. *)
Lemma get_result_ok (id : Z) (st st1 : St) (res : TimerResult) :
  get_result id st = (st1, Ok res) ->
  world st1 = world st /\
  exists fields t1,
    _stats_namedtuple (self st1) = Some fields /\
    zget id (_timer (self st1)) = Some t1 /\
    timer_result t1 = Some res.
Proof.
  unfold get_result. unfold bind at 1, gets at 1. unfold bind at 1.
  destruct (_stats_namedtuple (self st)) as [fields|] eqn:Hnt.
  - unfold ret at 1.
    destruct (zget id (_timer (self st))) as [t|] eqn:Hget; [|discriminate].
    destruct (timer_result t) as [r|] eqn:Hres.
    + intros H. inversion H; subst. split; [reflexivity|]. eauto.
    + unfold bind, lift.
      destruct (make_stats fields (timer_stats t)) as [stats| |];
        try discriminate.
      unfold modify, ret. intros H. inversion H; subst. split; [reflexivity|].
      destruct (zget_set_result id
                  {| res_id := timer_id t; res_repeat := timer_repeat t;
                     res_stats := stats; res_time := timer_time t;
                     res_number := _number (self st) |} _ _ Hget)
        as (t' & Hget' & Hres' & _).
      exists fields, t'. cbn. auto.
  - unfold bind at 1, lift at 1.
    destruct (namedtuple (dict_keys (_stats (self st)))) as [fields| |];
      try discriminate.
    unfold bind at 1, modify at 1, ret at 1.
    destruct (zget id (_timer (self st))) as [t|] eqn:Hget; [|discriminate].
    destruct (timer_result t) as [r|] eqn:Hres.
    + intros H. inversion H; subst. split; [reflexivity|].
      exists fields, t. cbn. auto.
    + unfold bind, lift.
      destruct (make_stats fields (timer_stats t)) as [stats| |];
        try discriminate.
      unfold modify, ret. intros H. inversion H; subst. split; [reflexivity|].
      destruct (zget_set_result id
                  {| res_id := timer_id t; res_repeat := timer_repeat t;
                     res_stats := stats; res_time := timer_time t;
                     res_number := _number (self st) |} _ _ Hget)
        as (t' & Hget' & Hres' & _).
      exists fields, t'. cbn. auto.
Qed.

Lemma get_result_hit (id : Z) (st : St) (fields : list string) (t : Timer)
    (res : TimerResult) :
  _stats_namedtuple (self st) = Some fields ->
  zget id (_timer (self st)) = Some t ->
  timer_result t = Some res ->
  get_result id st = (st, Ok res).
Proof.
  intros Hnt Hget Hres. unfold get_result, bind, gets. rewrite Hnt.
  unfold ret at 1. rewrite Hget, Hres. reflexivity.
Qed.

Lemma run_finish_caches (sp : bool) (rs : RunSt) (st' : St) (o : outcome unit) :
  run_finish sp rs = (st', o) ->
  forall id t, zget id (_timer (self (rs_st rs))) = Some t ->
  exists t', zget id (_timer (self st')) = Some t' /\
             timer_result t' = timer_result t.
Proof.
  intros Hrun id t Hget.
  destruct (run_finish_ok sp rs) as [st2 Hok]. rewrite Hok in Hrun.
  inversion Hrun; subst st2 o. clear Hrun.
  apply run_finish_state in Hok. destruct Hok as (Htimers & _).
  rewrite Htimers. clear Htimers.
  induction (_timer (self (rs_st rs))) as [|[k x] timers IH]; simpl in *;
    [discriminate|].
  destruct (zget k _) as [r|]; simpl; destruct (Z.eqb id k).
  - inversion Hget; subst. eexists. split; [reflexivity|reflexivity].
  - now apply IH.
  - inversion Hget; subst. eauto.
  - now apply IH.
Qed.

Lemma run_keeps_caches (fuel : nat) (repeat number time : pyval) (sp : bool)
    (st st' : St) (o : outcome unit) :
  run fuel repeat number time sp st = (st', o) ->
  _stats_namedtuple (self st') = _stats_namedtuple (self st) /\
  forall id t, zget id (_timer (self st)) = Some t ->
  exists t', zget id (_timer (self st')) = Some t' /\
             timer_result t' = timer_result t.
Proof.
  unfold run.
  destruct (run_checks repeat number time) as [[[r nb] tm]|e|];
    [|intros H; inversion H; subst; eauto..].
  destruct (_timer (self st)) as [|kv timers] eqn:Ht;
    [intros H; inversion H; subst; rewrite Ht; eauto|].
  rewrite <- Ht.
  match goal with
  | |- context [run_try ?f ?rr ?t ?s ?rs0] =>
      destruct (run_try f rr t s rs0) as [rs1 o1] eqn:Htry
  end.
  apply run_try_frame in Htry. destruct Htry as [Hself _].
  cbn [enter_try rs_st] in Hself. rewrite announce_self in Hself.
  assert (Hsame : forall st2 o2, (rs_st rs1, o2) = (st2, o) ->
            _stats_namedtuple (self st2) = _stats_namedtuple (self st) /\
            forall id t, zget id (_timer (self st)) = Some t ->
            exists t', zget id (_timer (self st2)) = Some t' /\
                       timer_result t' = timer_result t).
  { intros st2 o2 H. inversion H; subst. rewrite Hself. eauto. }
  assert (Hfin : forall rs, self (rs_st rs) = self st \/
                            rs = capture KeyboardInterrupt rs1 ->
            run_finish sp rs = (st', o) ->
            _stats_namedtuple (self st') = _stats_namedtuple (self st) /\
            forall id t, zget id (_timer (self st)) = Some t ->
            exists t', zget id (_timer (self st')) = Some t' /\
                       timer_result t' = timer_result t).
  { intros rs Hrs Hfin.
    assert (Hn : _stats_namedtuple (self (rs_st rs)) = _stats_namedtuple (self st)
                 /\ _timer (self (rs_st rs)) = _timer (self st)).
    { destruct Hrs as [->| ->]; [auto|]. cbn. now rewrite Hself. }
    destruct Hn as [Hn Htm]. split.
    - apply run_finish_counter in Hfin. destruct Hfin as [_ ->]. exact Hn.
    - intros id t Hget. rewrite <- Htm in Hget.
      exact (run_finish_caches _ _ _ _ Hfin id t Hget). }
  destruct o1 as [[]|e|]; [apply Hfin; now left| |apply Hsame].
  destruct e; try apply Hsame.
  destruct (_catch_interrupt (self st)); [|apply Hsame].
  apply Hfin. now right.
Qed.

(** A result that [get_result] has returned for a timer is what it
    returns for that timer after any call of [run], whatever [run] has
    measured since: [run] does not drop the cached result. *)
Theorem get_result_survives_run (id : Z) (fuel : nat)
    (repeat number time : pyval) (sp : bool) (st st1 st2 : St)
    (res : TimerResult) (o : outcome unit) :
  get_result id st = (st1, Ok res) ->
  run fuel repeat number time sp st1 = (st2, o) ->
  get_result id st2 = (st2, Ok res).
Proof.
  intros Hres Hrun. apply get_result_ok in Hres.
  destruct Hres as (_ & fields & t1 & Hnt & Hget & Hc).
  apply run_keeps_caches in Hrun. destruct Hrun as [Hnt' Hkeep].
  destruct (Hkeep id t1 Hget) as (t2 & Hget2 & Hc2).
  apply (get_result_hit id st2 fields t2); congruence.
Qed.
End Results.

Lemma make_stats_same_keys (stats : list (string * option num)) :
  NoDup (dict_keys stats) -> make_stats (dict_keys stats) stats = Ok stats.
Proof.
  intros Hnd. unfold make_stats.
  assert (H1 : forallb (fun k => mem_string k (dict_keys stats))
                 (dict_keys stats) = true).
  { apply forallb_forall. intros k Hk. now apply mem_string_In. }
  assert (H2 : forallb (fun field => smem field stats) (dict_keys stats) = true).
  { apply forallb_forall. intros k Hk.
    now apply (dict_mem_keys String.eqb string_eqb_reflect). }
  rewrite H1, H2. cbn [andb]. f_equal. clear H1 H2.
  induction stats as [|[k v] stats IH]; [reflexivity|].
  cbn [dict_keys map fst] in *. inversion Hnd as [|? ? Hk Hnd']; subst.
  f_equal.
  - cbn. now rewrite String.eqb_refl.
  - rewrite <- (IH Hnd') at 2. apply map_ext_in. intros k' Hk'. f_equal.
    cbn. destruct (String.eqb_spec k' k) as [->|Hne]; [contradiction|].
    reflexivity.
Qed.

Section ResultsSpec.
Context {host : Host}.

Lemma get_result_well_formed (id : Z) (st st' : St) (o : outcome TimerResult) :
  well_formed (self st) -> get_result id st = (st', o) ->
  well_formed (self st').
Proof.
  intros Hwf. pose proof Hwf as (Hnd & Hids & Hsnd & Hall & Hnt).
  assert (Hset : forall s r,
            well_formed (self s) -> well_formed (self (set_result id r s))).
  { intros s r (H1 & H2 & H3 & H4 & H5). unfold well_formed, set_result.
    cbn [set_self self _timer _timer_id _stats _stats_namedtuple].
    assert (Hk : dict_keys (map (fun kv : Z * Timer =>
                   if Z.eqb (fst kv) id
                   then (fst kv,
                         {| timer_id := timer_id (snd kv);
                            timer_stmt := timer_stmt (snd kv);
                            timer_time := timer_time (snd kv);
                            timer_total_time := timer_total_time (snd kv);
                            timer_stats := timer_stats (snd kv);
                            timer_result := Some r;
                            timer_results := timer_results (snd kv) |})
                   else kv) (_timer (self s))) = dict_keys (_timer (self s))).
    { unfold dict_keys. rewrite map_map. apply map_ext. intros kv.
      now destruct (Z.eqb (fst kv) id). }
    rewrite Hk. repeat (split; [assumption|]). split; [|assumption].
    rewrite Forall_map. eapply Forall_impl; [|exact H4].
    intros kv Hkv. now destruct (Z.eqb (fst kv) id). }
  assert (Hrest : forall s fields,
            well_formed (self s) ->
            match zget id (_timer (self st)) with
            | Some timer =>
                match timer_result timer with
                | Some result => ret result
                | None =>
                    stats <- lift (make_stats fields (timer_stats timer)) ;;
                    modify (set_result id
                              {| res_id := timer_id timer;
                                 res_repeat := timer_repeat timer;
                                 res_stats := stats;
                                 res_time := timer_time timer;
                                 res_number := _number (self st) |}) ;;
                    ret
                      {| res_id := timer_id timer;
                         res_repeat := timer_repeat timer;
                         res_stats := stats;
                         res_time := timer_time timer;
                         res_number := _number (self st) |}
                end
            | None => raise KeyError
            end s = (st', o) -> well_formed (self st')).
  { intros s fields Hs.
    destruct (zget id (_timer (self st))) as [t|];
      [|intros H; inversion H; subst; assumption].
    destruct (timer_result t); [intros H; inversion H; subst; assumption|].
    unfold bind, lift.
    destruct (make_stats fields (timer_stats t));
      try (intros H; inversion H; subst; assumption).
    unfold modify, ret. intros H. inversion H; subst. now apply Hset. }
  unfold get_result. unfold bind at 1, gets at 1. unfold bind at 1.
  destruct (_stats_namedtuple (self st)) as [fields|] eqn:E.
  - unfold ret at 1. now apply Hrest.
  - unfold bind at 1, lift at 1. unfold namedtuple.
    destruct (_ && _ && _); [|intros H; inversion H; subst; assumption].
    unfold bind at 1, modify at 1, ret at 1. apply Hrest.
    unfold well_formed. cbn. repeat (split; [assumption|]).
    intros fields H. now inversion H.
Qed.

(** On an object as the operations leave it, and when the registered
    names pass the checks of [namedtuple], [get_result] raises [KeyError]
    for an id that is no key, returns the cached result of a timer that
    has one, and otherwise returns and caches a result with the timer's
    id, durations, their number, its stats map and the object's iteration
    count. *)
Theorem get_result_builds (id : Z) (st : St) :
  well_formed (self st) ->
  namedtuple (dict_keys (_stats (self st))) = Ok (dict_keys (_stats (self st))) ->
  (zget id (_timer (self st)) = None ->
   exists st1, get_result id st = (st1, Raise KeyError) /\
               world st1 = world st /\ _timer (self st1) = _timer (self st)) /\
  (forall t res, zget id (_timer (self st)) = Some t ->
     timer_result t = Some res ->
     exists st1, get_result id st = (st1, Ok res) /\
                 world st1 = world st /\ _timer (self st1) = _timer (self st)) /\
  (forall t, zget id (_timer (self st)) = Some t ->
     timer_result t = None ->
     exists st1 t1,
       get_result id st =
         (st1, Ok {| res_id := id; res_repeat := List.length (timer_time t);
                     res_stats := timer_stats t; res_time := timer_time t;
                     res_number := _number (self st) |}) /\
       world st1 = world st /\
       zget id (_timer (self st1)) = Some t1 /\
       timer_result t1 =
         Some {| res_id := id; res_repeat := List.length (timer_time t);
                 res_stats := timer_stats t; res_time := timer_time t;
                 res_number := _number (self st) |}).
Proof.
  intros (Hnd & Hids & Hsnd & Hall & Hnt) Hnames.
  assert (Hfields : exists s0,
            (match _stats_namedtuple (self st) with
             | Some fields => ret fields
             | None =>
                 fields <- lift (namedtuple (dict_keys (_stats (self st)))) ;;
                 modify (set_self (fun c =>
                   {| _timer_id := _timer_id c; _timer := _timer c;
                      _stats := _stats c; _number := _number c;
                      _stats_namedtuple := Some fields;
                      _catch_interrupt := _catch_interrupt c |})) ;;
                 ret fields
             end) st = (s0, Ok (dict_keys (_stats (self st)))) /\
            world s0 = world st /\ _timer (self s0) = _timer (self st)).
  { destruct (_stats_namedtuple (self st)) as [fields|] eqn:E.
    - rewrite (Hnt fields eq_refl). exists st. auto.
    - unfold bind, lift. rewrite Hnames. cbn. eexists. split; [reflexivity|].
      cbn. auto. }
  destruct Hfields as (s0 & Hf & Hw0 & Ht0).
  split; [|split].
  - intros Hget. exists s0. unfold get_result, bind at 1, gets at 1.
    unfold bind at 1. rewrite Hf, Hget. auto.
  - intros t res Hget Hres. exists s0. unfold get_result, bind at 1, gets at 1.
    unfold bind at 1. rewrite Hf, Hget, Hres. auto.
  - intros t Hget Hres. unfold get_result, bind at 1, gets at 1.
    unfold bind at 1. rewrite Hf, Hget, Hres.
    pose proof (zget_In _ _ _ Hget) as Hin. rewrite Forall_forall in Hall.
    destruct (Hall _ Hin) as [Hid Hkeys]. cbn in Hid, Hkeys.
    unfold bind, lift. rewrite <- Hkeys.
    rewrite make_stats_same_keys by (rewrite Hkeys; assumption).
    unfold modify, ret, timer_repeat. rewrite Hid.
    rewrite <- Ht0 in Hget.
    destruct (zget_set_result id
                {| res_id := id; res_repeat := List.length (timer_time t);
                   res_stats := timer_stats t; res_time := timer_time t;
                   res_number := _number (self st) |} _ _ Hget)
      as (t' & Hget' & Hres' & _).
    eexists. exists t'. split; [reflexivity|]. cbn. auto.
Qed.

(** [add_stat] accepts a name whose lowercase form is a keyword, since it
    checks the name before lowering it; from then on [get_result] raises
    [ValueError] for every id, because [namedtuple] rejects the field. *)
Theorem get_result_rejects_keyword_name (stat : pyval) (f : StatFunc)
    (name : string) (st : St) :
  _check_stat stat = Ok name ->
  iskeyword name = true ->
  exists st1,
    add_stat stat (Callable f) st = (st1, Ok tt) /\
    forall id, get_result id st1 = (st1, Raise ValueError).
Proof.
  intros Hchk Hkw. destruct (add_stat stat (Callable f) st) as [st1 o] eqn:Hadd.
  pose proof Hadd as Hadd'. apply add_stat_state in Hadd'.
  destruct Hadd' as [[_ [e ->]]|(name' & f' & Hchk' & Hf & -> & Hst1)].
  - exfalso. unfold add_stat, bind, lift in Hadd. rewrite Hchk in Hadd.
    unfold modify, gets in Hadd. cbn [set_self self world _timer] in Hadd.
    rewrite (each_value_total _ (timer_with_stat name f)) in Hadd
      by apply timer_add_stat_total.
    discriminate.
  - rewrite Hchk in Hchk'. inversion Hchk'; subst name'.
    exists st1. split; [reflexivity|]. intros id.
    unfold get_result, bind at 1, gets at 1. unfold bind at 1.
    rewrite Hst1. cbn [self _stats_namedtuple _stats].
    unfold bind at 1, lift at 1.
    assert (Hbad : namedtuple (dict_keys (sset name f' (_stats (self st))))
                   = Raise ValueError).
    { unfold namedtuple.
      assert (Hin : In name (dict_keys (sset name f' (_stats (self st))))).
      { apply (dict_mem_keys String.eqb string_eqb_reflect).
        apply (dict_mem_set String.eqb string_eqb_reflect). now left. }
      assert (E : forallb (fun name0 => str_isidentifier name0
                                        && negb (iskeyword name0))
                    (dict_keys (sset name f' (_stats (self st)))) = false).
      { destruct (forallb _ _) eqn:E; [|reflexivity].
        rewrite forallb_forall in E. specialize (E name Hin).
        rewrite Hkw in E. now destruct (str_isidentifier name). }
      now rewrite E. }
    rewrite Hbad. reflexivity.
Qed.
End ResultsSpec.

(** ** The best timer *)



Section FindBest.
Variable better : Q -> Q -> bool.
Variable stat : string.



End FindBest.

Section Best.
Context {host : Host}.



End Best.

(** ** The invariant *)

Lemma same_object_refl (s : St) : same_object s s.
Proof. reflexivity. Qed.

Lemma same_object_trans (a b c : St) :
  same_object a b -> same_object b c -> same_object a c.
Proof. unfold same_object. congruence. Qed.

Lemma unchanged_same_object {A : Type} (c : M St A) :
  preserves unchanged c -> preserves same_object c.
Proof. intros H s s' o Hc. apply H in Hc. unfold unchanged in Hc. now subst. Qed.

Section Invariant.
Context {host : Host}.

Lemma print_results_same_object (include exclude : option (list Z))
    (sort_by : pyval) (reverse : bool) (stats percentage : names_arg)
    (precision : pyval) :
  preserves same_object
    (print_results include exclude sort_by reverse stats percentage precision).
Proof.
  unfold print_results.
  apply (preserves_bind same_object same_object_trans).
  { apply unchanged_same_object, _print_results_args_unchanged. }
  intros pa. unfold _print_results.
  apply (preserves_bind same_object same_object_trans);
    [apply preserves_gets, same_object_refl|]. intros c.
  apply (preserves_bind same_object same_object_trans).
  { apply unchanged_same_object, map_m_unchanged. intros i s s' o.
    unfold deref, bind, gets.
    destruct (zget i (_timer (self s))); intros H; inversion H; reflexivity. }
  intros timers.
  apply (preserves_bind same_object same_object_trans);
    [apply preserves_lift, same_object_refl|]. intros table.
  unfold print. apply preserves_modify. reflexivity.
Qed.

Lemma get_best_well_formed (better : Q -> Q -> bool) (stat : pyval)
    (st st' : St) (o : outcome (option TimerResult)) :
  well_formed (self st) -> get_best better stat st = (st', o) ->
  well_formed (self st').
Proof.
  intros Hwf. unfold get_best, bind at 1, gets at 1. unfold bind at 1, lift at 1.
  destruct (_check_stat_select (self st) stat) as [name|e|];
    try (intros H; inversion H; subst; assumption).
  unfold bind at 1, lift at 1.
  destruct (find_best better name None (_timer (self st))) as [[[id v]|]|e|];
    try (intros H; inversion H; subst; assumption).
  unfold bind. destruct (get_result id st) as [s1 o1] eqn:E.
  apply get_result_well_formed in E; [|assumption].
  destruct o1; intros H; inversion H; subst; assumption.
Qed.

(** A new object has the invariant, and every method keeps it, however
    the call ends: the ids of the timers are distinct and below the
    counter, every timer carries its key as id, the registered names are
    distinct, every timer's stats map has exactly the registered names in
    the order of the registry, and a cached namedtuple class has them as
    fields. *)
Theorem methods_keep_well_formed :
  well_formed Compare_init /\
  forall st st' : St, well_formed (self st) ->
    (forall stmt o, add_timer stmt st = (st', o) -> well_formed (self st')) /\
    (forall id o, del_timer id st = (st', o) -> well_formed (self st')) /\
    (forall stat func o,
       add_stat stat func st = (st', o) -> well_formed (self st')) /\
    (forall stat o, del_stat stat st = (st', o) -> well_formed (self st')) /\
    (forall fuel repeat number time show_progress o,
       run fuel repeat number time show_progress st = (st', o) ->
       well_formed (self st')) /\
    (forall id o, get_result id st = (st', o) -> well_formed (self st')) /\
    (forall stat o, get_min stat st = (st', o) -> well_formed (self st')) /\
    (forall stat o, get_max stat st = (st', o) -> well_formed (self st')) /\
    (forall include exclude sort_by reverse stats percentage precision o,
       print_results include exclude sort_by reverse stats percentage
         precision st = (st', o) ->
       well_formed (self st')).
Proof.
  split; [apply well_formed_init|]. intros st st' Hwf.
  split; [intros; eapply add_timer_well_formed; eauto|].
  split; [intros; eapply del_timer_well_formed; eauto|].
  split; [intros; eapply add_stat_well_formed; eauto|].
  split; [intros; eapply del_stat_well_formed; eauto|].
  split; [intros; eapply run_well_formed; eauto|].
  split; [intros; eapply get_result_well_formed; eauto|].
  split; [intros; eapply get_best_well_formed; eauto|].
  split; [intros; eapply get_best_well_formed; eauto|].
  intros include exclude sort_by reverse stats percentage precision o H.
  apply print_results_same_object in H. unfold same_object in H.
  now rewrite H.
Qed.
End Invariant.

(** ** compare checks before it measures *)

Lemma same_world_refl (s : St) : same_world s s.
Proof. reflexivity. Qed.

Lemma same_world_trans (a b c : St) :
  same_world a b -> same_world b c -> same_world a c.
Proof. unfold same_world. congruence. Qed.

Section CompareChecks.
Context {host : Host}.

Lemma add_timer_same_world (stmt : Stmt) : preserves same_world (add_timer stmt).
Proof.
  intros s s' o. unfold add_timer.
  destruct (fold_left _ (_stats (self s)) (Ok (new_timer stmt)));
    intros H; inversion H; reflexivity.
Qed.

Lemma add_stat_same_world (stat : pyval) (func : func_arg) :
  preserves same_world (add_stat stat func).
Proof.
  intros s s' o H. apply add_stat_state in H.
  destruct H as [[-> _]|(name & f & _ & _ & _ & ->)]; reflexivity.
Qed.

Lemma compare_prepare_same_world (add_timers : list Stmt)
    (add_stats : list (pyval * func_arg)) (sort_by : pyval) (reverse : bool)
    (stats percentage : names_arg) (precision : pyval) :
  preserves same_world
    (compare_prepare add_timers add_stats sort_by reverse stats percentage
       precision).
Proof.
  unfold compare_prepare.
  apply (preserves_bind same_world same_world_trans).
  { apply (preserves_for_each same_world same_world_refl same_world_trans).
    intros stmt. apply (preserves_bind same_world same_world_trans);
      [apply add_timer_same_world|].
    intros id. apply preserves_ret, same_world_refl. }
  intros [].
  apply (preserves_bind same_world same_world_trans).
  { apply (preserves_for_each same_world same_world_refl same_world_trans).
    intros sf. apply add_stat_same_world. }
  intros [].
  apply (preserves_bind same_world same_world_trans).
  { intros s s' o H. apply _print_results_args_unchanged in H.
    unfold unchanged in H. now subst. }
  intros pa.
  apply (preserves_bind same_world same_world_trans);
    [apply preserves_modify; reflexivity|].
  intros []. apply preserves_ret, same_world_refl.
Qed.

(** [compare] registers the timers and statistics and checks the
    arguments of [print_results] before it runs anything: an error in
    them is raised without a single [timeit] call and without output. *)
Theorem compare_checks_before_timing (fuel : nat) (add_timers : list Stmt)
    (add_stats : list (pyval * func_arg)) (repeat number time : pyval)
    (show_progress : bool) (sort_by : pyval) (reverse : bool)
    (stats percentage : names_arg) (precision : pyval) (w : World)
    (st1 : St) (e : exn) :
  compare_prepare add_timers add_stats sort_by reverse stats percentage
    precision {| self := Compare_init; world := w |} = (st1, Raise e) ->
  compare fuel add_timers add_stats repeat number time show_progress sort_by
    reverse stats percentage precision w = (w, Raise e).
Proof.
  intros H. unfold compare, bind. rewrite H.
  apply compare_prepare_same_world in H. unfold same_world in H. cbn in H.
  now rewrite H.
Qed.
End CompareChecks.

(** ** The layout of _table *)

Lemma sum_widths_app (l1 l2 : list Z) :
  sum_widths (l1 ++ l2) = sum_widths l1 + sum_widths l2.
Proof. unfold sum_widths. induction l1; simpl; lia. Qed.

Lemma sum_widths_add (d : Z) (l : list Z) :
  sum_widths (map (fun x => x + d) l) =
  sum_widths l + d * Z.of_nat (List.length l).
Proof.
  unfold sum_widths. induction l as [|x l IH]; [simpl; lia|].
  cbn [map fold_right List.length]. rewrite IH. lia.
Qed.

Lemma nth_error_middle {A : Type} (pre post : list A) (x : A) :
  nth_error (pre ++ x :: post) (List.length pre) = Some x.
Proof. induction pre; cbn; auto. Qed.

Lemma firstn_prefix {A : Type} (pre l : list A) :
  firstn (List.length pre) (pre ++ l) = pre.
Proof. induction pre; cbn; [reflexivity|]. now f_equal. Qed.

Lemma skipn_prefix {A : Type} (pre l : list A) :
  skipn (List.length pre) (pre ++ l) = l.
Proof. induction pre; cbn; auto. Qed.

Lemma skipn_middle {A : Type} (pre post : list A) (x : A) :
  skipn (S (List.length pre)) (pre ++ x :: post) = post.
Proof. induction pre; cbn; auto. Qed.

Lemma add_at_app (pre post : list Z) (x d : Z) :
  add_at (List.length pre) d (pre ++ x :: post) = Some (pre ++ (x + d) :: post).
Proof.
  unfold add_at. now rewrite nth_error_middle, firstn_prefix, skipn_middle.
Qed.

Lemma add_range_app (d : Z) (seg : list Z) :
  forall pre post,
  add_range (List.length pre) (List.length seg) d (pre ++ seg ++ post) =
  Some (pre ++ map (fun x => x + d) seg ++ post).
Proof.
  induction seg as [|x seg IH]; intros pre post; [reflexivity|].
  cbn [List.length add_range app]. rewrite add_at_app.
  specialize (IH (pre ++ [x + d]) post).
  rewrite length_app, Nat.add_comm in IH. cbn in IH.
  rewrite <- app_assoc in IH. cbn in IH. rewrite IH.
  now rewrite <- app_assoc.
Qed.

Lemma widen_app (items : list (list nat)) :
  forall pre mid post,
  List.length mid = List.length items ->
  widen (List.length pre) items (pre ++ mid ++ post) =
  Some (pre ++ map (fun p => fst p + max_len (snd p)) (combine mid items)
        ++ post).
Proof.
  induction items as [|item items IH]; intros pre mid post Hlen.
  - destruct mid; [reflexivity|discriminate].
  - destruct mid as [|x mid]; [discriminate|]. cbn [widen app].
    rewrite add_at_app.
    specialize (IH (pre ++ [x + max_len item]) mid post).
    rewrite length_app, Nat.add_comm in IH. cbn in IH.
    rewrite <- app_assoc in IH. cbn in IH. rewrite IH by (cbn in Hlen; lia).
    now rewrite <- app_assoc.
Qed.

Lemma max_len_bound (cell : nat) (item : list nat) :
  In cell item -> Z.of_nat cell <= max_len item.
Proof.
  unfold max_len. induction item as [|x item IH]; [intros []|].
  intros [->|H]; cbn; [lia|]. specialize (IH H). lia.
Qed.

Lemma max_len_nonneg (item : list nat) : 0 <= max_len item.
Proof. unfold max_len. induction item; cbn; lia. Qed.

Lemma zip_rows_cons (row row' : list nat) (rows : list (list nat)) :
  zip_rows (row :: row' :: rows) =
  map (fun p => fst p :: snd p) (combine row (zip_rows (row' :: rows))).
Proof. reflexivity. Qed.

Lemma zip_rows_length (m : nat) (body : list (list nat)) :
  body <> [] -> Forall (fun row => List.length row = m) body ->
  List.length (zip_rows body) = m.
Proof.
  induction body as [|row rows IH]; intros Hne Hall; [congruence|].
  inversion Hall as [|? ? Hrow Hrows]; subst.
  destruct rows as [|row' rows'].
  - cbn. now rewrite length_map.
  - rewrite zip_rows_cons, length_map, length_combine.
    rewrite IH by (auto; discriminate). lia.
Qed.

Lemma zip_rows_In (m : nat) (body : list (list nat)) (row : list nat) :
  Forall (fun row => List.length row = m) body -> In row body ->
  Forall2 (fun cell item => In cell item) row (zip_rows body).
Proof.
  induction body as [|r rows IH]; intros Hall Hin; [destruct Hin|].
  inversion Hall as [|? ? Hr Hrows]; subst.
  destruct rows as [|r' rows'].
  - destruct Hin as [<-|[]]. cbn. clear. induction r; cbn; constructor; auto.
    now left.
  - assert (Hlen : List.length (zip_rows (r' :: rows')) = List.length r).
    { apply zip_rows_length; [discriminate|assumption]. }
    rewrite zip_rows_cons.
    destruct Hin as [<-|Hin].
    + revert Hlen. generalize (zip_rows (r' :: rows')). clear.
      induction r as [|x r IH]; intros [|item items] Hlen; try discriminate;
        cbn; constructor; [now left|]. apply IH. cbn in Hlen. lia.
    + specialize (IH Hrows Hin). revert Hlen IH.
      generalize (zip_rows (r' :: rows')). clear. revert row.
      induction r as [|x r IHr]; intros row [|item items] Hlen H;
        try discriminate; inversion H; subst; cbn; constructor.
      * now right.
      * apply IHr; [cbn in Hlen; lia|assumption].
Qed.

Lemma widened_fits (row : list nat) (items : list (list nat)) :
  Forall2 (fun cell item => In cell item) row items ->
  Forall2 (fun cell w => Z.of_nat cell + 2 <= w) row
    (map (fun p => fst p + max_len (snd p))
         (combine (List.repeat 2 (List.length items)) items)).
Proof.
  induction 1 as [|cell item row items Hin _ IH];
    cbn [List.length List.repeat combine map fst snd]; constructor; auto.
  apply max_len_bound in Hin. lia.
Qed.

Lemma widened_nonneg (items : list (list nat)) :
  Forall (fun w => 0 <= w)
    (map (fun p => fst p + max_len (snd p))
         (combine (List.repeat 2 (List.length items)) items)).
Proof.
  induction items as [|item items IH];
    cbn [List.length List.repeat combine map fst snd]; constructor; auto.
  pose proof (max_len_nonneg item). lia.
Qed.

Lemma fits_le (row : list nat) (w w' : list Z) :
  Forall2 (fun cell x => Z.of_nat cell + 2 <= x) row w ->
  Forall2 Z.le w w' ->
  Forall2 (fun cell x => Z.of_nat cell + 2 <= x) row w'.
Proof.
  intros H. revert w'. induction H as [|cell x row w Hc _ IH]; intros w' Hle;
    inversion Hle; subst; constructor; [lia|auto].
Qed.

Lemma Forall2_le_refl (l : list Z) : Forall2 Z.le l l.
Proof. induction l; constructor; auto; lia. Qed.

Lemma Forall2_le_nonneg (l l' : list Z) :
  Forall (fun x => 0 <= x) l -> Forall2 Z.le l l' -> Forall (fun x => 0 <= x) l'.
Proof.
  intros H Hle. induction Hle; inversion H; subst; constructor; [lia|auto].
Qed.

Lemma header_step_spec (pre seg post : list Z) (s : nat) (col : positive) :
  List.length seg = Pos.to_nat col ->
  Forall (fun x => 0 <= x) seg ->
  exists seg' hw,
    header_step (List.length pre) (pre ++ seg ++ post) s col =
      Some ((List.length pre + Pos.to_nat col)%nat, pre ++ seg' ++ post, hw) /\
    List.length seg' = List.length seg /\
    Forall2 Z.le seg seg' /\
    Z.of_nat s + 2 <= hw /\
    hw = sum_widths seg' + Z.of_nat (List.length seg') - 1.
Proof.
  intros Hlen Hpos. unfold header_step.
  destruct (Pos.eqb_spec col 1) as [->|Hcol].
  - destruct seg as [|x [|y seg]]; try discriminate. cbn [app].
    rewrite nth_error_middle, firstn_prefix, skipn_middle.
    destruct (Z.of_nat s + 2 >? x)%Z eqn:Hgt.
    + exists [Z.of_nat s + 2], (Z.of_nat s + 2).
      assert (Hlt : (Z.of_nat s + 2 <? x)%Z = false) by lia.
      rewrite Hlt. cbn. split; [reflexivity|]. split; [reflexivity|].
      split; [constructor; [lia|constructor]|]. lia.
    + exists [x], (if (Z.of_nat s + 2 <? x)%Z then x else Z.of_nat s + 2).
      cbn. split; [reflexivity|]. split; [reflexivity|].
      split; [constructor; [lia|constructor]|].
      destruct (Z.of_nat s + 2 <? x)%Z eqn:Hlt; lia.
  - assert (Hseg : firstn (Pos.to_nat col)
                     (skipn (List.length pre) (pre ++ seg ++ post)) = seg).
    { rewrite skipn_prefix, <- Hlen. apply firstn_prefix. }
    rewrite Hseg.
    assert (Hsum : 0 <= sum_widths seg).
    { clear - Hpos. unfold sum_widths. induction Hpos; cbn; lia. }
    remember (Z.of_nat s + 2) as hw0 eqn:Hhw0.
    remember (sum_widths seg + Z.pos col - 1) as bw eqn:Hbw.
    destruct (hw0 >? bw)%Z eqn:Hgt.
    + remember (hw0 - bw) as d eqn:Hd.
      assert (Hdpos : 0 < d) by lia.
      pose proof (Z.mod_pos_bound d (Z.pos col) ltac:(lia)) as Hr.
      pose proof (Z.div_mod d (Z.pos col) ltac:(lia)) as Hdm.
      assert (Hq : 0 <= d / Z.pos col) by (apply Z.div_pos; lia).
      rewrite <- Hlen. rewrite add_range_app.
      remember (map (fun x => x + d / Z.pos col) seg) as seg1 eqn:Hseg1.
      remember (Z.to_nat (d mod Z.pos col)) as r eqn:Hr0.
      assert (Hl1 : List.length seg1 = List.length seg)
        by (subst seg1; apply length_map).
      assert (Hr' : (r <= List.length seg1)%nat) by lia.
      assert (Hrl : List.length (firstn r seg1) = r)
        by (rewrite length_firstn; lia).
      assert (Hadd : add_range (List.length pre) r 1 (pre ++ seg1 ++ post) =
                     Some (pre ++ (map (fun x => x + 1) (firstn r seg1)
                                   ++ skipn r seg1) ++ post)).
      { pose proof (add_range_app 1 (firstn r seg1) pre (skipn r seg1 ++ post))
          as H.
        rewrite Hrl in H. rewrite (app_assoc (firstn r seg1)) in H.
        rewrite firstn_skipn in H. rewrite H. now rewrite <- app_assoc. }
      rewrite Hadd.
      exists (map (fun x => x + 1) (firstn r seg1) ++ skipn r seg1), hw0.
      assert (Hlt : (hw0 <? d)%Z = false) by lia.
      rewrite Hlt.
      split; [reflexivity|].
      assert (Hl' : List.length (map (fun x => x + 1) (firstn r seg1)
                                 ++ skipn r seg1) = List.length seg).
      { rewrite length_app, length_map, length_firstn, length_skipn. lia. }
      split; [exact Hl'|]. split; [|split; [lia|]].
      * assert (H1 : Forall2 Z.le seg seg1).
        { subst seg1. clear - Hq. induction seg; cbn; constructor; auto. lia. }
        assert (H2 : Forall2 Z.le seg1
                       (map (fun x => x + 1) (firstn r seg1) ++ skipn r seg1)).
        { rewrite <- (firstn_skipn r seg1) at 1. apply Forall2_app.
          - clear. induction (firstn r seg1); cbn; constructor; auto. lia.
          - apply Forall2_le_refl. }
        clear - H1 H2. revert H2.
        generalize (map (fun x => x + 1) (firstn r seg1) ++ skipn r seg1).
        induction H1; intros l2 H2; inversion H2; subst; constructor;
          [lia|auto].
      * rewrite Hl', Hlen, positive_nat_Z.
        rewrite sum_widths_app, sum_widths_add, Hrl.
        assert (Hs1 : sum_widths (firstn r seg1) + sum_widths (skipn r seg1)
                      = sum_widths seg1).
        { rewrite <- sum_widths_app. now rewrite firstn_skipn. }
        assert (Hs2 : sum_widths seg1 =
                      sum_widths seg + d / Z.pos col * Z.pos col).
        { subst seg1. rewrite sum_widths_add, Hlen, positive_nat_Z.
          reflexivity. }
        subst r. rewrite Z2Nat.id by lia. lia.
    + exists seg, (if (hw0 <? bw)%Z then bw else hw0).
      split; [reflexivity|]. split; [reflexivity|].
      split; [apply Forall2_le_refl|].
      rewrite Hlen, positive_nat_Z.
      destruct (hw0 <? bw)%Z eqn:Hlt; lia.
Qed.

Lemma header_loop_spec (columns : list (nat * positive)) :
  forall pre rest hws,
  List.length rest = count_cols (map snd columns) ->
  Forall (fun x => 0 <= x) rest ->
  exists rest' hws',
    header_loop columns (List.length pre) (pre ++ rest) hws =
      Some (pre ++ rest', hws ++ hws') /\
    List.length rest' = List.length rest /\
    Forall2 Z.le rest rest' /\
    Forall2 (fun p hw => Z.of_nat (fst p) + 2 <= hw) columns hws' /\
    hws' = map (fun span => sum_widths span + Z.of_nat (List.length span) - 1)
               (spans (map snd columns) rest') /\
    sum_widths hws' + Z.of_nat (List.length hws') =
    sum_widths rest' + Z.of_nat (List.length rest').
Proof.
  induction columns as [|[s col] columns IH]; intros pre rest hws Hlen Hpos.
  - destruct rest; [|discriminate]. exists [], []. cbn.
    rewrite !app_nil_r. repeat split; constructor.
  - cbn [map snd count_cols fold_right] in Hlen.
    fold (count_cols (map snd columns)) in Hlen.
    set (n := Pos.to_nat col) in *.
    assert (Hrest : rest = firstn n rest ++ skipn n rest)
      by (symmetry; apply firstn_skipn).
    assert (Hseg : List.length (firstn n rest) = n)
      by (rewrite length_firstn; lia).
    assert (Hrest2 : List.length (skipn n rest) = count_cols (map snd columns))
      by (rewrite length_skipn; lia).
    assert (Hpos1 : Forall (fun x => 0 <= x) (firstn n rest)).
    { rewrite Hrest in Hpos. now apply Forall_app in Hpos. }
    assert (Hpos2 : Forall (fun x => 0 <= x) (skipn n rest)).
    { rewrite Hrest in Hpos. now apply Forall_app in Hpos. }
    destruct (header_step_spec pre (firstn n rest) (skipn n rest) s col Hseg Hpos1)
      as (seg' & hw & Hstep & Hl' & Hle & Hfit & Hhw).
    rewrite firstn_skipn in Hstep.
    destruct (IH (pre ++ seg') (skipn n rest) (hws ++ [hw]) Hrest2 Hpos2)
      as (rest2' & hws2' & Hloop & Hl2 & Hle2 & Hfit2 & Hspans & Hsum).
    exists (seg' ++ rest2'), (hw :: hws2').
    split; [|split; [|split; [|split; [|split]]]].
    + cbn [header_loop]. rewrite Hstep.
      rewrite length_app, Hl', Hseg in Hloop. rewrite <- !app_assoc in Hloop.
      fold n. rewrite Hloop. reflexivity.
    + rewrite length_app, Hl', Hl2, Hseg, length_skipn.
      assert (n <= List.length rest)%nat by lia. lia.
    + rewrite Hrest at 1. now apply Forall2_app.
    + constructor; assumption.
    + cbn [map snd spans]. fold n. rewrite <- Hseg, <- Hl'.
      rewrite firstn_prefix, skipn_prefix. cbn [map]. now rewrite <- Hspans, Hhw.
    + cbn [sum_widths fold_right List.length].
      fold (sum_widths hws2'). rewrite sum_widths_app, length_app.
      rewrite Nat2Z.inj_succ, Nat2Z.inj_add. lia.
Qed.

Lemma combine_snd {A B : Type} (l : list A) (l' : list B) :
  List.length l = List.length l' -> map snd (combine l l') = l'.
Proof.
  revert l'. induction l as [|x l IH]; intros [|y l'] H; try discriminate;
    [reflexivity|]. cbn. f_equal. apply IH. cbn in H. lia.
Qed.

Lemma max_widths_bound (title : Z) (notes : list Z) :
  title <= fold_right Z.max title notes /\
  Forall (fun n => n <= fold_right Z.max title notes) notes.
Proof.
  induction notes as [|n notes [IH1 IH2]]; cbn; [split; [lia|constructor]|].
  split; [lia|]. constructor; [lia|].
  eapply Forall_impl; [|exact IH2]. cbn. intros. lia.
Qed.

(** The widths that [table_layout] returns. *)
Lemma table_layout_spec (title : nat) (header : list nat)
    (header_cols : list positive) (body : list (list nat)) (note : nat)
    (notes : list nat) :
  header <> [] ->
  List.length header = List.length header_cols ->
  Forall (fun row => List.length row = count_cols header_cols) body ->
  exists lay,
    table_layout title header header_cols body note notes = Some lay /\
    List.length (lay_body_width lay) = count_cols header_cols /\
    Forall (fun row =>
              Forall2 (fun cell w => Z.of_nat cell + 2 <= w) row
                      (lay_body_width lay)) body /\
    Forall2 (fun s hw => Z.of_nat s + 2 <= hw) header (lay_header_width lay) /\
    lay_header_width lay =
      map (fun span => sum_widths span + Z.of_nat (List.length span) - 1)
          (spans header_cols (lay_body_width lay)) /\
    line_width (lay_left lay) (lay_right lay) (lay_header_width lay) =
      lay_total_width lay /\
    line_width (lay_left lay) (lay_right lay) (lay_body_width lay) =
      lay_total_width lay /\
    0 <= lay_left lay /\ 0 <= lay_right lay /\
    Z.of_nat title <= lay_total_width lay /\
    Forall (fun n => Z.of_nat n <= lay_total_width lay) (note :: notes).
Proof.
  intros Hne Hlen Hrows. unfold table_layout.
  set (m := count_cols header_cols) in *.
  assert (Hw : exists w0,
            widen 0 (zip_rows body) (List.repeat 2 m) = Some w0 /\
            List.length w0 = m /\ Forall (fun x => 0 <= x) w0 /\
            Forall (fun row =>
                      Forall2 (fun cell w => Z.of_nat cell + 2 <= w) row w0)
                   body).
  { destruct body as [|row rows].
    - exists (List.repeat 2 m). split; [reflexivity|].
      split; [apply repeat_length|]. split; [|constructor].
      apply Forall_forall. intros x Hx. apply repeat_spec in Hx. lia.
    - assert (Hz : List.length (zip_rows (row :: rows)) = m)
        by (apply zip_rows_length; [discriminate|assumption]).
      pose proof (widen_app (zip_rows (row :: rows)) [] (List.repeat 2 m) [])
        as Hwiden.
      rewrite app_nil_r in Hwiden. cbn [List.length app] in Hwiden.
      rewrite Hwiden by (rewrite repeat_length; lia).
      rewrite app_nil_r. eexists. split; [reflexivity|].
      rewrite <- Hz. split; [|split].
      + rewrite length_map, length_combine, repeat_length. lia.
      + apply widened_nonneg.
      + apply Forall_forall. intros r Hr. apply widened_fits.
        eapply zip_rows_In; eauto. }
  destruct Hw as (w0 & Hwiden & Hl0 & Hpos0 & Hfit0). rewrite Hwiden.
  destruct (header_loop_spec (combine header header_cols) [] w0 [])
    as (w' & hws & Hloop & Hl' & Hle & Hfit & Hspans & Hsum).
  { rewrite combine_snd by assumption. exact Hl0. }
  { exact Hpos0. }
  cbn [List.length app] in Hloop. rewrite Hloop.
  rewrite combine_snd in Hspans by assumption.
  assert (Hfit' : Forall2 (fun s hw => Z.of_nat s + 2 <= hw) header hws).
  { clear - Hfit Hlen. revert header_cols hws Hlen Hfit.
    induction header as [|s header IH]; intros [|c cols] hws Hlen Hfit;
      try discriminate; inversion Hfit; subst; constructor; auto.
    eapply IH; [|eassumption]. cbn in Hlen. lia. }
  assert (Hbody : Forall (fun row =>
                    Forall2 (fun cell w => Z.of_nat cell + 2 <= w) row w') body).
  { eapply Forall_impl; [|exact Hfit0]. intros row Hrow.
    exact (fits_le row w0 w' Hrow Hle). }
  pose proof (max_widths_bound (Z.of_nat title) (map Z.of_nat (note :: notes)))
    as [Htitle Hnotes].
  rewrite Forall_map in Hnotes.
  set (other := fold_right Z.max (Z.of_nat title) (map Z.of_nat (note :: notes)))
    in *.
  set (total := sum_widths hws + Z.of_nat (List.length hws) + 1).
  destruct (other >? total)%Z eqn:Hgt.
  - eexists. split; [reflexivity|]. cbn [lay_body_width lay_header_width
      lay_total_width lay_left lay_right].
    assert (Hd : 0 < other - total) by lia.
    pose proof (Z.div_pos (other - total) 2 ltac:(lia) ltac:(lia)) as Hq.
    pose proof (Z.mul_div_le (other - total) 2 ltac:(lia)) as Hq2.
    split; [lia|]. split; [assumption|]. split; [assumption|].
    split; [assumption|]. unfold line_width. fold total.
    split; [lia|]. split; [lia|]. split; [lia|]. split; [lia|].
    split; [assumption|assumption].
  - eexists. split; [reflexivity|]. cbn [lay_body_width lay_header_width
      lay_total_width lay_left lay_right].
    split; [lia|]. split; [assumption|]. split; [assumption|].
    split; [assumption|]. unfold line_width. fold total.
    split; [lia|]. split; [lia|]. split; [lia|]. split; [lia|].
    split; [lia|]. eapply Forall_impl; [|exact Hnotes].
    intros n Hn. cbv beta in Hn. lia.
Qed.

(** When there is a header cell for every column count and every row has
    as many cells as the column counts add up to, [_table] finds its
    widths without an [IndexError], and they make a table: every cell of
    the body and the header has room for its text and a blank on each
    side; each header cell is exactly as wide as the body columns under it
    with the bars between them; and the header line, the body lines, both
    with their margins, and the title line all have the total width, into
    which the title and the notes fit. *)
Theorem table_layout_aligned (title : nat) (header : list nat)
    (header_cols : list positive) (body : list (list nat)) (note : nat)
    (notes : list nat) :
  header <> [] ->
  List.length header = List.length header_cols ->
  Forall (fun row => List.length row = count_cols header_cols) body ->
  exists lay,
    table_layout title header header_cols body note notes = Some lay /\
    List.length (lay_body_width lay) = count_cols header_cols /\
    Forall (fun row =>
              Forall2 (fun cell w => Z.of_nat cell + 2 <= w) row
                      (lay_body_width lay)) body /\
    Forall2 (fun s hw => Z.of_nat s + 2 <= hw) header (lay_header_width lay) /\
    lay_header_width lay =
      map (fun span => sum_widths span + Z.of_nat (List.length span) - 1)
          (spans header_cols (lay_body_width lay)) /\
    line_width (lay_left lay) (lay_right lay) (lay_header_width lay) =
      lay_total_width lay /\
    line_width (lay_left lay) (lay_right lay) (lay_body_width lay) =
      lay_total_width lay /\
    0 <= lay_left lay /\ 0 <= lay_right lay /\
    Z.of_nat title <= lay_total_width lay /\
    Forall (fun n => Z.of_nat n <= lay_total_width lay) (note :: notes).
Proof. apply table_layout_spec. Qed.

Lemma count_cols_to_pos (cols : list Z) :
  Forall (fun col => 0 < col) cols ->
  Z.of_nat (count_cols (map Z.to_pos cols)) = sum_cols cols.
Proof.
  induction 1 as [|col cols Hcol _ IH]; [reflexivity|].
  cbn [map count_cols fold_right]. fold (count_cols (map Z.to_pos cols)).
  rewrite sum_cols_cons, Nat2Z.inj_add, IH, positive_nat_Z, Z2Pos.id; lia.
Qed.

Lemma results_table_cols (c : Compare) (timers : list Timer)
    (sort_by : option string) (reverse : bool) (stats percentage : list string)
    (precision : Z) (table : Table) :
  results_table c timers sort_by reverse stats percentage precision = Ok table ->
  tbl_header table <> [] /\
  Forall (fun col => 0 < col) (tbl_header_cols table).
Proof.
  unfold results_table. intros H.
  destruct (sort_timers sort_by reverse timers) as [rows|e|]; try discriminate.
  destruct (compute_max_value percentage rows) as [mv|e|]; try discriminate.
  destruct (lines_m _ rows) as [body|e|]; try discriminate.
  inversion H; subst. cbn. split; [discriminate|].
  repeat (constructor; [lia|]). apply Forall_forall. intros col Hcol.
  apply in_map_iff in Hcol. destruct Hcol as (stat & <- & _).
  destruct (mem_string stat percentage); lia.
Qed.

(** The table that [_print_results] builds fits [_table]: whatever the
    lengths of the texts, [_table] finds its widths without an
    [IndexError], and the header line and the body lines have the same
    width. *)
Theorem printed_table_lays_out (c : Compare) (timers : list Timer)
    (sort_by : option string) (reverse : bool) (stats percentage : list string)
    (precision : Z) (table : Table) (len_header : hcell -> nat)
    (len_cell : cell -> nat) (title note : nat) (notes : list nat) :
  results_table c timers sort_by reverse stats percentage precision = Ok table ->
  exists lay,
    table_layout title (map len_header (tbl_header table))
      (map Z.to_pos (tbl_header_cols table))
      (map (map len_cell) (tbl_body table)) note notes = Some lay /\
    Z.of_nat (List.length (lay_body_width lay)) =
      sum_cols (tbl_header_cols table) /\
    line_width (lay_left lay) (lay_right lay) (lay_header_width lay) =
      lay_total_width lay /\
    line_width (lay_left lay) (lay_right lay) (lay_body_width lay) =
      lay_total_width lay.
Proof.
  intros Htable.
  destruct (results_table_shape _ _ _ _ _ _ _ _ Htable) as (Hlen & _ & Hrows).
  destruct (results_table_cols _ _ _ _ _ _ _ _ Htable) as (Hne & Hcols).
  pose proof (count_cols_to_pos _ Hcols) as Hcount.
  destruct (table_layout_spec title (map len_header (tbl_header table))
              (map Z.to_pos (tbl_header_cols table))
              (map (map len_cell) (tbl_body table)) note notes)
    as (lay & Hlay & Hl & _ & _ & _ & Hh & Hb & _).
  - destruct (tbl_header table); [congruence|discriminate].
  - now rewrite !length_map.
  - rewrite Forall_map. eapply Forall_impl; [|exact Hrows].
    intros row Hrow. cbv beta in Hrow. rewrite length_map. lia.
  - exists lay. split; [exact Hlay|]. split; [|split; assumption].
    rewrite Hl. exact Hcount.
Qed.

(** ** Instances *)

Ltac well_formed_here :=
  vm_compute;
  repeat match goal with
         | |- _ /\ _ => split
         | |- NoDup _ => constructor
         | |- Forall _ _ => constructor
         | |- _ = _ => reflexivity
         | |- forall _, _ => intro
         | |- ~ _ => intro
         | H : In _ _ |- _ => simpl in H
         | H : False |- _ => destruct H
         | H : _ \/ _ |- _ => destruct H
         | H : _ = _ |- _ => first [discriminate H | subst]
         end.


(** An instance: of two timers the first is deleted; the next timer gets
    the id 2. *)
Lemma del_timer_removes_witness :
  let h := Example.host (Example.steady (1 # 4)) in
  let st := Example.registered h [Source "a"; Source "b"] in
  del_timer 7 st = (st, Raise KeyError) /\
  exists st',
    del_timer 0 st = (st', Ok tt) /\
    dict_keys (_timer (self st')) = [1] /\
    forall stmt st'' id',
      add_timer stmt st' = (st'', Ok id') ->
      id' <> 0 /\ ~ In id' (dict_keys (_timer (self st))).
Proof.
  intros h st.
  assert (Hwf : well_formed (self st)) by well_formed_here.
  destruct (del_timer_removes 7 st Hwf) as [Hmiss _].
  destruct (del_timer_removes 0 st Hwf) as [_ Hdel].
  split.
  - apply Hmiss. vm_compute. intros [H|[H|[]]]; discriminate H.
  - destruct Hdel as (st' & H1 & _ & _ & _ & _ & H2 & H3).
    + vm_compute. now left.
    + exists st'. auto.
Defined.

(** An instance: the statistic ["Last"], the last duration, on an object
    whose timer has run twice. *)
Lemma add_stat_recomputes_witness :
  let h := Example.host (Example.script [1 # 4; 1 # 2]) in
  let st := fst (@run h 0 (VInt 2) (VInt 1) (VFloat 1) false
                   (Example.registered h [Source "a"])) in
  let last : StatFunc := fun time => Returns (VFloat (List.last time 0%Q)) in
  exists st' t',
    @add_stat h (VStr "Last") (Callable last) st = (st', Ok tt) /\
    zget 0 (_timer (self st')) = Some t' /\
    sget "last" (timer_stats t') = Some (Some (NFloat (1 # 2))) /\
    timer_result t' = None.
Proof.
  intros h st last.
  destruct (@add_stat_recomputes h (VStr "Last") last "last" st eq_refl)
    as (st' & H1 & _ & _ & H2).
  pose (t := {| timer_id := 0; timer_stmt := Source "a";
                timer_time := [1 # 4; 1 # 2]; timer_total_time := 6 # 8;
                timer_stats :=
                  [("mean", Some (NFloat (3 # 8)));
                   ("median", Some (NFloat (3 # 8)));
                   ("min", Some (NFloat (1 # 4)));
                   ("max", Some (NFloat (1 # 2)));
                   ("std", Some (NFloat (1 # 32)))];
                timer_result := None; timer_results := Some None |}).
  destruct (H2 0 t) as (t' & H3 & _ & _ & _ & _ & H4 & _ & H5).
  - vm_compute. reflexivity.
  - exists st', t'. auto.
Defined.

(** An instance: ["nope"] is not registered; ["Median"] is, under its
    lowercase form. *)
Lemma del_stat_removes_witness :
  let h := Example.host (Example.steady (1 # 4)) in
  let st := Example.registered h [Source "a"; Source "b"] in
  @del_stat h (VStr "nope") st = (st, Raise ValueError) /\
  exists st',
    @del_stat h (VStr "Median") st = (st', Ok tt) /\
    dict_keys (_stats (self st')) = ["mean"; "min"; "max"; "std"] /\
    forall id t, zget id (_timer (self st)) = Some t ->
      exists t', zget id (_timer (self st')) = Some t' /\
                 sget "median" (timer_stats t') = None.
Proof.
  intros h st.
  assert (Hwf : well_formed (self st)) by well_formed_here.
  destruct (@del_stat_removes h (VStr "nope") st Hwf) as (_ & Hno & _).
  destruct (@del_stat_removes h (VStr "Median") st Hwf) as (_ & _ & Hyes).
  split.
  - apply (Hno "nope"); reflexivity.
  - destruct (Hyes "median") as (st' & H1 & _ & _ & _ & H2 & _ & _ & H3);
      [reflexivity..|].
    exists st'. split; [exact H1|]. split; [exact H2|].
    intros id t Hget. destruct (H3 id t Hget) as (t' & H4 & _ & _ & H5 & _).
    exists t'. auto.
Defined.

(** An instance: the statistic ["Last"] is registered and deleted
    again. *)
Lemma add_then_del_stat_witness :
  let h := Example.host (Example.steady (1 # 4)) in
  let st := Example.registered h [Source "a"] in
  let last : StatFunc := fun time => Returns (VFloat (List.last time 0%Q)) in
  let st1 := fst (@add_stat h (VStr "Last") (Callable last) st) in
  exists st2,
    @del_stat h (VStr "Last") st1 = (st2, Ok tt) /\
    _stats (self st2) = _stats (self st) /\
    map (fun kv => timer_stats (snd kv)) (_timer (self st2)) =
    map (fun kv => timer_stats (snd kv)) (_timer (self st)).
Proof.
  intros h st last st1.
  assert (Hwf : well_formed (self st)) by well_formed_here.
  eexists. split.
  - apply (@add_then_del_stat h (VStr "Last") last "last" st st1 Hwf);
      reflexivity.
  - cbn [self _stats _timer]. split; [reflexivity|].
    rewrite map_map. reflexivity.
Defined.

(** An instance: three timers, sorted by the mean, with percentages for
    the mean. *)
Lemma table_rows_fit_header_witness :
  let h := Example.host (Example.script [3 # 4; 1 # 4; 1 # 4]) in
  let st := fst (@run h 0 (VInt 1) (VInt 1) (VFloat 1) false
                   (Example.registered h [Source "a"; Source "b"; Source "c"])) in
  exists table,
    results_table (self st) (map snd (_timer (self st))) (Some "mean") false
      ["mean"; "min"] ["mean"] 2 = Ok table /\
    sum_cols (tbl_header_cols table) = 7 /\
    Forall (fun row => Z.of_nat (List.length row) = 7) (tbl_body table).
Proof.
  intros h st.
  pose (res := results_table (self st) (map snd (_timer (self st)))
                 (Some "mean") false ["mean"; "min"] ["mean"] 2).
  assert (Hres : exists table, res = Ok table /\
                               sum_cols (tbl_header_cols table) = 7).
  { vm_compute. eexists. split; reflexivity. }
  destruct Hres as (table & Hres & Hsum). exists table.
  split; [exact Hres|]. split; [exact Hsum|]. rewrite <- Hsum.
  exact (proj2 (proj2 (table_rows_fit_header _ _ _ _ _ _ _ _ Hres))).
Defined.


(** An instance: the result of a timer is asked for before the first run;
    after a run of two repetitions it still has no durations. *)
Lemma get_result_survives_run_witness :
  let h := Example.host (Example.steady (1 # 4)) in
  let st := Example.registered h [Source "a"] in
  exists st1 res st2 t2,
    @get_result h 0 st = (st1, Ok res) /\
    @run h 0 (VInt 2) (VInt 1) (VFloat 1) false st1 = (st2, Ok tt) /\
    zget 0 (_timer (self st2)) = Some t2 /\
    List.length (timer_time t2) = 2%nat /\
    @get_result h 0 st2 = (st2, Ok res) /\
    res_repeat res = 0%nat /\ res_time res = [].
Proof.
  intros h st.
  pose (g := @get_result h 0 st).
  pose (res := {| res_id := 0; res_repeat := 0;
                  res_stats := [("mean", None); ("median", None);
                                ("min", None); ("max", None); ("std", None)];
                  res_time := []; res_number := 0 |}).
  assert (Hg : g = (fst g, Ok res))
    by (apply pair_of_snd; vm_compute; reflexivity).
  pose (r := @run h 0 (VInt 2) (VInt 1) (VFloat 1) false (fst g)).
  assert (Hr : r = (fst r, Ok tt))
    by (apply pair_of_snd; vm_compute; reflexivity).
  pose (t2 := match zget 0 (_timer (self (fst r))) with
              | Some t => t
              | None => new_timer OtherStmt
              end).
  exists (fst g), res, (fst r), t2.
  split; [exact Hg|]. split; [exact Hr|].
  split; [vm_compute; reflexivity|]. split; [vm_compute; reflexivity|].
  split; [|split; reflexivity].
  exact (@get_result_survives_run h 0 0 (VInt 2) (VInt 1) (VFloat 1) false
           st (fst g) (fst r) res (Ok tt) Hg Hr).
Defined.

(** An instance: the result of a timer after a run of two repetitions;
    there is no timer 7. *)
Lemma get_result_builds_witness :
  let h := Example.host (Example.steady (1 # 4)) in
  let st := fst (@run h 0 (VInt 2) (VInt 3) (VFloat 1) false
                   (Example.registered h [Source "a"])) in
  (exists st1, @get_result h 7 st = (st1, Raise KeyError)) /\
  exists st1 stats,
    @get_result h 0 st =
      (st1, Ok {| res_id := 0; res_repeat := 2; res_stats := stats;
                  res_time := [1 # 12; 1 # 12]; res_number := 3 |}) /\
    dict_keys stats = ["mean"; "median"; "min"; "max"; "std"].
Proof.
  intros h st.
  assert (Hwf : well_formed (self st)) by well_formed_here.
  assert (Hnames : @namedtuple h (dict_keys (_stats (self st))) =
                   Ok (dict_keys (_stats (self st))))
    by (vm_compute; reflexivity).
  destruct (@get_result_builds h 7 st Hwf Hnames) as (Hmiss & _).
  destruct (@get_result_builds h 0 st Hwf Hnames) as (_ & _ & Hnew).
  split.
  - destruct Hmiss as (st1 & H1 & _); [vm_compute; reflexivity|]. eauto.
  - pose (t := match zget 0 (_timer (self st)) with
               | Some t => t
               | None => new_timer OtherStmt
               end).
    destruct (Hnew t) as (st1 & t1 & H1 & _); [vm_compute; reflexivity..|].
    exists st1, (timer_stats t). split; [|vm_compute; reflexivity].
    rewrite H1. vm_compute. reflexivity.
Defined.

(** An instance: ["IF"] is an identifier and no keyword; its lowercase
    form is a keyword. *)
Lemma get_result_rejects_keyword_name_witness :
  let h := Example.host (Example.steady (1 # 4)) in
  let st := Example.registered h [Source "a"] in
  let one : StatFunc := fun _ => Returns (VInt 1) in
  exists st1,
    @add_stat h (VStr "IF") (Callable one) st = (st1, Ok tt) /\
    dict_keys (_stats (self st1)) =
      ["mean"; "median"; "min"; "max"; "std"; "if"] /\
    @get_result h 0 st1 = (st1, Raise ValueError).
Proof.
  intros h st one.
  destruct (@get_result_rejects_keyword_name h (VStr "IF") one "if" st
              eq_refl eq_refl) as (st1 & H1 & H2).
  exists st1. split; [exact H1|]. split; [|apply H2].
  assert (Hk : dict_keys (_stats (self (fst (@add_stat h (VStr "IF")
                                               (Callable one) st)))) =
               ["mean"; "median"; "min"; "max"; "std"; "if"])
    by (vm_compute; reflexivity).
  rewrite H1 in Hk. exact Hk.
Defined.



(** An instance: the object after two timers, a run and the deletion of
    a statistic. *)
Lemma methods_keep_well_formed_witness :
  let h := Example.host (Example.steady (1 # 4)) in
  let st0 := {| self := @Compare_init h; world := Example.empty_world |} in
  let st1 := fst (add_timer (Source "a") st0) in
  let st2 := fst (@run h 0 (VInt 2) (VInt 1) (VFloat 1) false st1) in
  let st3 := fst (@del_stat h (VStr "std") st2) in
  well_formed (self st3).
Proof.
  intros h st0 st1 st2 st3.
  destruct (@methods_keep_well_formed h) as [Hinit Hkeep].
  assert (H1 : well_formed (self st1)).
  { destruct (Hkeep st0 st1 Hinit) as (Hadd & _).
    apply (Hadd (Source "a") (snd (add_timer (Source "a") st0))).
    apply surjective_pairing. }
  assert (H2 : well_formed (self st2)).
  { destruct (Hkeep st1 st2 H1) as (_ & _ & _ & _ & Hrun & _).
    apply (Hrun 0%nat (VInt 2) (VInt 1) (VFloat 1) false
             (snd (@run h 0 (VInt 2) (VInt 1) (VFloat 1) false st1))).
    apply surjective_pairing. }
  destruct (Hkeep st2 st3 H2) as (_ & _ & _ & Hdel & _).
  apply (Hdel (VStr "std") (snd (@del_stat h (VStr "std") st2))).
  apply surjective_pairing.
Defined.

(** An instance: the precision ["2"] is a string; nothing is timed. *)
Lemma compare_checks_before_timing_witness :
  let h := Example.host (Example.steady (1 # 4)) in
  @compare h 5 [Source "a"; Source "b"] [] (VInt 3) (VInt 0) (VFloat 1) true
    (VStr "mean") false NamesNone NamesNone (VStr "2") Example.empty_world
  = (Example.empty_world, Raise TypeError).
Proof.
  intros h.
  pose (prep := @compare_prepare h [Source "a"; Source "b"] [] (VStr "mean")
                  false NamesNone NamesNone (VStr "2")
                  {| self := @Compare_init h; world := Example.empty_world |}).
  assert (Hprep : prep = (fst prep, Raise TypeError))
    by (apply pair_of_snd; vm_compute; reflexivity).
  exact (@compare_checks_before_timing h 5 [Source "a"; Source "b"] []
           (VInt 3) (VInt 0) (VFloat 1) true (VStr "mean") false NamesNone
           NamesNone (VStr "2") Example.empty_world (fst prep) TypeError Hprep).
Defined.

(** An instance: a header cell over one column and one over three; the
    second header text is wider than its three columns. *)
Lemma table_layout_aligned_witness :
  exists lay,
    table_layout 20 [2; 22]%nat [1; 3]%positive
      [[1; 4; 5; 2]; [1; 3; 5; 3]]%nat 40 [25]%nat = Some lay /\
    lay_body_width lay = [4; 8; 8; 6] /\
    lay_header_width lay = [4; 24] /\
    line_width (lay_left lay) (lay_right lay) (lay_header_width lay) = 40 /\
    line_width (lay_left lay) (lay_right lay) (lay_body_width lay) = 40.
Proof.
  destruct (table_layout_aligned 20 [2; 22]%nat [1; 3]%positive
              [[1; 4; 5; 2]; [1; 3; 5; 3]]%nat 40 [25]%nat)
    as (lay & Hlay & _ & _ & _ & _ & Hh & Hb & _).
  - discriminate.
  - reflexivity.
  - repeat constructor.
  - exists lay. split; [exact Hlay|].
    assert (E : Some lay =
                Some {| lay_body_width := [4; 8; 8; 6];
                        lay_header_width := [4; 24];
                        lay_total_width := 40;
                        lay_left := 4; lay_right := 5 |})
      by (rewrite <- Hlay; vm_compute; reflexivity).
    inversion E; subst lay. cbn [lay_body_width lay_header_width].
    split; [reflexivity|]. split; [reflexivity|]. split; assumption.
Defined.

(** An instance: the table of two timers after a run, every text five
    characters long. *)
Lemma printed_table_lays_out_witness :
  let h := Example.host (Example.steady (1 # 4)) in
  let st := fst (@run h 0 (VInt 2) (VInt 1) (VFloat 1) false
                   (Example.registered h [Source "a"; Source "b"])) in
  exists table lay,
    results_table (self st) (map snd (_timer (self st))) (Some "mean") false
      ["mean"; "min"] ["mean"] 2 = Ok table /\
    table_layout 36 (map (fun _ => 5%nat) (tbl_header table))
      (map Z.to_pos (tbl_header_cols table))
      (map (map (fun _ => 5%nat)) (tbl_body table)) 50 [30%nat] = Some lay /\
    List.length (lay_body_width lay) = 7%nat /\
    line_width (lay_left lay) (lay_right lay) (lay_body_width lay) =
      lay_total_width lay.
Proof.
  intros h st.
  pose (res := results_table (self st) (map snd (_timer (self st)))
                 (Some "mean") false ["mean"; "min"] ["mean"] 2).
  assert (Hres : exists table, res = Ok table /\
                               sum_cols (tbl_header_cols table) = 7).
  { vm_compute. eexists. split; reflexivity. }
  destruct Hres as (table & Hres & Hsum). exists table.
  destruct (printed_table_lays_out (self st) (map snd (_timer (self st)))
              (Some "mean") false ["mean"; "min"] ["mean"] 2 table
              (fun _ => 5%nat) (fun _ => 5%nat) 36 50 [30%nat] Hres)
    as (lay & Hlay & Hl & _ & Hb).
  exists lay. split; [exact Hres|]. split; [exact Hlay|].
  split; [lia|exact Hb].
Defined.
